(** * Direct Debit Processing System: a shallow embedding of the lambdas

    The development follows the JavaScript sources function by function:
    - [form-processor]  (handoff builder, AES-256-CBC codec),
    - [customer-validator],
    - [webhook-handler] (verification receiver),
    - [daily-exporter]  (fixed-width export encoder),
    - [csv-loader] and the patterns of the advisor form's script.

    JavaScript strings are sequences of UTF-16 code units, DynamoDB items are
    finite maps from attribute names to attribute values, and every lambda is
    a function from an environment (clock, random source, service faults) and
    a store to a response and a new store. *)

From Stdlib Require Import ZArith NArith List Ascii String Bool Lia.
From Stdlib Require Import Strings.Byte Btauto.
From stdpp Require Import gmap list.
Import ListNotations.

Local Open Scope Z_scope.

(** ** JavaScript strings *)

(** A string is the list of its UTF-16 code units. *)
Abbreviation jsstring := (list N).

Definition js (s : string) : jsstring :=
  map N_of_ascii (list_ascii_of_string s).

Module JsString.

(** [String.prototype.repeat] *)
Definition repeat (s : jsstring) (n : nat) : jsstring :=
  concat (replicate n s).

(** The filler of [padStart]/[padEnd]: [fill] repeated and truncated to
    [n] code units (empty when [fill] is empty). *)
Definition filler (fill : jsstring) (n : nat) : jsstring :=
  take n (repeat fill n).

Definition padStart (s : jsstring) (maxLength : nat) (fill : jsstring) : jsstring :=
  if (maxLength <=? length s)%nat then s
  else filler fill (maxLength - length s) ++ s.

Definition padEnd (s : jsstring) (maxLength : nat) (fill : jsstring) : jsstring :=
  if (maxLength <=? length s)%nat then s
  else s ++ filler fill (maxLength - length s).

(** [substring(a, b)] for non-negative integer arguments: both ends are
    clamped to the length and swapped when out of order. *)
Definition substring (s : jsstring) (a b : nat) : jsstring :=
  let a' := Nat.min a (length s) in
  let b' := Nat.min b (length s) in
  let lo := Nat.min a' b' in
  let hi := Nat.max a' b' in
  take (hi - lo) (drop lo s).

(** [slice(a, b)] for non-negative integer arguments. *)
Definition slice (s : jsstring) (a b : nat) : jsstring :=
  let a' := Nat.min a (length s) in
  let b' := Nat.min b (length s) in
  take (b' - a') (drop a' s).

(** [s.replace(/[class]/g, '')]: every code unit of the class is removed. *)
Definition remove_all (class : N -> bool) (s : jsstring) : jsstring :=
  List.filter (fun c => negb (class c)) s.

Fixpoint startsWith (s p : jsstring) : bool :=
  match p, s with
  | [], _ => true
  | c :: p', d :: s' => (c =? d)%N && startsWith s' p'
  | _ :: _, [] => false
  end.

(** [Array.prototype.join] on an array of strings. *)
Fixpoint join (sep : jsstring) (l : list jsstring) : jsstring :=
  match l with
  | [] => []
  | [x] => x
  | x :: rest => x ++ sep ++ join sep rest
  end.

End JsString.

(** ** Exceptions *)

Inductive JsError :=
| TypeError (message : jsstring)
| RangeError (message : jsstring)
| SyntaxError (message : jsstring)
| URIError (message : jsstring)
| Error (message : jsstring)
| ServiceException (service : jsstring).

Definition error_message (e : JsError) : jsstring :=
  match e with
  | TypeError m | RangeError m | SyntaxError m | URIError m | Error m => m
  | ServiceException s => s
  end.

Inductive result (A : Type) :=
| Ok (a : A)
| Throw (e : JsError).
Arguments Ok {A} a.
Arguments Throw {A} e.

Definition bind {A B} (r : result A) (k : A -> result B) : result B :=
  match r with
  | Ok a => k a
  | Throw e => Throw e
  end.

Notation "'let*' x ':=' r 'in' k" := (bind r (fun x => k))
  (at level 10, x pattern, r at level 100, k at level 200).

Fixpoint map_result {A B} (f : A -> result B) (l : list A) : result (list B) :=
  match l with
  | [] => Ok []
  | a :: l' => let* b := f a in let* bs := map_result f l' in Ok (b :: bs)
  end.

(** ** The host: built-ins of the JavaScript runtime that are not modelled
    bit for bit.  Everything proved below holds for every host. *)

Class Host := {
  (** [String.prototype.toUpperCase] (Unicode case mapping). *)
  toUpperCase : jsstring -> jsstring;
  (** [new Date(string)]: the time value in milliseconds since the epoch,
      [None] for an Invalid Date. *)
  Date_parse : jsstring -> option Z;
  (** [ToBoolean] of the Number denoted by a JSON numeric literal. *)
  number_truthy : jsstring -> bool;
  (** [JSON.stringify] of the Number denoted by a JSON numeric literal. *)
  number_toJSON : jsstring -> jsstring;
}.

(** ** Dates *)

Module JsDate.

Definition msPerDay : Z := 86400000.

(** Decimal digits of a non-negative integer, most significant first. *)
Fixpoint digits_rev (fuel : nat) (n : Z) : jsstring :=
  match fuel with
  | O => []
  | S f => Z.to_N (48 + n mod 10)
           :: (if n / 10 =? 0 then [] else digits_rev f (n / 10))
  end.

Definition decimal (n : Z) : jsstring :=
  rev (digits_rev (S (Z.to_nat (Z.log2_up (n + 1)))) n).

Definition padded (width : nat) (n : Z) : jsstring :=
  JsString.padStart (decimal n) width (js "0").

(** Year, month and day of the proleptic Gregorian calendar for a day
    number counted from 1970-01-01. *)
Definition civil_from_days (day : Z) : Z * Z * Z :=
  let z := day + 719468 in
  let era := z / 146097 in
  let doe := z - era * 146097 in
  let yoe := (doe - doe / 1460 + doe / 36524 - doe / 146096) / 365 in
  let doy := doe - (365 * yoe + yoe / 4 - yoe / 100) in
  let mp := (5 * doy + 2) / 153 in
  let d := doy - (153 * mp + 2) / 5 + 1 in
  let m := if mp <? 10 then mp + 3 else mp - 9 in
  let y := yoe + era * 400 + (if m <=? 2 then 1 else 0) in
  (y, m, d).

Definition year_string (y : Z) : jsstring :=
  if (0 <=? y) && (y <=? 9999) then padded 4 y
  else (if y <? 0 then js "-" else js "+") ++ padded 6 (Z.abs y).

(** [Date.prototype.toISOString] of a valid time value. *)
Definition toISOString (t : Z) : jsstring :=
  let day := t / msPerDay in
  let ms := t mod msPerDay in
  let '(y, m, d) := civil_from_days day in
  year_string y ++ js "-" ++ padded 2 m ++ js "-" ++ padded 2 d ++ js "T"
    ++ padded 2 (ms / 3600000) ++ js ":" ++ padded 2 ((ms / 60000) mod 60)
    ++ js ":" ++ padded 2 ((ms / 1000) mod 60) ++ js "."
    ++ padded 3 (ms mod 1000) ++ js "Z".

(** [date.toISOString()] on a Date object: an Invalid Date throws. *)
Definition Date_toISOString (date : option Z) : result jsstring :=
  match date with
  | Some t => Ok (toISOString t)
  | None => Throw (RangeError (js "Invalid time value"))
  end.

End JsDate.

(** ** A reference host

    Used to run the lambdas on concrete inputs.  It agrees with the
    JavaScript runtime on ASCII text, on timestamps in the format that
    [toISOString] writes, and on integer literals written without sign,
    fraction or exponent. *)

Module RefHost.

Definition upper (c : N) : N :=
  (if (97 <=? c) && (c <=? 122) then c - 32 else c)%N.

Fixpoint digits_value (s : jsstring) (acc : Z) : option Z :=
  match s with
  | [] => Some acc
  | c :: r =>
      if ((48 <=? c) && (c <=? 57))%N
      then digits_value r (acc * 10 + (Z.of_N c - 48))
      else None
  end.

Definition days_from_civil (y m d : Z) : Z :=
  let y' := if m <=? 2 then y - 1 else y in
  let era := y' / 400 in
  let yoe := y' - era * 400 in
  let doy := (153 * (if 2 <? m then m - 3 else m + 9) + 2) / 5 + d - 1 in
  let doe := yoe * 365 + yoe / 4 - yoe / 100 + doy in
  era * 146097 + doe - 719468.

Definition days_in_month (y m : Z) : Z :=
  if m =? 2 then
    if ((y mod 4 =? 0) && negb (y mod 100 =? 0)) || (y mod 400 =? 0) then 29 else 28
  else if (m =? 4) || (m =? 6) || (m =? 9) || (m =? 11) then 30
  else 31.

Definition field (s : jsstring) (from len : nat) : option Z :=
  let f := take len (drop from s) in
  if (length f =? len)%nat then digits_value f 0 else None.

Definition literal_at (s : jsstring) (i : nat) (c : ascii) : bool :=
  bool_decide (s !! i = Some (N_of_ascii c)).

(** [YYYY-MM-DDTHH:mm:ss.sssZ] *)
Definition parse_iso (s : jsstring) : option Z :=
  if (length s =? 24)%nat
     && literal_at s 4 "-" && literal_at s 7 "-" && literal_at s 10 "T"
     && literal_at s 13 ":" && literal_at s 16 ":" && literal_at s 19 "."
     && literal_at s 23 "Z"
  then
    match field s 0 4, field s 5 2, field s 8 2, field s 11 2, field s 14 2,
          field s 17 2, field s 20 3 with
    | Some y, Some m, Some d, Some hh, Some mm, Some ss, Some ms =>
        if (1 <=? m) && (m <=? 12) && (1 <=? d) && (d <=? days_in_month y m)
           && (hh <=? 23) && (mm <=? 59) && (ss <=? 59)
        then Some (days_from_civil y m d * JsDate.msPerDay
                   + hh * 3600000 + mm * 60000 + ss * 1000 + ms)
        else None
    | _, _, _, _, _, _, _ => None
    end
  else None.

Definition nonzero_digit (c : N) : bool := ((49 <=? c) && (c <=? 57))%N.

#[global] Instance host : Host := {|
  toUpperCase := map upper;
  Date_parse := parse_iso;
  number_truthy := existsb nonzero_digit;
  number_toJSON := fun literal => literal;
|}.

End RefHost.

(** ** Bytes and UTF-8 *)

Definition byte_of_N (n : N) : byte :=
  default Byte.x00 (Byte.of_N (n mod 256)).

#[global] Instance byte_eq_decision : EqDecision byte := Byte.byte_eq_dec.

Definition chr (a : ascii) : N := N_of_ascii a.

(** The code unit of the double quote. *)
Definition DQUOTE : N := 34%N.

Module UTF8.

Definition REPLACEMENT : N := 65533%N.

Definition is_high_surrogate (c : N) : bool := ((55296 <=? c) && (c <=? 56319))%N.
Definition is_low_surrogate (c : N) : bool := ((56320 <=? c) && (c <=? 57343))%N.

(** Code points of a string; [None] marks a lone surrogate. *)
Fixpoint code_points (s : jsstring) : list (option N) :=
  match s with
  | [] => []
  | c :: r =>
      if is_high_surrogate c then
        match r with
        | d :: r' =>
            if is_low_surrogate d
            then Some (65536 + (c - 55296) * 1024 + (d - 56320))%N :: code_points r'
            else None :: code_points r
        | [] => [None]
        end
      else if is_low_surrogate c then None :: code_points r
      else Some c :: code_points r
  end.

Definition encode_code_point (cp : N) : list byte :=
  (if cp <? 128 then [byte_of_N cp]
   else if cp <? 2048 then
     [byte_of_N (192 + cp / 64); byte_of_N (128 + cp mod 64)]
   else if cp <? 65536 then
     [byte_of_N (224 + cp / 4096); byte_of_N (128 + (cp / 64) mod 64);
      byte_of_N (128 + cp mod 64)]
   else
     [byte_of_N (240 + cp / 262144); byte_of_N (128 + (cp / 4096) mod 64);
      byte_of_N (128 + (cp / 64) mod 64); byte_of_N (128 + cp mod 64)])%N.

(** The UTF-8 encoding of a string, as [Buffer.from(s, 'utf8')] and the
    USVString conversion compute it: a lone surrogate becomes U+FFFD. *)
Definition encode (s : jsstring) : list byte :=
  flat_map (fun cp => encode_code_point (default REPLACEMENT cp)) (code_points s).

(** State of the decoder: code point so far, bytes still needed, and the
    bounds of the next continuation byte. *)
Record decoder := {
  code_point : N; needed : nat; lower : N; upper : N;
}.

Definition idle : decoder :=
  {| code_point := 0; needed := 0; lower := 128; upper := 191 |}.

(** A byte read while no sequence is open: the code points emitted and the
    new state. *)
Definition lead (b : N) : list N * decoder :=
  (if b <? 128 then ([b], idle)
   else if (194 <=? b) && (b <=? 223) then
     ([], {| code_point := N.land b 31; needed := 1; lower := 128; upper := 191 |})
   else if (224 <=? b) && (b <=? 239) then
     ([], {| code_point := N.land b 15; needed := 2;
             lower := if b =? 224 then 160 else 128;
             upper := if b =? 237 then 159 else 191 |})
   else if (240 <=? b) && (b <=? 244) then
     ([], {| code_point := N.land b 7; needed := 3;
             lower := if b =? 240 then 144 else 128;
             upper := if b =? 244 then 143 else 191 |})
   else ([REPLACEMENT], idle))%N.

Definition step (st : decoder) (b : N) : list N * decoder :=
  match needed st with
  | O => lead b
  | S n =>
      if ((lower st <=? b) && (b <=? upper st))%N then
        let cp := (code_point st * 64 + N.land b 63)%N in
        match n with
        | O => ([cp], idle)
        | S _ => ([], {| code_point := cp; needed := n; lower := 128; upper := 191 |})
        end
      else
        let '(out, st') := lead b in (REPLACEMENT :: out, st')
  end.

Fixpoint decode_points (st : decoder) (bs : list byte) : list N :=
  match bs with
  | [] => match needed st with O => [] | S _ => [REPLACEMENT] end
  | b :: r => let '(out, st') := step st (Byte.to_N b) in out ++ decode_points st' r
  end.

Definition utf16 (cp : N) : jsstring :=
  (if cp <? 65536 then [cp]
   else [55296 + (cp - 65536) / 1024; 56320 + (cp - 65536) mod 1024])%N.

(** UTF-8 decode without BOM, errors replaced by U+FFFD. *)
Definition decode (bs : list byte) : jsstring :=
  flat_map utf16 (decode_points idle bs).

End UTF8.

(** ** JSON *)

Module JSON.

#[warnings="-register-all"] Inductive value :=
| Null
| Bool (b : bool)
| Number (literal : jsstring)
| String (s : jsstring)
| Array (elements : list value)
| Object (properties : list (jsstring * value)).

(** [CreateDataProperty]: an existing key keeps its place and takes the new
    value, a new key goes last. *)
Fixpoint define {A} (props : list (jsstring * A)) (k : jsstring) (v : A) :
    list (jsstring * A) :=
  match props with
  | [] => [(k, v)]
  | (k', v') :: rest =>
      if bool_decide (k' = k) then (k, v) :: rest else (k', v') :: define rest k v
  end.

Fixpoint own {A} (props : list (jsstring * A)) (k : jsstring) : option A :=
  match props with
  | [] => None
  | (k', v) :: rest => if bool_decide (k' = k) then Some v else own rest k
  end.

Definition is_ws (c : N) : bool :=
  ((c =? 32) || (c =? 9) || (c =? 10) || (c =? 13))%N.

Fixpoint skip_ws (s : jsstring) : jsstring :=
  match s with
  | c :: r => if is_ws c then skip_ws r else s
  | [] => []
  end.

Definition is_digit (c : N) : bool := ((48 <=? c) && (c <=? 57))%N.

Definition hex_value (c : N) : option N :=
  (if is_digit c then Some (c - 48)
   else if (97 <=? c) && (c <=? 102) then Some (c - 87)
   else if (65 <=? c) && (c <=? 70) then Some (c - 55)
   else None)%N.

Definition hex4 (a b c d : N) : option N :=
  match hex_value a, hex_value b, hex_value c, hex_value d with
  | Some x, Some y, Some z, Some w => Some (((x * 16 + y) * 16 + z) * 16 + w)%N
  | _, _, _, _ => None
  end.

Definition simple_escape (e : N) : option N :=
  (if e =? DQUOTE then Some (DQUOTE)
   else if e =? chr "\" then Some (chr "\")
   else if e =? chr "/" then Some (chr "/")
   else if e =? chr "b" then Some 8
   else if e =? chr "f" then Some 12
   else if e =? chr "n" then Some 10
   else if e =? chr "r" then Some 13
   else if e =? chr "t" then Some 9
   else None)%N.

(** The characters of a string literal after its opening quote. *)
Fixpoint parse_string_body (s : jsstring) (acc : jsstring) : option (jsstring * jsstring) :=
  match s with
  | [] => None
  | c :: r =>
      if (c =? DQUOTE)%N then Some (rev acc, r)
      else if (c =? chr "\")%N then
        match r with
        | [] => None
        | e :: r1 =>
            if (e =? chr "u")%N then
              match r1 with
              | h1 :: h2 :: h3 :: h4 :: r2 =>
                  match hex4 h1 h2 h3 h4 with
                  | Some u => parse_string_body r2 (u :: acc)
                  | None => None
                  end
              | _ => None
              end
            else
              match simple_escape e with
              | Some x => parse_string_body r1 (x :: acc)
              | None => None
              end
        end
      else if (c <? 32)%N then None
      else parse_string_body r (c :: acc)
  end.

Fixpoint span_digits (s : jsstring) : jsstring * jsstring :=
  match s with
  | c :: r => if is_digit c then let '(d, r') := span_digits r in (c :: d, r') else ([], s)
  | [] => ([], [])
  end.

(** A numeric literal at the head of the input: the literal and the rest. *)
Definition parse_number (s : jsstring) : option (jsstring * jsstring) :=
  let '(sign, s1) :=
    match s with
    | c :: r => if (c =? chr "-")%N then ([c], r) else ([], s)
    | [] => ([], s)
    end in
  let '(int, s2) := span_digits s1 in
  match int with
  | [] => None
  | d :: more =>
      if (d =? chr "0")%N && negb (length more =? 0)%nat then None
      else
        let frac :=
          match s2 with
          | c :: r =>
              if (c =? chr ".")%N then
                let '(f, r') := span_digits r in
                match f with [] => None | _ => Some (c :: f, r') end
              else Some ([], s2)
          | [] => Some ([], s2)
          end in
        match frac with
        | None => None
        | Some (f, s3) =>
            let exp :=
              match s3 with
              | c :: r =>
                  if (c =? chr "e")%N || (c =? chr "E")%N then
                    let '(esign, r1) :=
                      match r with
                      | g :: r' =>
                          if (g =? chr "+")%N || (g =? chr "-")%N then ([g], r') else ([], r)
                      | [] => ([], r)
                      end in
                    let '(e, r2) := span_digits r1 in
                    match e with [] => None | _ => Some (c :: esign ++ e, r2) end
                  else Some ([], s3)
              | [] => Some ([], s3)
              end in
            match exp with
            | None => None
            | Some (e, s4) => Some (sign ++ int ++ f ++ e, s4)
            end
        end
  end.

Definition expect (word : jsstring) (s : jsstring) : option jsstring :=
  if JsString.startsWith s word then Some (drop (length word) s) else None.

Fixpoint parse_value (fuel : nat) (s : jsstring) : option (value * jsstring) :=
  match fuel with
  | O => None
  | S fuel' =>
      match skip_ws s with
      | [] => None
      | c :: r =>
          if (c =? chr "{")%N then
            match skip_ws r with
            | d :: r' =>
                if (d =? chr "}")%N then Some (Object [], r')
                else parse_members fuel' (d :: r') []
            | [] => None
            end
          else if (c =? chr "[")%N then
            match skip_ws r with
            | d :: r' =>
                if (d =? chr "]")%N then Some (Array [], r')
                else parse_elements fuel' (d :: r') []
            | [] => None
            end
          else if (c =? DQUOTE)%N then
            match parse_string_body r [] with
            | Some (str, r') => Some (String str, r')
            | None => None
            end
          else if (c =? chr "t")%N then
            option_map (fun r' => (Bool true, r')) (expect (js "true") (c :: r))
          else if (c =? chr "f")%N then
            option_map (fun r' => (Bool false, r')) (expect (js "false") (c :: r))
          else if (c =? chr "n")%N then
            option_map (fun r' => (Null, r')) (expect (js "null") (c :: r))
          else
            match parse_number (c :: r) with
            | Some (lit, r') => Some (Number lit, r')
            | None => None
            end
      end
  end
with parse_members (fuel : nat) (s : jsstring) (acc : list (jsstring * value)) :
    option (value * jsstring) :=
  match fuel with
  | O => None
  | S fuel' =>
      match skip_ws s with
      | q :: r =>
          if (q =? DQUOTE)%N then
            match parse_string_body r [] with
            | Some (key, r1) =>
                match skip_ws r1 with
                | colon :: r2 =>
                    if (colon =? chr ":")%N then
                      match parse_value fuel' r2 with
                      | Some (v, r3) =>
                          match skip_ws r3 with
                          | e :: r4 =>
                              if (e =? chr ",")%N then parse_members fuel' r4 (define acc key v)
                              else if (e =? chr "}")%N then Some (Object (define acc key v), r4)
                              else None
                          | [] => None
                          end
                      | None => None
                      end
                    else None
                | [] => None
                end
            | None => None
            end
          else None
      | [] => None
      end
  end
with parse_elements (fuel : nat) (s : jsstring) (acc : list value) :
    option (value * jsstring) :=
  match fuel with
  | O => None
  | S fuel' =>
      match parse_value fuel' s with
      | Some (v, r) =>
          match skip_ws r with
          | e :: r' =>
              if (e =? chr ",")%N then parse_elements fuel' r' (acc ++ [v])
              else if (e =? chr "]")%N then Some (Array (acc ++ [v]), r')
              else None
          | [] => None
          end
      | None => None
      end
  end.

(** [JSON.parse(text)] *)
Definition parse (text : jsstring) : result value :=
  match parse_value (S (length text)) text with
  | Some (v, rest) =>
      match skip_ws rest with
      | [] => Ok v
      | _ :: _ => Throw (SyntaxError (js "Unexpected non-whitespace character after JSON"))
      end
  | None => Throw (SyntaxError (js "Unexpected token in JSON"))
  end.

Definition hex_digit (n : N) : N := (if n <? 10 then 48 + n else 87 + n)%N.

Definition unicode_escape (c : N) : jsstring :=
  js "\u" ++ [hex_digit (c / 4096); hex_digit ((c / 256) mod 16);
              hex_digit ((c / 16) mod 16); hex_digit (c mod 16)]%N.

(** [QuoteJSONString] without the surrounding quotes. *)
Fixpoint quote_body (s : jsstring) : jsstring :=
  match s with
  | [] => []
  | c :: r =>
      if (c =? 8)%N then js "\b" ++ quote_body r
      else if (c =? 9)%N then js "\t" ++ quote_body r
      else if (c =? 10)%N then js "\n" ++ quote_body r
      else if (c =? 12)%N then js "\f" ++ quote_body r
      else if (c =? 13)%N then js "\r" ++ quote_body r
      else if (c =? DQUOTE)%N then chr "\" :: DQUOTE :: quote_body r
      else if (c =? chr "\")%N then js "\\" ++ quote_body r
      else if (c <? 32)%N then unicode_escape c ++ quote_body r
      else if UTF8.is_high_surrogate c then
        match r with
        | d :: r' =>
            if UTF8.is_low_surrogate d then c :: d :: quote_body r'
            else unicode_escape c ++ quote_body r
        | [] => unicode_escape c
        end
      else if UTF8.is_low_surrogate c then unicode_escape c ++ quote_body r
      else c :: quote_body r
  end.

Definition quote (s : jsstring) : jsstring :=
  DQUOTE :: quote_body s ++ [DQUOTE].

(** Array indices: canonical decimal strings below 2^32 - 1. *)
Definition array_index (k : jsstring) : option N :=
  match k with
  | [] => None
  | d :: more =>
      if forallb is_digit k
         && negb ((d =? chr "0")%N && negb (length more =? 0)%nat)
         && (length k <=? 10)%nat
      then
        let n := fold_left (fun a c => a * 10 + (c - 48))%N k 0%N in
        if (n <? 4294967295)%N then Some n else None
      else None
  end.

Fixpoint insert_sorted {A} (i : N) (kv : A) (l : list (N * A)) : list (N * A) :=
  match l with
  | [] => [(i, kv)]
  | (j, x) :: rest =>
      if (i <? j)%N then (i, kv) :: l else (j, x) :: insert_sorted i kv rest
  end.

(** [OrdinaryOwnPropertyKeys]: array indices in ascending order, then the
    other keys in creation order. *)
Definition own_property_order {A} (props : list (jsstring * A)) : list (jsstring * A) :=
  let indexed :=
    fold_right (fun kv acc =>
                  match array_index kv.1 with
                  | Some i => insert_sorted i kv acc
                  | None => acc
                  end) [] props in
  map snd indexed
    ++ List.filter (fun kv => negb (bool_decide (is_Some (array_index kv.1)))) props.

(** [JSON.stringify(value)] for a value built by [JSON.parse] or from
    strings. *)
Fixpoint stringify `{Host} (v : value) : jsstring :=
  match v with
  | Null => js "null"
  | Bool true => js "true"
  | Bool false => js "false"
  | Number lit => number_toJSON lit
  | String s => quote s
  | Array l =>
      let elements :=
        (fix go (l : list value) : list jsstring :=
           match l with
           | [] => []
           | x :: r => stringify x :: go r
           end) l in
      js "[" ++ JsString.join (js ",") elements ++ js "]"
  | Object props =>
      let members :=
        (fix go (ps : list (jsstring * value)) : list (jsstring * jsstring) :=
           match ps with
           | [] => []
           | (k, x) :: r => (k, stringify x) :: go r
           end) props in
      js "{"
        ++ JsString.join (js ",")
             (map (fun kv => quote kv.1 ++ js ":" ++ kv.2) (own_property_order members))
        ++ js "}"
  end.

(** [ToBoolean] of a value or [undefined]. *)
Definition truthy `{Host} (v : option value) : bool :=
  match v with
  | None => false
  | Some Null => false
  | Some (Bool b) => b
  | Some (Number lit) => number_truthy lit
  | Some (String s) => negb (length s =? 0)%nat
  | Some (Array _) | Some (Object _) => true
  end.

(** [v.name] for a name that no prototype defines: a property access on
    [null] throws, primitives and arrays give [undefined]. *)
Definition get (v : value) (name : jsstring) : result (option value) :=
  match v with
  | Null => Throw (TypeError (js "Cannot read properties of null"))
  | Object props => Ok (own props name)
  | _ => Ok None
  end.

End JSON.

(** ** URLSearchParams *)

Module URLSearchParams.

Fixpoint split_on (sep : byte) (bs : list byte) : list (list byte) :=
  match bs with
  | [] => [[]]
  | b :: r =>
      match split_on sep r with
      | cur :: more => if Byte.eqb b sep then [] :: cur :: more else (b :: cur) :: more
      | [] => [[b]]
      end
  end.

(** Name and value of one [name=value] sequence: split at the first [=]. *)
Fixpoint split_pair (bs : list byte) : list byte * list byte :=
  match bs with
  | [] => ([], [])
  | b :: r =>
      if Byte.eqb b "="%byte then ([], r)
      else let '(n, v) := split_pair r in (b :: n, v)
  end.

Definition plus_to_space (b : byte) : byte :=
  if Byte.eqb b "+"%byte then " "%byte else b.

Fixpoint percent_decode (bs : list byte) : list byte :=
  match bs with
  | [] => []
  | b :: r =>
      if Byte.eqb b "%"%byte then
        match r with
        | h :: l :: r' =>
            match JSON.hex_value (Byte.to_N h), JSON.hex_value (Byte.to_N l) with
            | Some x, Some y => byte_of_N (x * 16 + y) :: percent_decode r'
            | _, _ => b :: percent_decode r
            end
        | _ => b :: percent_decode r
        end
      else b :: percent_decode r
  end.

Definition decode_component (bs : list byte) : jsstring :=
  UTF8.decode (percent_decode (map plus_to_space bs)).

(** [new URLSearchParams(init)] for a string: the list of name-value pairs. *)
Definition parse (init : jsstring) : list (jsstring * jsstring) :=
  let init :=
    match init with
    | c :: r => if (c =? chr "?")%N then r else init
    | [] => init
    end in
  flat_map (fun seq =>
              match seq with
              | [] => []
              | _ :: _ =>
                  let '(n, v) := split_pair seq in
                  [(decode_component n, decode_component v)]
              end)
           (split_on "&"%byte (UTF8.encode init)).

(** [params.get(name)]: the first value under the name, or [null]. *)
Fixpoint get (params : list (jsstring * jsstring)) (name : jsstring) : option jsstring :=
  match params with
  | [] => None
  | (k, v) :: rest => if bool_decide (k = name) then Some v else get rest name
  end.

(** [Object.fromEntries(params)] *)
Definition fromEntries (params : list (jsstring * jsstring)) : JSON.value :=
  JSON.Object
    (fold_left (fun props kv => JSON.define props kv.1 (JSON.String kv.2)) params []).

End URLSearchParams.

(** The input cut into pieces of [size] elements (the last one may be
    shorter). *)
Fixpoint chunks {A} (fuel size : nat) (l : list A) : list (list A) :=
  match fuel, l with
  | O, _ | _, [] => []
  | S fuel', _ :: _ => take size l :: chunks fuel' size (drop size l)
  end.

(** ** SHA-256 (FIPS 180-4) *)

Module SHA256.

Local Open Scope N_scope.

Definition w32 (x : N) : N := x mod 4294967296.
Definition add32 (x y : N) : N := w32 (x + y).
Definition rotr (x n : N) : N :=
  w32 (N.lor (N.shiftr x n) (N.shiftl x (32 - n))).
Definition shr (x n : N) : N := N.shiftr x n.
Definition not32 (x : N) : N := 4294967295 - x.

Definition Ch (x y z : N) : N := N.lxor (N.land x y) (N.land (not32 x) z).
Definition Maj (x y z : N) : N :=
  N.lxor (N.lxor (N.land x y) (N.land x z)) (N.land y z).
Definition Sigma0 (x : N) : N := N.lxor (N.lxor (rotr x 2) (rotr x 13)) (rotr x 22).
Definition Sigma1 (x : N) : N := N.lxor (N.lxor (rotr x 6) (rotr x 11)) (rotr x 25).
Definition sigma0 (x : N) : N := N.lxor (N.lxor (rotr x 7) (rotr x 18)) (shr x 3).
Definition sigma1 (x : N) : N := N.lxor (N.lxor (rotr x 17) (rotr x 19)) (shr x 10).

(** The constants are defined as the standard defines them, from the first
    sixty-four primes: the first 32 bits of the fractional parts of their
    cube roots (round constants) and, for the first eight, of their square
    roots (initial hash value). *)
Definition is_prime (n : N) : bool :=
  (2 <=? n) && forallb (fun d => negb (n mod d =? 0)) (map N.of_nat (seq 2 (N.to_nat n - 2))).

Definition primes : list N :=
  Eval vm_compute in List.filter is_prime (map N.of_nat (seq 2 310)).

(** The integer cube root, bit by bit from [2^bits] down. *)
Fixpoint cube_root_bits (bits : nat) (n r : N) : N :=
  match bits with
  | O => r
  | S bits' =>
      let r' := r + 2 ^ N.of_nat bits' in
      cube_root_bits bits' n (if r' * r' * r' <=? n then r' else r)
  end.

Definition cube_root (n : N) : N := cube_root_bits 36 n 0.

Definition K : list N :=
  Eval vm_compute in map (fun p => w32 (cube_root (p * 2 ^ 96))) primes.

Definition H0 : list N :=
  Eval vm_compute in map (fun p => w32 (N.sqrt (p * 2 ^ 64))) (take 8 primes).

(** Big-endian bytes of a number, [n] of them. *)
Fixpoint be_bytes (n : nat) (x : N) : list byte :=
  match n with
  | O => []
  | S n' => be_bytes n' (x / 256) ++ [byte_of_N x]
  end.

Definition be_word (bs : list byte) : N :=
  fold_left (fun acc b => acc * 256 + Byte.to_N b) bs 0.

Definition pad (msg : list byte) : list byte :=
  let len := N.of_nat (length msg) in
  let zeros := N.to_nat ((55 + 64 - len mod 64) mod 64) in
  msg ++ [byte_of_N 128] ++ replicate zeros Byte.x00 ++ be_bytes 8 (8 * len).

(** The message schedule, most recent word first. *)
Fixpoint extend (n : nat) (w : list N) : list N :=
  match n with
  | O => w
  | S n' =>
      let x := add32 (add32 (sigma1 (nth 1 w 0)) (nth 6 w 0))
                     (add32 (sigma0 (nth 14 w 0)) (nth 15 w 0)) in
      extend n' (x :: w)
  end.

Definition schedule (block : list byte) : list N :=
  rev (extend 48 (rev (map be_word (chunks 16 4 block)))).

Record registers := { ra : N; rb : N; rc : N; rd : N; re : N; rf : N; rg : N; rh : N }.

Definition round (r : registers) (kw : N * N) : registers :=
  let T1 := add32 (add32 (add32 (rh r) (Sigma1 (re r))) (Ch (re r) (rf r) (rg r)))
                  (add32 kw.1 kw.2) in
  let T2 := add32 (Sigma0 (ra r)) (Maj (ra r) (rb r) (rc r)) in
  {| ra := add32 T1 T2; rb := ra r; rc := rb r; rd := rc r;
     re := add32 (rd r) T1; rf := re r; rg := rf r; rh := rg r |}.

Definition compress (h : registers) (block : list byte) : registers :=
  let r := fold_left round (combine K (schedule block)) h in
  {| ra := add32 (ra h) (ra r); rb := add32 (rb h) (rb r);
     rc := add32 (rc h) (rc r); rd := add32 (rd h) (rd r);
     re := add32 (re h) (re r); rf := add32 (rf h) (rf r);
     rg := add32 (rg h) (rg r); rh := add32 (rh h) (rh r) |}.

Definition initial : registers :=
  {| ra := nth 0 H0 0; rb := nth 1 H0 0; rc := nth 2 H0 0; rd := nth 3 H0 0;
     re := nth 4 H0 0; rf := nth 5 H0 0; rg := nth 6 H0 0; rh := nth 7 H0 0 |}.

(** [crypto.createHash('sha256').update(msg).digest()] *)
Definition digest (msg : list byte) : list byte :=
  let padded := pad msg in
  let r := fold_left compress (chunks (length padded) 64 padded) initial in
  flat_map (be_bytes 4) [ra r; rb r; rc r; rd r; re r; rf r; rg r; rh r].

End SHA256.

(** ** AES-256 (FIPS 197) *)

Module AES256.

Definition bxor (a b : byte) : byte :=
  byte_of_N (N.lxor (Byte.to_N a) (Byte.to_N b)).

(** Multiplication by [x] in GF(2^8) modulo [x^8 + x^4 + x^3 + x + 1]. *)
Definition xtime (a : byte) : byte :=
  let n := Byte.to_N a in
  byte_of_N (N.lxor (2 * n) (if (128 <=? n)%N then 27 else 0)).

(** Multiplication in GF(2^8), by shift and add over the bits of [b]. *)
Fixpoint gmul_bits (bits : nat) (a : byte) (b : N) : byte :=
  match bits with
  | O => Byte.x00
  | S bits' =>
      bxor (if N.odd b then a else Byte.x00) (gmul_bits bits' (xtime a) (b / 2))
  end.

Definition gmul (a b : byte) : byte := gmul_bits 8 a (Byte.to_N b).

Definition gpow2 (a : byte) : byte := gmul a a.

(** The multiplicative inverse, [a^254], with [0] mapped to [0]. *)
Definition ginv (a : byte) : byte :=
  let a2 := gpow2 a in
  let a4 := gpow2 a2 in
  let a8 := gpow2 a4 in
  let a16 := gpow2 a8 in
  let a32 := gpow2 a16 in
  let a64 := gpow2 a32 in
  let a128 := gpow2 a64 in
  gmul a128 (gmul a64 (gmul a32 (gmul a16 (gmul a8 (gmul a4 a2))))).

Definition rotl8 (a : byte) (k : N) : byte :=
  let n := Byte.to_N a in
  byte_of_N (N.lor (N.shiftl n k) (N.shiftr n (8 - k))).

Definition affine (a : byte) : byte :=
  bxor (bxor (bxor (bxor (bxor a (rotl8 a 1)) (rotl8 a 2)) (rotl8 a 3)) (rotl8 a 4))
       (byte_of_N 99).

Definition inv_affine (a : byte) : byte :=
  bxor (bxor (bxor (rotl8 a 1) (rotl8 a 3)) (rotl8 a 6)) (byte_of_N 5).

Definition all_bytes : list byte := map byte_of_N (map N.of_nat (seq 0 256)).

Definition sbox_table : list byte :=
  Eval vm_compute in map (fun a => affine (ginv a)) all_bytes.

Definition inv_sbox_table : list byte :=
  Eval vm_compute in map (fun a => ginv (inv_affine a)) all_bytes.

Definition sbox (a : byte) : byte := nth (N.to_nat (Byte.to_N a)) sbox_table Byte.x00.
Definition inv_sbox (a : byte) : byte := nth (N.to_nat (Byte.to_N a)) inv_sbox_table Byte.x00.

(** A column of the state, and the state as its four columns. *)
Definition column : Type := byte * byte * byte * byte.
Definition state : Type := column * column * column * column.

Definition map_column (f : byte -> byte) (c : column) : column :=
  let '(a0, a1, a2, a3) := c in (f a0, f a1, f a2, f a3).

Definition map_state (f : column -> column) (s : state) : state :=
  let '(c0, c1, c2, c3) := s in (f c0, f c1, f c2, f c3).

Definition xor_column (c k : column) : column :=
  let '(a0, a1, a2, a3) := c in
  let '(k0, k1, k2, k3) := k in
  (bxor a0 k0, bxor a1 k1, bxor a2 k2, bxor a3 k3).

Definition add_round_key (rk s : state) : state :=
  let '(c0, c1, c2, c3) := s in
  let '(k0, k1, k2, k3) := rk in
  (xor_column c0 k0, xor_column c1 k1, xor_column c2 k2, xor_column c3 k3).

Definition sub_bytes : state -> state := map_state (map_column sbox).
Definition inv_sub_bytes : state -> state := map_state (map_column inv_sbox).

(** Row [r] is rotated left by [r] columns. *)
Definition shift_rows (s : state) : state :=
  let '((a0, a1, a2, a3), (b0, b1, b2, b3), (c0, c1, c2, c3), (d0, d1, d2, d3)) := s in
  ((a0, b1, c2, d3), (b0, c1, d2, a3), (c0, d1, a2, b3), (d0, a1, b2, c3)).

Definition inv_shift_rows (s : state) : state :=
  let '((a0, a1, a2, a3), (b0, b1, b2, b3), (c0, c1, c2, c3), (d0, d1, d2, d3)) := s in
  ((a0, d1, c2, b3), (b0, a1, d2, c3), (c0, b1, a2, d3), (d0, c1, b2, a3)).

Definition mul3 (a : byte) : byte := bxor (xtime a) a.

Definition mix_column (c : column) : column :=
  let '(a0, a1, a2, a3) := c in
  (bxor (bxor (bxor (xtime a0) (mul3 a1)) a2) a3,
   bxor (bxor (bxor a0 (xtime a1)) (mul3 a2)) a3,
   bxor (bxor (bxor a0 a1) (xtime a2)) (mul3 a3),
   bxor (bxor (bxor (mul3 a0) a1) a2) (xtime a3)).

Definition x09 : byte := byte_of_N 9.
Definition x0b : byte := byte_of_N 11.
Definition x0d : byte := byte_of_N 13.
Definition x0e : byte := byte_of_N 14.

Definition inv_mix_column (c : column) : column :=
  let '(b0, b1, b2, b3) := c in
  (bxor (bxor (bxor (gmul b0 x0e) (gmul b1 x0b)) (gmul b2 x0d)) (gmul b3 x09),
   bxor (bxor (bxor (gmul b0 x09) (gmul b1 x0e)) (gmul b2 x0b)) (gmul b3 x0d),
   bxor (bxor (bxor (gmul b0 x0d) (gmul b1 x09)) (gmul b2 x0e)) (gmul b3 x0b),
   bxor (bxor (bxor (gmul b0 x0b) (gmul b1 x0d)) (gmul b2 x09)) (gmul b3 x0e)).

Definition mix_columns : state -> state := map_state mix_column.
Definition inv_mix_columns : state -> state := map_state inv_mix_column.

(** *** Key expansion for a 256-bit key: 60 words, 15 round keys *)

Definition rot_word (w : column) : column :=
  let '(a0, a1, a2, a3) := w in (a1, a2, a3, a0).

Definition sub_word : column -> column := map_column sbox.

Definition zero_column : column := (Byte.x00, Byte.x00, Byte.x00, Byte.x00).

(** The words so far are kept most recent first; [i] is the index of the
    next word and [rcon] the current round constant. *)
Fixpoint expand (n : nat) (i : nat) (rcon : byte) (w : list column) : list column :=
  match n with
  | O => w
  | S n' =>
      let prev := nth 0 w zero_column in
      let '(temp, rcon') :=
        if (i mod 8 =? 0)%nat then
          (xor_column (sub_word (rot_word prev)) (rcon, Byte.x00, Byte.x00, Byte.x00),
           xtime rcon)
        else if (i mod 8 =? 4)%nat then (sub_word prev, rcon)
        else (prev, rcon) in
      expand n' (S i) rcon' (xor_column (nth 7 w zero_column) temp :: w)
  end.

Definition column_of (bs : list byte) : column :=
  (nth 0 bs Byte.x00, nth 1 bs Byte.x00, nth 2 bs Byte.x00, nth 3 bs Byte.x00).

Definition state_of_columns (ws : list column) : state :=
  (nth 0 ws zero_column, nth 1 ws zero_column, nth 2 ws zero_column, nth 3 ws zero_column).

Definition key_expansion (key : list byte) : list state :=
  let w0 := rev (map column_of (chunks 8 4 key)) in
  let w := rev (expand 52 8 Byte.x01 w0) in
  map state_of_columns (chunks 15 4 w).

(** *** The cipher and its inverse *)

Fixpoint rounds (rks : list state) (s : state) : state :=
  match rks with
  | [] => s
  | [rk] => add_round_key rk (shift_rows (sub_bytes s))
  | rk :: rest =>
      rounds rest (add_round_key rk (mix_columns (shift_rows (sub_bytes s))))
  end.

Definition cipher (rks : list state) (s : state) : state :=
  match rks with
  | [] => s
  | rk0 :: rest => rounds rest (add_round_key rk0 s)
  end.

Fixpoint inv_rounds (rks : list state) (s : state) : state :=
  match rks with
  | [] => s
  | [rk] => inv_sub_bytes (inv_shift_rows (add_round_key rk s))
  | rk :: rest =>
      inv_sub_bytes
        (inv_shift_rows (inv_mix_columns (add_round_key rk (inv_rounds rest s))))
  end.

Definition inv_cipher (rks : list state) (s : state) : state :=
  match rks with
  | [] => s
  | rk0 :: rest => add_round_key rk0 (inv_rounds rest s)
  end.

(** *** Blocks of 16 bytes *)

Definition state_of_block (b : list byte) : state :=
  state_of_columns (map column_of (chunks 4 4 b)).

Definition list_of_column (c : column) : list byte :=
  let '(a0, a1, a2, a3) := c in [a0; a1; a2; a3].

Definition block_of_state (s : state) : list byte :=
  let '(c0, c1, c2, c3) := s in
  list_of_column c0 ++ list_of_column c1 ++ list_of_column c2 ++ list_of_column c3.

Definition encrypt_block (rks : list state) (b : list byte) : list byte :=
  block_of_state (cipher rks (state_of_block b)).

Definition decrypt_block (rks : list state) (b : list byte) : list byte :=
  block_of_state (inv_cipher rks (state_of_block b)).

End AES256.

(** ** Base64 *)

Module Base64.

Local Open Scope N_scope.

Definition PAD : N := 61.

(** The character of a 6-bit value in the standard alphabet. *)
Definition char (v : N) : N :=
  if v <? 26 then 65 + v
  else if v <? 52 then 71 + v
  else if v <? 62 then v - 4
  else if v =? 62 then 43
  else 47.

Definition value (c : N) : option N :=
  if (65 <=? c) && (c <=? 90) then Some (c - 65)
  else if (97 <=? c) && (c <=? 122) then Some (c - 71)
  else if (48 <=? c) && (c <=? 57) then Some (c + 4)
  else if c =? 43 then Some 62
  else if c =? 47 then Some 63
  else None.

(** [buffer.toString('base64')] *)
Fixpoint encode (bs : list byte) : jsstring :=
  match bs with
  | [] => []
  | [a] =>
      let a := Byte.to_N a in
      [char (a / 4); char ((a mod 4) * 16); PAD; PAD]
  | [a; b] =>
      let a := Byte.to_N a in
      let b := Byte.to_N b in
      [char (a / 4); char ((a mod 4) * 16 + b / 16); char ((b mod 16) * 4); PAD]
  | a :: b :: c :: rest =>
      let a := Byte.to_N a in
      let b := Byte.to_N b in
      let c := Byte.to_N c in
      char (a / 4) :: char ((a mod 4) * 16 + b / 16)
        :: char ((b mod 16) * 4 + c / 64) :: char (c mod 64) :: encode rest
  end.

(** Decoding of padded base64 text; [None] when the text is malformed. *)
Fixpoint decode (s : jsstring) : option (list byte) :=
  match s with
  | [] => Some []
  | c1 :: c2 :: c3 :: c4 :: rest =>
      match value c1, value c2 with
      | Some v1, Some v2 =>
          if c4 =? PAD then
            match rest with
            | [] =>
                if c3 =? PAD then Some [byte_of_N (v1 * 4 + v2 / 16)]
                else
                  match value c3 with
                  | Some v3 =>
                      Some [byte_of_N (v1 * 4 + v2 / 16);
                            byte_of_N ((v2 mod 16) * 16 + v3 / 4)]
                  | None => None
                  end
            | _ :: _ => None
            end
          else
            match value c3, value c4, decode rest with
            | Some v3, Some v4, Some more =>
                Some (byte_of_N (v1 * 4 + v2 / 16)
                        :: byte_of_N ((v2 mod 16) * 16 + v3 / 4)
                        :: byte_of_N ((v3 mod 4) * 64 + v4) :: more)
            | _, _, _ => None
            end
      | _, _ => None
      end
  | _ => None
  end.

End Base64.

(** ** The [crypto] module of the runtime: AES-256-CBC with PKCS#7 padding *)

Module Crypto.

Definition xor_block (a b : list byte) : list byte := zip_with AES256.bxor a b.

(** The padding appended by [cipher.final()]: between 1 and 16 bytes, each
    holding the number of bytes added. *)
Definition pkcs7_pad (m : list byte) : list byte :=
  let k := (16 - length m mod 16)%nat in
  m ++ replicate k (byte_of_N (N.of_nat k)).

Definition pkcs7_unpad (p : list byte) : option (list byte) :=
  match last p with
  | None => None
  | Some b =>
      let k := N.to_nat (Byte.to_N b) in
      if (1 <=? k)%nat && (k <=? 16)%nat && (k <=? length p)%nat
         && bool_decide (drop (length p - k) p = replicate k b)
      then Some (take (length p - k) p)
      else None
  end.

Fixpoint cbc_encrypt (rks : list AES256.state) (prev : list byte)
    (blocks : list (list byte)) : list (list byte) :=
  match blocks with
  | [] => []
  | p :: rest =>
      let c := AES256.encrypt_block rks (xor_block p prev) in
      c :: cbc_encrypt rks c rest
  end.

Fixpoint cbc_decrypt (rks : list AES256.state) (prev : list byte)
    (blocks : list (list byte)) : list (list byte) :=
  match blocks with
  | [] => []
  | c :: rest => xor_block (AES256.decrypt_block rks c) prev :: cbc_decrypt rks c rest
  end.

(** [createCipheriv('aes-256-cbc', key, iv)] followed by [update] of the
    whole plaintext and [final]: the ciphertext.  A key that is not 32 bytes
    or an IV that is not 16 bytes is refused. *)
Definition aes_256_cbc (key iv plaintext : list byte) : result (list byte) :=
  if negb (length key =? 32)%nat then Throw (RangeError (js "Invalid key length"))
  else if negb (length iv =? 16)%nat then
    Throw (TypeError (js "Invalid initialization vector"))
  else
    let padded := pkcs7_pad plaintext in
    Ok (concat (cbc_encrypt (AES256.key_expansion key) iv
                  (chunks (length padded) 16 padded))).

End Crypto.

(** ** Regular expressions, matched by derivatives *)

Module Regex.

Inductive re :=
| Fail
| Eps
| Class (p : N -> bool)
| Seq (a b : re)
| Alt (a b : re)
| Star (a : re).

Fixpoint nullable (r : re) : bool :=
  match r with
  | Fail | Class _ => false
  | Eps | Star _ => true
  | Seq a b => nullable a && nullable b
  | Alt a b => nullable a || nullable b
  end.

Definition seq_ (a b : re) : re :=
  match a, b with
  | Fail, _ | _, Fail => Fail
  | Eps, _ => b
  | _, _ => Seq a b
  end.

Definition alt_ (a b : re) : re :=
  match a, b with
  | Fail, _ => b
  | _, Fail => a
  | _, _ => Alt a b
  end.

Fixpoint deriv (c : N) (r : re) : re :=
  match r with
  | Fail | Eps => Fail
  | Class p => if p c then Eps else Fail
  | Seq a b =>
      if nullable a then alt_ (seq_ (deriv c a) b) (deriv c b)
      else seq_ (deriv c a) b
  | Alt a b => alt_ (deriv c a) (deriv c b)
  | Star a => seq_ (deriv c a) (Star a)
  end.

(** [/^r$/.test(s)] *)
Definition test (r : re) (s : jsstring) : bool :=
  nullable (fold_left (fun r c => deriv c r) s r).

Definition lit (s : string) : re :=
  fold_right (fun c r => Seq (Class (N.eqb c)) r) Eps (js s).

Definition plus (r : re) : re := Seq r (Star r).

Fixpoint times (n : nat) (r : re) : re :=
  match n with
  | O => Eps
  | S n' => Seq r (times n' r)
  end.

(** [\d] *)
Definition digit (c : N) : bool := ((48 <=? c) && (c <=? 57))%N.

(** [\s]: white space and line terminators *)
Definition space (c : N) : bool :=
  ((9 <=? c) && (c <=? 13) || (c =? 32) || (c =? 160) || (c =? 5760)
   || (8192 <=? c) && (c <=? 8202) || (c =? 8232) || (c =? 8233)
   || (c =? 8239) || (c =? 8287) || (c =? 12288) || (c =? 65279))%N.

(** [A-Z] *)
Definition upper (c : N) : bool := ((65 <=? c) && (c <=? 90))%N.

End Regex.

(** ** encodeURIComponent *)

Module URI.

Definition unreserved (c : N) : bool :=
  (Regex.digit c || Regex.upper c || (97 <=? c) && (c <=? 122)
   || existsb (N.eqb c) (js "-_.!~*'()"))%N.

Definition HEX (n : N) : N := (if n <? 10 then 48 + n else 55 + n)%N.

Definition percent (b : byte) : jsstring :=
  let n := Byte.to_N b in [chr "%"; HEX (n / 16); HEX (n mod 16)]%N.

Definition encode_point (cp : option N) : result jsstring :=
  match cp with
  | None => Throw (URIError (js "URI malformed"))
  | Some c =>
      if (c <? 128)%N && unreserved c then Ok [c]
      else Ok (flat_map percent (UTF8.encode_code_point c))
  end.

Definition encodeURIComponent (s : jsstring) : result jsstring :=
  let* parts := map_result encode_point (UTF8.code_points s) in
  Ok (concat parts).

End URI.

(** ** DynamoDB and S3 *)

Module DynamoDB.

Inductive AttributeValue :=
| AttrS (s : jsstring)
| AttrN (n : jsstring)
| AttrBOOL (b : bool)
| AttrNULL.

#[global] Instance AttributeValue_eq_dec : EqDecision AttributeValue.
Proof. solve_decision. Defined.

(** An item maps attribute names to values; the table maps the value of the
    key attribute [submissionId] to the item stored under it. *)
Abbreviation Item := (gmap (list N) AttributeValue).
Abbreviation Table := (gmap (list N) (gmap (list N) AttributeValue)).

Definition KEY : jsstring := js "submissionId".

(** [item.attr?.S]: [undefined] unless the attribute is present with a
    string value. *)
Definition attr_S (item : Item) (attr : jsstring) : option jsstring :=
  match item !! attr with
  | Some (AttrS s) => Some s
  | _ => None
  end.

Definition GetItem (t : Table) (key : jsstring) : option Item := t !! key.

(** [PutItem] replaces whatever is stored under the key of the item. *)
Definition PutItem (t : Table) (key : jsstring) (item : Item) : Table :=
  <[key := item]> t.

(** [UpdateItem] with an update expression [SET a1 = v1, a2 = v2, ...] and
    no condition expression: the attributes are written into the stored
    item, and an item holding only the key is created first when none is
    stored. *)
Definition UpdateItem_SET (t : Table) (key : jsstring)
    (sets : list (jsstring * AttributeValue)) : Table :=
  let item := default {[ KEY := AttrS key ]} (t !! key) in
  <[key := foldl (fun it av => <[av.1 := av.2]> it) item sets]> t.

(** The value of an attribute of the item stored under a key. *)
Definition attribute (t : Table) (key attr : jsstring) : option AttributeValue :=
  match t !! key with
  | Some item => item !! attr
  | None => None
  end.

(** A [Scan] request is answered page by page: the service reads the
    stored items in its own order until it has read 1 MB of them, applies
    the filter to what it read and returns the matches, with a
    [LastEvaluatedKey] when items are left unread.  Which keys of a table
    the first page reads is the service's matter, so it is a parameter;
    everything proved below holds for every paging. *)
Class Paging := {
  in_first_page : gmap (list N) (gmap (list N) AttributeValue) -> jsstring -> bool;
}.

(** One [Scan] request with a filter expression: the matches among the
    items of the first page. *)
Definition Scan `{Paging} (t : Table) (keep : Item -> bool) : list Item :=
  List.filter keep
    (map snd (List.filter (fun entry => in_first_page t entry.1) (map_to_list t))).

(** The first page reads every item of the table. *)
Definition complete_page `{Paging} (t : Table) : Prop :=
  forall key, is_Some (t !! key) -> in_first_page t key = true.

End DynamoDB.

(** The paging of a service whose tables all fit into one page; used to run
    the lambdas on small tables. *)
Module OnePage.

#[global] Instance paging : DynamoDB.Paging :=
  {| DynamoDB.in_first_page := fun _ _ => true |}.

End OnePage.

Module S3.
Abbreviation Bucket := (gmap (list N) (list N)).
Definition PutObject (b : Bucket) (key body : jsstring) : Bucket :=
  <[key := body]> b.
End S3.

(** ** daily-exporter *)

Module DailyExporter.
Import DynamoDB.

Record Env := {
  (** the n-th reading of the clock during the invocation *)
  clock : nat -> Z;
  scan_fails : bool;
  putObject_fails : bool;
  (** whether the [UpdateItem] request for this key is rejected *)
  update_fails : jsstring -> bool;
}.

Record World := {
  table : gmap (list N) (gmap (list N) AttributeValue);
  bucket : gmap (list N) (list N);
}.

(** The object handed to [JSON.stringify] for the response body. *)
Inductive Body :=
| NoRecords
| Exported (recordsExported : nat) (fileName : jsstring) (fileSize : nat)
           (durationMs : Z) (timestamp : jsstring)
| Failed (error : jsstring) (timestamp : jsstring).

Record Response := { statusCode : Z; body : Body }.

(** [FilterExpression: '#status = :status AND #exported = :exported'] *)
Definition approved_unexported (item : Item) : bool :=
  bool_decide (item !! js "status" = Some (AttrS (js "approved")))
  && bool_decide (item !! js "exported" = Some (AttrBOOL false)).

(** One [ScanCommand] is sent and [result.Items] returned: a
    [LastEvaluatedKey] in the answer is not read. *)
Definition getApprovedRecords `{Paging} (env : Env) (t : Table) : result (list Item) :=
  if scan_fails env then Throw (ServiceException (js "DynamoDB"))
  else Ok (Scan t approved_unexported).

Definition is_dash (c : N) : bool := (c =? 45)%N.

(** The fields of a record, concatenated in order. *)
Definition fixed_fields (customerNumber email formattedDate : jsstring) : jsstring :=
  let fixedWidthRecord := [] in
  let fixedWidthRecord := fixedWidthRecord ++ JsString.padStart (js "2") 2 (js " ") in
  let fixedWidthRecord := fixedWidthRecord ++ JsString.padStart customerNumber 25 (js " ") in
  let fixedWidthRecord := fixedWidthRecord ++ js "    " in
  let fixedWidthRecord :=
    fixedWidthRecord ++ JsString.padStart (js "1234567890123456789012345") 35 (js " ") in
  let fixedWidthRecord := fixedWidthRecord ++ JsString.repeat (js " ") 126 in
  let specialField := js "AR_40_DDI_" ++ formattedDate ++ js " ##" ++ email ++ js "## " in
  let fixedWidthRecord := fixedWidthRecord ++ JsString.padEnd specialField 255 (js " ") in
  let fixedWidthRecord := fixedWidthRecord ++ JsString.repeat (js " ") 82 in
  let fixedWidthRecord := fixedWidthRecord ++ js "DD" in
  let fixedWidthRecord := fixedWidthRecord ++ JsString.repeat (js " ") 28 in
  let fixedWidthRecord := fixedWidthRecord ++ js "W" in
  fixedWidthRecord ++ JsString.repeat (js " ") 46.

Definition recordToFixedWidth `{Host} (record : Item) : result jsstring :=
  let customerNumber := default [] (attr_S record (js "customerNumber")) in
  let email := default [] (attr_S record (js "email")) in
  let submissionDate := default [] (attr_S record (js "submissionDate")) in
  let date := Date_parse submissionDate in
  let* iso := JsDate.Date_toISOString date in
  let formattedDate := JsString.remove_all is_dash (JsString.slice iso 0 10) in
  let fixedWidthRecord := fixed_fields customerNumber email formattedDate in
  let fixedWidthRecord :=
    if negb (length fixedWidthRecord =? 606)%nat
    then JsString.padEnd (JsString.substring fixedWidthRecord 0 606) 606 (js " ")
    else fixedWidthRecord in
  Ok fixedWidthRecord.

(** One [UpdateItem] per id; the n-th request carries the n-th clock
    reading from [tick] on.  Requests that are rejected leave their item
    alone, the others are applied, and [Promise.all] rejects when any
    request was rejected. *)
Fixpoint send_updates (env : Env) (tick : nat) (submissionIds : list jsstring)
    (t : Table) : Table :=
  match submissionIds with
  | [] => t
  | submissionId :: rest =>
      let t' :=
        if update_fails env submissionId then t
        else UpdateItem_SET t submissionId
               [ (js "exported", AttrBOOL true);
                 (js "exportedAt", AttrS (JsDate.toISOString (clock env tick))) ] in
      send_updates env (S tick) rest t'
  end.

Definition markRecordsAsExported (env : Env) (tick : nat)
    (submissionIds : list jsstring) (t : Table) : result unit * Table :=
  let t' := send_updates env tick submissionIds t in
  if existsb (update_fails env) submissionIds
  then (Throw (ServiceException (js "DynamoDB")), t')
  else (Ok tt, t').

Definition uploadExportFile (env : Env) (fileName fileContent : jsstring)
    (b : S3.Bucket) : result S3.Bucket :=
  if putObject_fails env then Throw (ServiceException (js "S3"))
  else Ok (S3.PutObject b fileName fileContent).

(** [record.submissionId.S]; every item of a table keyed by the string
    attribute [submissionId] has it. *)
Definition submissionId_of (record : Item) : result jsstring :=
  match record !! KEY with
  | None => Throw (TypeError (js "Cannot read properties of undefined (reading 'S')"))
  | Some (AttrS s) => Ok s
  | Some _ => Throw (ServiceException (js "DynamoDB"))
  end.

Definition YYYYMMDD (t : Z) : jsstring :=
  JsString.remove_all is_dash (JsString.slice (JsDate.toISOString t) 0 10).

Definition failure (env : Env) (tick : nat) (e : JsError) : Response :=
  {| statusCode := 500;
     body := Failed (error_message e) (JsDate.toISOString (clock env tick)) |}.

Definition handler `{Host} `{Paging} (env : Env) (w : World) : Response * World :=
  let startTime := clock env 0 in
  match getApprovedRecords env (table w) with
  | Throw e => (failure env 1 e, w)
  | Ok records =>
    if (length records =? 0)%nat
    then ({| statusCode := 200; body := NoRecords |}, w)
    else
      match map_result recordToFixedWidth records with
      | Throw e => (failure env 1 e, w)
      | Ok fixedWidthLines =>
        let fileContent := JsString.join [10%N] fixedWidthLines in
        let timestamp := YYYYMMDD (clock env 1) in
        let fileName := js "DIRECT_DEBIT_EXPORT_" ++ timestamp ++ js ".txt" in
        match uploadExportFile env fileName fileContent (bucket w) with
        | Throw e => (failure env 2 e, w)
        | Ok bucket' =>
          let w1 := {| table := table w; bucket := bucket' |} in
          match map_result submissionId_of records with
          | Throw e => (failure env 2 e, w1)
          | Ok submissionIds =>
            let n := length submissionIds in
            let '(marked, table') :=
              markRecordsAsExported env 2 submissionIds (table w) in
            let w2 := {| table := table'; bucket := bucket' |} in
            match marked with
            | Throw e => (failure env (2 + n) e, w2)
            | Ok _ =>
              let endTime := clock env (2 + n) in
              ({| statusCode := 200;
                  body := Exported (length records) fileName (length fileContent)
                            (endTime - startTime)
                            (JsDate.toISOString (clock env (3 + n))) |}, w2)
            end
          end
        end
      end
  end.

(** The stored item of every key carries that key. *)
Definition well_keyed (t : Table) : Prop :=
  forall id item, t !! id = Some item -> item !! KEY = Some (AttrS id).

(** The item stored under [id] is approved and not yet exported. *)
Definition selected (t : Table) (id : jsstring) (item : Item) : Prop :=
  t !! id = Some item
  /\ item !! js "status" = Some (AttrS (js "approved"))
  /\ item !! js "exported" = Some (AttrBOOL false).

(** [item'] is [item] marked as exported: both export attributes are set and
    every other attribute is as before. *)
Definition marks (item item' : Item) : Prop :=
  item' !! js "exported" = Some (AttrBOOL true)
  /\ (exists ts, item' !! js "exportedAt" = Some (AttrS ts))
  /\ forall a, a <> js "exported" -> a <> js "exportedAt" -> item' !! a = item !! a.

End DailyExporter.

(** ** webhook-handler *)

Module WebhookHandler.
Import DynamoDB.

Record Env := {
  (** the clock reading taken for [updatedAt] *)
  now : Z;
  getItem_fails : bool;
  updateItem_fails : bool;
}.

Record Event := {
  httpMethod : jsstring;
  origin : option jsstring;
  (** [event.body]: a string, or [null] *)
  body : option jsstring;
}.

(** The object handed to [JSON.stringify] for the response body ([Empty] is
    the empty body of the preflight answer). *)
Inductive Body :=
| Empty
| Failure (error : jsstring) (message : option jsstring)
| Success (submissionId : jsstring) (status : jsstring) (message : jsstring).

Record Response := {
  statusCode : Z;
  allowOrigin : jsstring;
  body_of : Body;
}.

Definition getCorsHeaders (origin : option jsstring) : jsstring :=
  match origin with
  | Some o =>
      if bool_decide (o = js "https://verification.thirdparty.com") then o else js "null"
  | None => js "null"
  end.

Definition updateSubmissionStatus `{Host} (env : Env) (t : Table)
    (submissionId status : jsstring) (webhookData : JSON.value) : result Table :=
  let sets :=
    [ (js "status", AttrS status);
      (js "webhookData", AttrS (JSON.stringify webhookData));
      (js "updatedAt", AttrS (JsDate.toISOString (now env))) ] in
  if updateItem_fails env then Throw (ServiceException (js "DynamoDB"))
  else Ok (UpdateItem_SET t submissionId sets).

(** The key [{ S: submissionId }] is accepted by the service only when
    [submissionId] is a string. *)
Definition getSubmission (env : Env) (t : Table) (submissionId : JSON.value) :
    result (option Item) :=
  match submissionId with
  | JSON.String id =>
      if getItem_fails env then Throw (ServiceException (js "DynamoDB"))
      else Ok (GetItem t id)
  | _ => Throw (ServiceException (js "DynamoDB"))
  end.

(** [webhookData.VerificationStatus === 'True' ||
     webhookData.VerificationStatus === true] *)
Definition verified (verificationStatus : option JSON.value) : bool :=
  match verificationStatus with
  | Some (JSON.String s) => bool_decide (s = js "True")
  | Some (JSON.Bool b) => b
  | _ => false
  end.

(** The body parsed as JSON, or as form data when that throws. *)
Definition parse_body (body : jsstring) : JSON.value :=
  match JSON.parse body with
  | Ok v => v
  | Throw _ => URLSearchParams.fromEntries (URLSearchParams.parse body)
  end.

Definition respond (ev : Event) (code : Z) (b : Body) : Response :=
  {| statusCode := code; allowOrigin := getCorsHeaders (origin ev); body_of := b |}.

(** The [try] block of the handler.  Where a stored submission was found the
    correlation token is a string, as [getSubmission] throws on any other
    value. *)
Definition process `{Host} (env : Env) (t : Table) (event : Event) :
    result (Response * Table) :=
  match body event with
  | Some (c :: text) =>
      if bool_decide (httpMethod event = js "POST") then
        let webhookData := parse_body (c :: text) in
        let* submissionId := JSON.get webhookData (js "CustomData") in
        if negb (JSON.truthy submissionId) then
          Ok (respond event 400 (Failure (js "Missing CustomData field") None), t)
        else
          let* existingSubmission :=
            getSubmission env t (default JSON.Null submissionId) in
          match existingSubmission, submissionId with
          | Some _, Some (JSON.String id) =>
              let* verificationStatus := JSON.get webhookData (js "VerificationStatus") in
              let status :=
                if verified verificationStatus then js "approved" else js "failed" in
              let* t' := updateSubmissionStatus env t id status webhookData in
              Ok (respond event 200
                    (Success id status
                       (js "Submission " ++ id ++ js " updated with status: " ++ status)),
                  t')
          | _, _ =>
              Ok (respond event 404 (Failure (js "Submission not found") None), t)
          end
      else
        Ok (respond event 400
              (Failure (js "Invalid request method or missing body") None), t)
  | _ =>
      Ok (respond event 400
            (Failure (js "Invalid request method or missing body") None), t)
  end.

Definition handler `{Host} (env : Env) (t : Table) (event : Event) : Response * Table :=
  if bool_decide (httpMethod event = js "OPTIONS") then (respond event 200 Empty, t)
  else
    match process env t event with
    | Ok out => out
    | Throw e =>
        (respond event 500
           (Failure (js "Internal server error") (Some (error_message e))), t)
    end.

(** The outcome that the handler derives from a parsed payload. *)
Definition outcome (props : list (jsstring * JSON.value)) : jsstring :=
  if verified (JSON.own props (js "VerificationStatus"))
  then js "approved" else js "failed".

Definition stored_update `{Host} (env : Env) (props : list (jsstring * JSON.value)) :
    list (jsstring * AttributeValue) :=
  [ (js "status", AttrS (outcome props));
    (js "webhookData", AttrS (JSON.stringify (JSON.Object props)));
    (js "updatedAt", AttrS (JsDate.toISOString (now env))) ].

(** A callback that names a stored submission, with the store answering. *)
Record known_callback (env : Env) (t : gmap (list N) (gmap (list N) AttributeValue))
    (event : Event) (props : list (jsstring * JSON.value)) (id : jsstring)
    (item : gmap (list N) AttributeValue) : Prop := {
  kc_method : httpMethod event = js "POST";
  kc_body : exists text, body event = Some text /\ text <> []
                         /\ parse_body text = JSON.Object props;
  kc_token : JSON.own props (js "CustomData") = Some (JSON.String id);
  kc_nonempty : id <> [];
  kc_stored : t !! id = Some item;
  kc_get : getItem_fails env = false;
  kc_update : updateItem_fails env = false;
}.

End WebhookHandler.

(** ** customer-validator *)

Module CustomerValidator.

Definition customer_number_format : Regex.re :=
  Regex.Seq (Regex.Alt (Regex.lit "1000") (Regex.lit "2000"))
            (Regex.times 7 (Regex.Class Regex.digit)).

Definition postcode_char (c : N) : bool :=
  Regex.upper c || Regex.digit c || Regex.space c.

Definition validateAndSanitizeInput (customerNumber postcode : jsstring) :
    result (jsstring * jsstring) :=
  let sanitizedCustomerNumber :=
    JsString.remove_all (fun c => negb (Regex.digit c)) customerNumber in
  if negb (Regex.test customer_number_format sanitizedCustomerNumber) then
    Throw (Error (js "Invalid customer number format"))
  else
    let sanitizedPostcode :=
      JsString.substring
        (JsString.remove_all (fun c => negb (postcode_char c)) postcode) 0 10 in
    if (length (JsString.remove_all Regex.space sanitizedPostcode) <? 5)%nat then
      Throw (Error (js "Invalid postcode format"))
    else Ok (sanitizedCustomerNumber, sanitizedPostcode).

End CustomerValidator.

(** ** form-processor *)

Module FormProcessor.
Import DynamoDB.

Record Env := {
  (** the clock reading taken for [submissionDate] *)
  now : Z;
  randomUUID : jsstring;
  (** [crypto.randomBytes(16)] *)
  randomBytes16 : result (list byte);
  (** [process.env.CALLBACK_URL] *)
  CALLBACK_URL : option jsstring;
  (** the parameter store, read with decryption *)
  ssm : jsstring -> result jsstring;
  putItem_fails : bool;
}.

Record Event := {
  httpMethod : jsstring;
  origin : option jsstring;
  body : option jsstring;
  queryStringParameters : option (list (jsstring * jsstring));
}.

Inductive Body :=
| Empty
| Failure (error : jsstring) (message : option jsstring)
| Success (submissionId encryptedData redirectUrl formType service : jsstring).

Record Response := {
  statusCode : Z;
  allowOrigin : jsstring;
  body_of : Body;
}.

(** A computation that reads and writes the table and may throw; the table
    written so far survives an exception. *)
Definition M (A : Type) : Type :=
  gmap (list N) (gmap (list N) AttributeValue)
  -> result A * gmap (list N) (gmap (list N) AttributeValue).

Definition ret {A} (a : A) : M A := fun t => (Ok a, t).
Definition lift {A} (r : result A) : M A := fun t => (r, t).
Definition mbind {A B} (m : M A) (k : A -> M B) : M B :=
  fun t =>
    match m t with
    | (Ok a, t') => k a t'
    | (Throw e, t') => (Throw e, t')
    end.

Notation "'let!' x ':=' m 'in' k" := (mbind m (fun x => k))
  (at level 10, x pattern, m at level 100, k at level 200).

Definition getParameter (env : Env) (parameterName : jsstring) : result jsstring :=
  ssm env parameterName.

Definition email_char (c : N) : bool := negb (Regex.space c || (c =? chr "@")%N).

Definition emailRegex : Regex.re :=
  Regex.Seq (Regex.plus (Regex.Class email_char))
    (Regex.Seq (Regex.lit "@")
       (Regex.Seq (Regex.plus (Regex.Class email_char))
          (Regex.Seq (Regex.lit ".") (Regex.plus (Regex.Class email_char))))).

Definition validateAndSanitizeInput (customerNumber postcode email : jsstring) :
    result (jsstring * jsstring * jsstring) :=
  let sanitizedCustomerNumber :=
    JsString.remove_all (fun c => negb (Regex.digit c)) customerNumber in
  if negb (Regex.test CustomerValidator.customer_number_format sanitizedCustomerNumber)
  then Throw (Error (js "Invalid customer number format"))
  else
    let sanitizedPostcode :=
      JsString.substring
        (JsString.remove_all (fun c => negb (CustomerValidator.postcode_char c)) postcode)
        0 10 in
    if (length sanitizedPostcode <? 5)%nat then
      Throw (Error (js "Invalid postcode format"))
    else if negb (Regex.test emailRegex email) then
      Throw (Error (js "Invalid email format"))
    else Ok (sanitizedCustomerNumber, sanitizedPostcode, email).

Definition getCorsHeaders (origin : option jsstring) : jsstring :=
  match origin with
  | Some o =>
      if bool_decide (o ∈ [ js "https://forms.council-a.gov.uk";
                            js "https://forms.council-b.gov.uk";
                            js "https://s3.eu-west-2.amazonaws.com" ])
      then o else js "null"
  | None => js "null"
  end.

Definition determineServiceFromCustomerNumber (customerNumber : jsstring) :
    result jsstring :=
  if JsString.startsWith customerNumber (js "1000") then Ok (js "council-a")
  else if JsString.startsWith customerNumber (js "2000") then Ok (js "council-b")
  else Throw (Error (js "Invalid customer number prefix: " ++ customerNumber
                     ++ js ". Must start with 1000 (Council A) or 2000 (Council B)")).

Record SubmissionData := {
  sd_submissionId : jsstring;
  sd_customerNumber : jsstring;
  sd_postcode : jsstring;
  sd_email : jsstring;
  sd_formType : jsstring;
  sd_service : jsstring;
  sd_submissionDate : jsstring;
}.

Definition submission_item (d : SubmissionData) : Item :=
  list_to_map
    [ (js "submissionId", AttrS (sd_submissionId d));
      (js "customerNumber", AttrS (sd_customerNumber d));
      (js "postcode", AttrS (sd_postcode d));
      (js "email", AttrS (sd_email d));
      (js "formType", AttrS (sd_formType d));
      (js "service", AttrS (sd_service d));
      (js "submissionDate", AttrS (sd_submissionDate d));
      (js "status", AttrS (js "pending"));
      (js "exported", AttrBOOL false) ].

Definition storeSubmissionData (env : Env) (submissionData : SubmissionData) : M unit :=
  fun t =>
    if putItem_fails env then (Throw (ServiceException (js "DynamoDB")), t)
    else (Ok tt, PutItem t (sd_submissionId submissionData) (submission_item submissionData)).

(** The random IV is drawn by the caller's environment: [iv] is the outcome
    of [crypto.randomBytes(16)]. *)
Definition encryptQueryString (queryString sharedSecret : jsstring)
    (iv : result (list byte)) : result jsstring :=
  let aesKey := SHA256.digest (UTF8.encode sharedSecret) in
  let* iv := iv in
  let* cipherText := Crypto.aes_256_cbc aesKey iv (UTF8.encode queryString) in
  Ok (Base64.encode (iv ++ cipherText)).

(** [a || b] on values that are strings or [null]. *)
Definition or_else (a b : option jsstring) : option jsstring :=
  match a with
  | Some (_ :: _) => a
  | _ => b
  end.

Definition is_truthy (a : option jsstring) : bool :=
  match a with
  | Some (_ :: _) => true
  | _ => false
  end.

(** [a || d] for a string or [null] [a] and a string [d]. *)
Definition or_default (a : option jsstring) (d : jsstring) : jsstring :=
  default d (or_else a None).

(** The branch on [formType] and [service]: the base URL and the complete
    query string. *)
Definition select_form (formType : option jsstring)
    (service customerNumber baseCustomerData : jsstring) : jsstring * jsstring :=
  if bool_decide (formType = Some (js "user")) then
    if bool_decide (service = js "council-a") then
      (js "https://verification.thirdparty.com/forms/council-a/customer",
       baseCustomerData ++ js "&DdPlanReference=" ++ customerNumber
         ++ js "&showddplanreference=visible&showdob=hidden&showmobile=hidden")
    else
      (js "https://verification.thirdparty.com/forms/council-b/customer",
       baseCustomerData ++ js "&DdPlanReference=" ++ customerNumber
         ++ js "&showddplanreference=visible&showdob=hidden&showmobile=hidden")
  else
    if bool_decide (service = js "council-a") then
      (js "https://verification.thirdparty.com/forms/council-a/agent",
       baseCustomerData ++ js "&DdPlanReference=" ++ customerNumber
         ++ js "&showddplanfields=hidden&applyingascompany=false"
         ++ js "&showapplyingascompanycheck=hidden&showdob=hidden&showmobile=hidden")
    else
      (js "https://verification.thirdparty.com/forms/council-b/agent",
       baseCustomerData ++ js "&DdPlanReference=" ++ customerNumber
         ++ js "&showddplanfields=hidden&applyingascompany=false"
         ++ js "&showapplyingascompanycheck=hidden&showdob=hidden&showmobile=hidden").

Definition respond (allow : jsstring) (code : Z) (b : Body) : Response :=
  {| statusCode := code; allowOrigin := allow; body_of := b |}.

(** The [try] block of the handler from the point where the five request
    parameters have been read. *)
Definition build `{Host} (env : Env) (allow : jsstring)
    (rawCustomerNumber rawPostcode rawEmail formType requestedService : option jsstring) :
    M Response :=
  match rawCustomerNumber, rawPostcode, rawEmail with
  | Some (c0 :: c), Some (p0 :: p), Some (e0 :: e) =>
      let! sanitized :=
        lift (validateAndSanitizeInput (c0 :: c) (toUpperCase (p0 :: p)) (e0 :: e)) in
      let '(customerNumber, postcode, email) := sanitized in
      let! determinedService := lift (determineServiceFromCustomerNumber customerNumber) in
      if is_truthy requestedService
         && negb (bool_decide (requestedService = Some determinedService))
      then
        ret (respond allow 400
               (Failure (js "Service mismatch: Customer number " ++ customerNumber
                         ++ js " requires '" ++ determinedService
                         ++ js "' service, but '" ++ default [] requestedService
                         ++ js "' was requested.") None))
      else
        let service := determinedService in
        let organization := service in
        let parameterPath :=
          js "/forms/" ++ organization ++ js "/test/ThirdPartySharedSecret" in
        let! SHARED_SECRET := lift (getParameter env parameterPath) in
        let submissionId := randomUUID env in
        let submissionDate := JsDate.toISOString (now env) in
        let! _ :=
          storeSubmissionData env
            {| sd_submissionId := submissionId;
               sd_customerNumber := customerNumber;
               sd_postcode := postcode;
               sd_email := email;
               sd_formType := or_default formType (js "advisor");
               sd_service := service;
               sd_submissionDate := submissionDate |} in
        let callbackURL :=
          or_default (CALLBACK_URL env) (js "https://api.example.com/webhook-callback") in
        let baseCustomerData :=
          js "customer_number=" ++ customerNumber ++ js "&postcode=" ++ postcode
            ++ js "&CurrentPostcode=" ++ postcode ++ js "&Email=" ++ email
            ++ js "&EmailRetype=" ++ email ++ js "&CustomData=" ++ submissionId
            ++ js "&CallbackURL=" ++ callbackURL in
        let '(baseUrl, completeQueryString) :=
          select_form formType service customerNumber baseCustomerData in
        let! encryptedCompleteQueryString :=
          lift (encryptQueryString completeQueryString SHARED_SECRET (randomBytes16 env)) in
        let! encoded := lift (URI.encodeURIComponent encryptedCompleteQueryString) in
        let redirectUrl := baseUrl ++ js "?eData=" ++ encoded in
        ret (respond allow 200
               (Success submissionId encryptedCompleteQueryString redirectUrl
                  (or_default formType (js "advisor")) service))
  | _, _, _ =>
      ret (respond allow 400
             (Failure (js "Missing required parameters: customer-number, postcode, and email")
                None))
  end.

(** The status code that the handler answers for an outcome of [build]. *)
Definition status_of (r : result Response) : Z :=
  match r with
  | Ok response => statusCode response
  | Throw _ => 500
  end.

(** The request parameters: the form-encoded body of a POST, or the query
    string parameters. *)
Definition parameters_of (event : Event) : list (jsstring * jsstring) :=
  match body event with
  | Some (c :: text) =>
      if bool_decide (httpMethod event = js "POST") then URLSearchParams.parse (c :: text)
      else default [] (queryStringParameters event)
  | _ => default [] (queryStringParameters event)
  end.

Definition handler `{Host} (env : Env) (event : Event)
    (t : gmap (list N) (gmap (list N) AttributeValue)) :
    Response * gmap (list N) (gmap (list N) AttributeValue) :=
  let corsHeaders := getCorsHeaders (origin event) in
  if bool_decide (httpMethod event = js "OPTIONS") then (respond corsHeaders 200 Empty, t)
  else
    let parameters := parameters_of event in
    let rawCustomerNumber :=
      or_else (URLSearchParams.get parameters (js "customer-number"))
              (URLSearchParams.get parameters (js "customer_number")) in
    let rawPostcode := URLSearchParams.get parameters (js "postcode") in
    let rawEmail := URLSearchParams.get parameters (js "email") in
    let formType := URLSearchParams.get parameters (js "form_type") in
    let requestedService := URLSearchParams.get parameters (js "service") in
    match build env corsHeaders rawCustomerNumber rawPostcode rawEmail formType
                requestedService t with
    | (Ok response, t') => (response, t')
    | (Throw e, t') =>
        (respond corsHeaders (status_of (Throw e))
           (Failure (js "Internal server error") (Some (error_message e))), t')
    end.

End FormProcessor.

(** ** The receiving side of the handoff *)

Module Receiver.

(** Modelled from the spec: the decryption that the external verification
    service applies to the [eData] parameter is not part of the
    repository.  It is AES-256-CBC decryption under the SHA-256 hash of the
    shared secret, the IV being the first 16 bytes of the base64-decoded
    input, followed by removal of the PKCS#7 padding. *)
Definition decrypt_bytes (key raw : list byte) : option (list byte) :=
  let iv := take 16 raw in
  let cipherText := drop 16 raw in
  if (length raw <? 32)%nat || negb (length cipherText mod 16 =? 0)%nat then None
  else
    Crypto.pkcs7_unpad
      (concat (Crypto.cbc_decrypt (AES256.key_expansion key) iv
                 (chunks (length cipherText) 16 cipherText))).

(** Modelled from the spec: the entry point of that decryption, which takes
    the base64 text of the [eData] parameter and the shared secret. *)
Definition decrypt (data sharedSecret : jsstring) : option (list byte) :=
  match Base64.decode data with
  | None => None
  | Some raw => decrypt_bytes (SHA256.digest (UTF8.encode sharedSecret)) raw
  end.

End Receiver.

(** ** Sample data, for running the lambdas *)

Module Sample.
Import DynamoDB.

(** Text in which the apostrophe stands for the double quote. *)
Definition json (s : string) : jsstring :=
  map (fun c => if (c =? chr "'")%N then DQUOTE else c) (js s).

Definition iv : list byte := map byte_of_N (map N.of_nat (seq 0 16)).

Definition uuid : jsstring := js "123e4567-e89b-42d3-a456-426614174000".

Definition form_env : FormProcessor.Env :=
  {| FormProcessor.now := 1730487845123;
     FormProcessor.randomUUID := uuid;
     FormProcessor.randomBytes16 := Ok iv;
     FormProcessor.CALLBACK_URL := None;
     FormProcessor.ssm := fun _ => Ok (js "s3cret");
     FormProcessor.putItem_fails := false |}.

Definition form_request (body : string) : FormProcessor.Event :=
  {| FormProcessor.httpMethod := js "POST";
     FormProcessor.origin := Some (js "https://forms.council-a.gov.uk");
     FormProcessor.body := Some (js body);
     FormProcessor.queryStringParameters := None |}.

(** The submission as the form processor stores it. *)
Definition pending : Item :=
  FormProcessor.submission_item
    {| FormProcessor.sd_submissionId := uuid;
       FormProcessor.sd_customerNumber := js "10001234567";
       FormProcessor.sd_postcode := js "AB1 2CD";
       FormProcessor.sd_email := js "a@b.com";
       FormProcessor.sd_formType := js "advisor";
       FormProcessor.sd_service := js "council-a";
       FormProcessor.sd_submissionDate := js "2024-11-01T19:04:05.123Z" |}.

Definition approved : Item := <[js "status" := AttrS (js "approved")]> pending.

Definition table_pending : Table := {[ uuid := pending ]}.
Definition table_approved : Table := {[ uuid := approved ]}.

Definition webhook_env : WebhookHandler.Env :=
  {| WebhookHandler.now := 1730487900000;
     WebhookHandler.getItem_fails := false;
     WebhookHandler.updateItem_fails := false |}.

Definition callback (body : jsstring) : WebhookHandler.Event :=
  {| WebhookHandler.httpMethod := js "POST";
     WebhookHandler.origin := Some (js "https://verification.thirdparty.com");
     WebhookHandler.body := Some body |}.

Definition approval : jsstring :=
  json "{'CustomData':'123e4567-e89b-42d3-a456-426614174000','VerificationStatus':'True'}".

Definition rejection : jsstring :=
  json "{'CustomData':'123e4567-e89b-42d3-a456-426614174000','VerificationStatus':'False'}".

Definition lowercase_true : jsstring :=
  json "{'CustomData':'123e4567-e89b-42d3-a456-426614174000','VerificationStatus':'true'}".

Definition spaced_approval : jsstring :=
  json "{ 'CustomData': '123e4567-e89b-42d3-a456-426614174000', 'VerificationStatus': 'True' }".

Definition approval_props : list (jsstring * JSON.value) :=
  [ (js "CustomData", JSON.String uuid);
    (js "VerificationStatus", JSON.String (js "True")) ].

Definition export_env (upload_fails : bool) : DailyExporter.Env :=
  {| DailyExporter.clock := fun n => 1730527200000 + Z.of_nat n;
     DailyExporter.scan_fails := false;
     DailyExporter.putObject_fails := upload_fails;
     DailyExporter.update_fails := fun _ => false |}.

Definition world_approved : DailyExporter.World :=
  {| DailyExporter.table := table_approved; DailyExporter.bucket := ∅ |}.

End Sample.

(** ** The language of a regular expression *)

Module RegexLanguage.
Import Regex.

(** [Matches r s]: the whole of [s] is matched by [r]. *)
Inductive Matches : re -> jsstring -> Prop :=
| MEps : Matches Eps []
| MClass p c : p c = true -> Matches (Class p) [c]
| MSeq a b s1 s2 : Matches a s1 -> Matches b s2 -> Matches (Seq a b) (s1 ++ s2)
| MAltL a b s : Matches a s -> Matches (Alt a b) s
| MAltR a b s : Matches b s -> Matches (Alt a b) s
| MStarNil a : Matches (Star a) []
| MStarApp a s1 s2 : Matches a s1 -> Matches (Star a) s2 -> Matches (Star a) (s1 ++ s2).

End RegexLanguage.

(** ** Requests to the form processor *)

Module FormRequest.
Import FormProcessor.

(** A request that carries the three required parameters. *)
Record complete_request (event : Event) (cn pc em : jsstring) : Prop := {
  cr_method : httpMethod event <> js "OPTIONS";
  cr_number :
    or_else (URLSearchParams.get (parameters_of event) (js "customer-number"))
            (URLSearchParams.get (parameters_of event) (js "customer_number")) = Some cn;
  cr_postcode : URLSearchParams.get (parameters_of event) (js "postcode") = Some pc;
  cr_email : URLSearchParams.get (parameters_of event) (js "email") = Some em;
  cr_nonempty : cn <> [] /\ pc <> [] /\ em <> [];
}.

End FormRequest.

(** ** Invocations in sequence *)

Module Pipeline.
Import DynamoDB.

(** The table after a sequence of callbacks, each handled by its own
    invocation of the webhook handler. *)
Definition callbacks `{Host} (calls : list (WebhookHandler.Env * WebhookHandler.Event))
    (t : gmap (list N) (gmap (list N) AttributeValue)) :
    gmap (list N) (gmap (list N) AttributeValue) :=
  foldl (fun t call => (WebhookHandler.handler call.1 t call.2).2) t calls.

End Pipeline.

(** ** More of [String.prototype] *)

Module JsText.

(** [trimStart]: leading white space and line terminators are dropped. *)
Fixpoint trimStart (s : jsstring) : jsstring :=
  match s with
  | [] => []
  | c :: r => if Regex.space c then trimStart r else s
  end.

Definition trimEnd (s : jsstring) : jsstring := rev (trimStart (rev s)).

Definition trim (s : jsstring) : jsstring := trimEnd (trimStart s).

(** [s.split(sep)] for a separator of one code unit: the pieces between the
    separators, one more than there are separators. *)
Fixpoint split (sep : N) (s : jsstring) : list jsstring :=
  match s with
  | [] => [[]]
  | c :: r =>
      match split sep r with
      | cur :: more => if (c =? sep)%N then [] :: cur :: more else (c :: cur) :: more
      | [] => [[c]]
      end
  end.

(** [s.includes(sub)] *)
Fixpoint includes (s sub : jsstring) : bool :=
  JsString.startsWith s sub
  || match s with
     | [] => false
     | _ :: r => includes r sub
     end.

End JsText.

(** ** customer-validator: the handler *)

Module CustomerLookup.

Record Env := {
  (** [SecretString] of the secret read from Secrets Manager *)
  getSecretValue : result jsstring;
  (** [mysql.createConnection] with the user and password read *)
  createConnection : option JSON.value -> option JSON.value -> result unit;
  (** the rows that the query returns for its two parameters *)
  execute : jsstring -> jsstring -> result (list jsstring);
  (** [connection.end()] *)
  connection_end : result unit;
}.

Record Event := {
  httpMethod : jsstring;
  origin : option jsstring;
  queryStringParameters : option (list (jsstring * jsstring));
}.

Inductive Body :=
| Empty
| Message (message : jsstring)
| Failure (error : jsstring).

Record Response := {
  statusCode : Z;
  allowOrigin : jsstring;
  body_of : Body;
}.

Definition getRDSCredentials (env : Env) : result (option JSON.value * option JSON.value) :=
  let* secretString := getSecretValue env in
  let* secret := JSON.parse secretString in
  let* username := JSON.get secret (js "username") in
  let* password := JSON.get secret (js "password") in
  Ok (username, password).

Definition getCorsHeaders (origin : option jsstring) : jsstring :=
  match origin with
  | Some o =>
      if bool_decide (o ∈ [ js "https://forms.council-a.gov.uk";
                            js "https://forms.council-b.gov.uk";
                            js "https://s3.eu-west-2.amazonaws.com" ])
      then o else js "null"
  | None => js "null"
  end.

(** [event.queryStringParameters?.name] *)
Definition parameter (event : Event) (name : jsstring) : option jsstring :=
  match queryStringParameters event with
  | Some params => JSON.own params name
  | None => None
  end.

Definition respond (event : Event) (code : Z) (b : Body) : Response :=
  {| statusCode := code; allowOrigin := getCorsHeaders (origin event); body_of := b |}.

Definition unable : Body :=
  Failure (js "Unable to verify customer details. Please try again.").

(** The inner [try], [catch] and [finally]: an exception of the block is
    answered 500; the connection, once made, is ended in any case, and an
    exception thrown by that replaces the answer. *)
Definition lookup (env : Env) (event : Event) (validCustomerNumber validPostcode : jsstring) :
    result Response :=
  match getRDSCredentials env with
  | Throw _ => Ok (respond event 500 unable)
  | Ok (user, password) =>
      match createConnection env user password with
      | Throw _ => Ok (respond event 500 unable)
      | Ok _ =>
          let answer :=
            match execute env validCustomerNumber validPostcode with
            | Throw _ => respond event 500 unable
            | Ok rows =>
                if (0 <? length rows)%nat
                then respond event 200 (Message (js "Valid customer and postcode"))
                else respond event 400
                       (Failure (js "No match for customer number and postcode"))
            end in
          let* _ := connection_end env in
          Ok answer
      end
  end.

Definition handler `{Host} (env : Env) (event : Event) : Response :=
  if bool_decide (httpMethod event = js "OPTIONS") then respond event 200 Empty
  else
    let customerNumber :=
      default [] (JsText.trim <$> parameter event (js "customer_number")) in
    let postcode :=
      default [] ((fun p => toUpperCase (JsText.trim p)) <$> parameter event (js "postcode")) in
    match
      (let* sanitized := CustomerValidator.validateAndSanitizeInput customerNumber postcode in
       let '(validCustomerNumber, validPostcode) := sanitized in
       if (length validCustomerNumber =? 0)%nat || (length validPostcode =? 0)%nat
       then Ok (respond event 400 (Failure (js "Invalid input parameters")))
       else lookup env event validCustomerNumber validPostcode)
    with
    | Ok response => response
    | Throw error => respond event 400 (Failure (error_message error))
    end.

End CustomerLookup.

(** ** csv-loader *)

Module CsvLoader.

Record Customer := {
  customer_number : jsstring;
  postcode : jsstring;
  service : jsstring;
}.

(** A row of the table [customers]. *)
Record Row := {
  row_customer : Customer;
  created_at : Z;
}.

Record Env := {
  (** [process.env.CSV_BUCKET] *)
  CSV_BUCKET : option jsstring;
  (** the text of the object under a key of a bucket *)
  getObject : jsstring -> jsstring -> result jsstring;
  (** the n-th reading of the clock during the invocation *)
  clock : nat -> Z;
  createConnection : result unit;
  truncate : result unit;
  (** the insert of the batch that starts at this index of the values *)
  insert : nat -> result unit;
  connection_end : result unit;
}.

Inductive Body :=
| Loaded (recordsLoaded filesProcessed : nat) (durationMs : Z) (timestamp : jsstring)
| Failed (error : jsstring) (timestamp : jsstring).

Record Response := { statusCode : Z; body : Body }.

Definition CSV_FILES : list jsstring :=
  [ js "COUNCIL_A_CUSTOMER_LIST.CSV"; js "COUNCIL_B_CUSTOMER_LIST.CSV" ].

Definition is_quote (c : N) : bool := (c =? DQUOTE)%N.

(** The body of the loop over the lines. *)
Definition parse_line (fileName line : jsstring) : list Customer :=
  let line := JsText.trim line in
  match line with
  | [] => []
  | _ :: _ =>
      let columns := JsText.split (chr ",") line in
      if (3 <=? length columns)%nat then
        let service :=
          if JsText.includes fileName (js "COUNCIL_A") then js "council-a"
          else js "council-b" in
        [ {| customer_number :=
               JsText.trim (JsString.remove_all is_quote (nth 0 columns []));
             postcode := JsText.trim (JsString.remove_all is_quote (nth 1 columns []));
             service := service |} ]
      else []
  end.

(** The loop starts at the second line. *)
Definition parse_csv (fileName csvContent : jsstring) : list Customer :=
  let lines := JsText.split 10 csvContent in
  flat_map (parse_line fileName) (drop 1 lines).

Definition downloadAndParseCSV (env : Env) (bucketName fileName : jsstring) :
    result (list Customer) :=
  let* csvContent := getObject env bucketName fileName in
  Ok (parse_csv fileName csvContent).

(** The loop over the batches; [i] is the index at which the batch starts. *)
Fixpoint insert_batches (env : Env) (i : nat) (batches : list (list Row))
    (totalInserted : nat) (db : list Row) : result nat * list Row :=
  match batches with
  | [] => (Ok totalInserted, db)
  | batch :: rest =>
      match insert env i with
      | Throw e => (Throw e, db)
      | Ok _ =>
          insert_batches env (i + 1000) rest (totalInserted + length batch) (db ++ batch)
      end
  end.

(** The rows to insert: each record with its own reading of the clock, the
    first of them being reading [tick]. *)
Definition values_of (env : Env) (tick : nat) (records : list Customer) : list Row :=
  imap (fun i record => {| row_customer := record; created_at := clock env (tick + i) |})
       records.

(** The outcome, the table afterwards and the number of clock readings
    taken.  The connection, once made, is ended in any case, and an
    exception thrown by that replaces the outcome. *)
Definition loadRecordsToDatabase (env : Env) (tick : nat) (records : list Customer)
    (db : list Row) : result nat * list Row * nat :=
  match createConnection env with
  | Throw e => (Throw e, db, 0%nat)
  | Ok _ =>
      let '(outcome, db', readings) :=
        match truncate env with
        | Throw e => (Throw e, db, 0%nat)
        | Ok _ =>
            let values := values_of env tick records in
            let '(r, db') :=
              insert_batches env 0 (chunks (length values) 1000 values) 0 [] in
            (r, db', length records)
        end in
      match connection_end env with
      | Throw e => (Throw e, db', readings)
      | Ok _ => (outcome, db', readings)
      end
  end.

Definition failure (env : Env) (tick : nat) (e : JsError) : Response :=
  {| statusCode := 500;
     body := Failed (error_message e) (JsDate.toISOString (clock env tick)) |}.

Definition handler (env : Env) (db : list Row) : Response * list Row :=
  let startTime := clock env 0 in
  let bucketName :=
    match CSV_BUCKET env with
    | Some (c :: b) => c :: b
    | _ => js "customer-data-files"
    end in
  match map_result (downloadAndParseCSV env bucketName) CSV_FILES with
  | Throw e => (failure env 1 e, db)
  | Ok parsed =>
      let allRecords := concat parsed in
      let '(outcome, db', readings) := loadRecordsToDatabase env 1 allRecords db in
      match outcome with
      | Throw e => (failure env (1 + readings) e, db')
      | Ok recordsLoaded =>
          let endTime := clock env (1 + readings) in
          ({| statusCode := 200;
              body := Loaded recordsLoaded (length CSV_FILES) (endTime - startTime)
                        (JsDate.toISOString (clock env (2 + readings))) |}, db')
      end
  end.

End CsvLoader.

(** ** The validation of the advisor form, in the browser *)

Module Frontend.
Import Regex.

Definition BACKSLASH : N := 92%N.

(** [[^\\s@]], as the pattern is written: any code unit but a backslash,
    the letter [s] and [@]. *)
Definition email_char (c : N) : bool :=
  negb ((c =? BACKSLASH) || (c =? chr "s") || (c =? chr "@"))%N.

(** [.]: any code unit but a line terminator. *)
Definition any_char (c : N) : bool :=
  negb ((c =? 10) || (c =? 13) || (c =? 8232) || (c =? 8233))%N.

(** [/^[^\\s@]+@[^\\s@]+\\.[^\\s@]+$/] *)
Definition validateEmail (email : jsstring) : bool :=
  test (Seq (plus (Class email_char))
          (Seq (lit "@")
             (Seq (plus (Class email_char))
                (Seq (Class (N.eqb BACKSLASH))
                   (Seq (Class any_char) (plus (Class email_char)))))))
       email.

(** [/^1000\\d{7}$/] *)
Definition isValidCustomer (customerNumber : jsstring) : bool :=
  test (Seq (lit "1000")
          (Seq (Class (N.eqb BACKSLASH)) (times 7 (Class (N.eqb (chr "d"))))))
       customerNumber.

End Frontend.

(** ** More sample data *)

Module Cases.
Import DynamoDB.

(** An environment of the form processor whose random source fails. *)
Definition form_env_no_random : FormProcessor.Env :=
  {| FormProcessor.now := 1730487845123;
     FormProcessor.randomUUID := Sample.uuid;
     FormProcessor.randomBytes16 := Throw (Error (js "entropy"));
     FormProcessor.CALLBACK_URL := None;
     FormProcessor.ssm := fun _ => Ok (js "s3cret");
     FormProcessor.putItem_fails := false |}.

Definition zero_iv : list byte := replicate 16 Byte.x00.

(** An approved submission whose date does not parse. *)
Definition undated : Item := <[js "submissionDate" := AttrS (js "yesterday")]> Sample.approved.

Definition world_undated : DailyExporter.World :=
  {| DailyExporter.table := {[ Sample.uuid := undated ]}; DailyExporter.bucket := ∅ |}.







(** An exporter whose update requests are all rejected. *)
Definition export_env_rejecting : DailyExporter.Env :=
  {| DailyExporter.clock := fun n => 1730527200000 + Z.of_nat n;
     DailyExporter.scan_fails := false;
     DailyExporter.putObject_fails := false;
     DailyExporter.update_fails := fun _ => true |}.

Definition customers : list (jsstring * jsstring) :=
  [ (js "10001234567", js "AB1 2CD") ].

(** A database that holds [customers]; the query compares the postcodes
    without their blanks. *)
Definition lookup_env : CustomerLookup.Env :=
  {| CustomerLookup.getSecretValue := Ok (Sample.json "{'username':'u','password':'p'}");
     CustomerLookup.createConnection := fun _ _ => Ok tt;
     CustomerLookup.execute := fun cn pc =>
       Ok (map fst
             (List.filter
                (fun row =>
                   bool_decide (row.1 = cn)
                   && bool_decide (JsString.remove_all (N.eqb 32) row.2
                                   = JsString.remove_all (N.eqb 32) pc))
                customers));
     CustomerLookup.connection_end := Ok tt |}.

(** The same database behind a driver that refuses parameters of another
    length than 11. *)
Definition strict_lookup_env : CustomerLookup.Env :=
  {| CustomerLookup.getSecretValue := CustomerLookup.getSecretValue lookup_env;
     CustomerLookup.createConnection := CustomerLookup.createConnection lookup_env;
     CustomerLookup.execute := fun cn pc =>
       if (length cn =? 11)%nat then CustomerLookup.execute lookup_env cn pc
       else Throw (Error (js "ER_DATA_TOO_LONG"));
     CustomerLookup.connection_end := CustomerLookup.connection_end lookup_env |}.

Definition lookup_request : CustomerLookup.Event :=
  {| CustomerLookup.httpMethod := js "GET";
     CustomerLookup.origin := Some (js "https://forms.council-a.gov.uk");
     CustomerLookup.queryStringParameters :=
       Some [ (js "customer_number", js " 10001234567 "); (js "postcode", js "ab1 2cd") ] |}.

Definition LF : jsstring := [10%N].

Definition csv_a : jsstring :=
  js "customer_number,postcode,name" ++ LF
  ++ Sample.json "'10001234567', 'AB1 2CD' ,Smith" ++ LF
  ++ js "10007654321,ZZ9 9ZZ,Jones" ++ LF.

Definition csv_b : jsstring :=
  js "customer_number,postcode,name" ++ LF ++ js "20001234567,CD3 4EF,Brown".

Definition csv_objects (bucketName fileName : jsstring) : result jsstring :=
  if bool_decide (fileName = js "COUNCIL_A_CUSTOMER_LIST.CSV") then Ok csv_a
  else if bool_decide (fileName = js "COUNCIL_B_CUSTOMER_LIST.CSV") then Ok csv_b
  else Throw (ServiceException (js "S3")).

Definition csv_env (objects : jsstring -> jsstring -> result jsstring)
    (insert : nat -> result unit) : CsvLoader.Env :=
  {| CsvLoader.CSV_BUCKET := None;
     CsvLoader.getObject := objects;
     CsvLoader.clock := fun n => 1730527200000 + Z.of_nat n;
     CsvLoader.createConnection := Ok tt;
     CsvLoader.truncate := Ok tt;
     CsvLoader.insert := insert;
     CsvLoader.connection_end := Ok tt |}.

Definition old_rows : list CsvLoader.Row :=
  [ {| CsvLoader.row_customer :=
         {| CsvLoader.customer_number := js "10000000001";
            CsvLoader.postcode := js "OLD 1AA";
            CsvLoader.service := js "council-a" |};
       CsvLoader.created_at := 1730000000000 |} ].

End Cases.

(** * Properties *)

(** ** Strings *)

Section StringFacts.

Lemma filler_space_length (n : nat) : length (JsString.filler (js " ") n) = n.
Proof.
  unfold JsString.filler, JsString.repeat.
  rewrite length_take.
  assert (E : length (concat (replicate n (js " "))) = n).
  { induction n as [|n IH]; simpl; [reflexivity | now rewrite IH]. }
  rewrite E. lia.
Qed.

Lemma padEnd_space_length (s : jsstring) (n : nat) :
  length (JsString.padEnd s n (js " ")) = Nat.max n (length s).
Proof.
  unfold JsString.padEnd.
  destruct (Nat.leb_spec n (length s)) as [Hle | Hlt].
  - lia.
  - rewrite length_app, filler_space_length. lia.
Qed.

Lemma padStart_space_length (s : jsstring) (n : nat) :
  length (JsString.padStart s n (js " ")) = Nat.max n (length s).
Proof.
  unfold JsString.padStart.
  destruct (Nat.leb_spec n (length s)) as [Hle | Hlt].
  - lia.
  - rewrite length_app, filler_space_length. lia.
Qed.

Lemma substring_from_start (s : jsstring) (n : nat) :
  JsString.substring s 0 n = take n s.
Proof.
  unfold JsString.substring. cbn [Nat.min Nat.max]. rewrite drop_0.
  rewrite Nat.sub_0_r.
  destruct (Nat.le_gt_cases n (length s)) as [Hle | Hgt].
  - now rewrite Nat.min_l by lia.
  - rewrite Nat.min_r by lia. now rewrite !take_ge by lia.
Qed.

Lemma repeat_space_length (n : nat) : length (JsString.repeat (js " ") n) = n.
Proof.
  unfold JsString.repeat.
  induction n as [|n IH]; simpl; [reflexivity | now rewrite IH].
Qed.

End StringFacts.

(** ** The fixed-width record *)

Section FixedWidth.
Context `{Host}.
Import DynamoDB DailyExporter.

Lemma fixed_fields_length (customerNumber email formattedDate : jsstring) :
  length (fixed_fields customerNumber email formattedDate)
  = (326 + Nat.max 25 (length customerNumber)
     + Nat.max 255 (length formattedDate + length email + 16))%nat.
Proof.
  unfold fixed_fields. cbv zeta.
  rewrite !length_app, !padStart_space_length, !padEnd_space_length,
    !repeat_space_length, !length_app.
  change (length (js "2")) with 1%nat.
  change (length (js "    ")) with 4%nat.
  change (length (js "1234567890123456789012345")) with 25%nat.
  change (length (js "AR_40_DDI_")) with 10%nat.
  change (length (js " ##")) with 3%nat.
  change (length (js "## ")) with 3%nat.
  change (length (js "DD")) with 2%nat.
  change (length (js "W")) with 1%nat.
  simpl length. lia.
Qed.

(** C4.  Whenever the submission date of a record parses, the record is
    serialized, and the serialized record has exactly 606 code units.  The
    concatenated fields are never shorter than 606; when a customer number
    or an e-mail address overruns its span they are longer, and the record
    is then their first 606 code units. *)
Theorem recordToFixedWidth_606 (record : Item) (t : Z) :
  Date_parse (default [] (attr_S record (js "submissionDate"))) = Some t ->
  exists line fields,
    recordToFixedWidth record = Ok line
    /\ length line = 606%nat
    /\ fields
       = fixed_fields (default [] (attr_S record (js "customerNumber")))
           (default [] (attr_S record (js "email")))
           (JsString.remove_all is_dash (JsString.slice (JsDate.toISOString t) 0 10))
    /\ (606 <= length fields)%nat
    /\ line = take 606 fields.
Proof.
  intros Hdate.
  unfold recordToFixedWidth. rewrite Hdate. cbn [JsDate.Date_toISOString bind].
  set (fields := fixed_fields _ _ _).
  assert (Hlen : (606 <= length fields)%nat).
  { subst fields. rewrite fixed_fields_length. lia. }
  destruct (Nat.eqb_spec (length fields) 606) as [Heq | Hne]; cbn [negb].
  - exists fields, fields. repeat split; try assumption.
    now rewrite take_ge by lia.
  - exists (JsString.padEnd (JsString.substring fields 0 606) 606 (js " ")), fields.
    assert (Hcut : JsString.padEnd (JsString.substring fields 0 606) 606 (js " ")
                   = take 606 fields).
    { rewrite substring_from_start. unfold JsString.padEnd.
      rewrite length_take. rewrite Nat.min_l by lia. reflexivity. }
    rewrite Hcut. repeat split; try assumption.
    rewrite length_take. lia.
Qed.

End FixedWidth.
Section ExportRun.
Context `{Host}.
Import DynamoDB DailyExporter.
Context `{Paging}.

Lemma marks_trans (a b c : gmap (list N) AttributeValue) :
  marks a b -> marks b c -> marks a c.
Proof.
  intros (_ & _ & Hab) (Hc1 & Hc2 & Hbc).
  repeat split; try assumption.
  intros x Hx1 Hx2. rewrite Hbc by assumption. now apply Hab.
Qed.

Lemma marks_set (item : gmap (list N) AttributeValue) (ts : jsstring) :
  marks item (<[js "exportedAt" := AttrS ts]> (<[js "exported" := AttrBOOL true]> item)).
Proof.
  repeat split.
  - rewrite lookup_insert_ne by (vm_compute; congruence). apply lookup_insert_eq.
  - exists ts. apply lookup_insert_eq.
  - intros a Ha1 Ha2.
    rewrite lookup_insert_ne by congruence. now rewrite lookup_insert_ne by congruence.
Qed.

Lemma approved_unexported_spec (item : gmap (list N) AttributeValue) :
  approved_unexported item = true
  <-> item !! js "status" = Some (AttrS (js "approved"))
      /\ item !! js "exported" = Some (AttrBOOL false).
Proof.
  unfold approved_unexported.
  rewrite andb_true_iff, !bool_decide_eq_true. reflexivity.
Qed.

Lemma Scan_spec (t : gmap (list N) (gmap (list N) AttributeValue)) keep item :
  In item (Scan t keep)
  <-> (exists id, in_first_page t id = true /\ t !! id = Some item) /\ keep item = true.
Proof.
  unfold Scan. rewrite filter_In, in_map_iff. split.
  - intros [[[id it] [E Hin]] Hk]. simpl in E. subst it. split; [|assumption].
    apply filter_In in Hin as [Hin Hpage]. exists id. split; [exact Hpage|].
    apply elem_of_map_to_list. now apply list_elem_of_In.
  - intros [(id & Hpage & Hid) Hk]. split; [|assumption].
    exists (id, item). split; [reflexivity|].
    apply filter_In. split; [|exact Hpage].
    apply list_elem_of_In. now apply elem_of_map_to_list.
Qed.

(** What a scan returns is stored. *)
Lemma Scan_stored (t : gmap (list N) (gmap (list N) AttributeValue)) keep item :
  In item (Scan t keep) -> exists id, t !! id = Some item.
Proof. intros Hin. apply Scan_spec in Hin as [(id & _ & Hid) _]. eauto. Qed.

(** In a table whose items carry their key, a scan returns the item of a key
    exactly when the key is on the first page and the item passes the
    filter. *)
Lemma Scan_keyed (t : gmap (list N) (gmap (list N) AttributeValue)) keep id item :
  well_keyed t ->
  t !! id = Some item ->
  In item (Scan t keep) <-> in_first_page t id = true /\ keep item = true.
Proof.
  intros Hwk Hid. rewrite Scan_spec. split.
  - intros [(id' & Hpage & Hid') Hk]. split; [|assumption].
    pose proof (Hwk _ _ Hid) as E. pose proof (Hwk _ _ Hid') as E'.
    assert (id' = id) by congruence. now subst id'.
  - intros [Hpage Hk]. split; [|assumption]. now exists id.
Qed.

Lemma submissionIds_of_records (t : gmap (list N) (gmap (list N) AttributeValue))
    (records : list (gmap (list N) AttributeValue)) :
  well_keyed t ->
  (forall r, In r records -> exists id, t !! id = Some r) ->
  exists ids, map_result submissionId_of records = Ok ids
    /\ forall id, In id ids <-> exists r, In r records /\ t !! id = Some r.
Proof.
  intros Hwk. induction records as [|r rs IH]; intros Hin.
  - exists []. split; [reflexivity|]. intros id. split; [intros []|intros (r & [] & _)].
  - destruct IH as (ids & Hids & Hspec).
    { intros r' Hr'. apply Hin. now right. }
    destruct (Hin r (or_introl eq_refl)) as [id0 Hid0].
    exists (id0 :: ids). split.
    + cbn [map_result]. unfold submissionId_of at 1. rewrite (Hwk _ _ Hid0).
      cbn [bind]. rewrite Hids. reflexivity.
    + intros id. split.
      * intros [<- | Hin']; [exists r; split; [now left | assumption]|].
        apply Hspec in Hin' as (r' & Hr' & Hl). exists r'. split; [now right | assumption].
      * intros (r' & [<- | Hr'] & Hl).
        -- left. pose proof (Hwk _ _ Hl) as E1. pose proof (Hwk _ _ Hid0) as E2.
           congruence.
        -- right. apply Hspec. now exists r'.
Qed.

Lemma send_updates_spec (env : Env) (ids : list jsstring) :
  forall (tick : nat) (t : gmap (list N) (gmap (list N) AttributeValue)),
  existsb (update_fails env) ids = false ->
  (forall id, In id ids -> is_Some (t !! id)) ->
  forall id,
    (In id ids ->
     exists item item', t !! id = Some item
       /\ send_updates env tick ids t !! id = Some item' /\ marks item item')
    /\ (~ In id ids -> send_updates env tick ids t !! id = t !! id).
Proof.
  induction ids as [|id0 rest IH]; intros tick t Hok Hdom id.
  - split; [intros [] | reflexivity].
  - cbn [existsb] in Hok. apply orb_false_iff in Hok as [Hok0 Hok].
    cbn [send_updates]. rewrite Hok0.
    set (t1 := UpdateItem_SET t id0 _).
    destruct (Hdom id0 (or_introl eq_refl)) as [item0 Hitem0].
    assert (Ht1 : t1 !! id0
                  = Some (<[js "exportedAt" := AttrS (JsDate.toISOString (clock env tick))]>
                            (<[js "exported" := AttrBOOL true]> item0))).
    { subst t1. unfold UpdateItem_SET. rewrite Hitem0. cbn. apply lookup_insert_eq. }
    assert (Ht1' : forall j, j <> id0 -> t1 !! j = t !! j).
    { intros j Hj. subst t1. unfold UpdateItem_SET. now rewrite lookup_insert_ne by congruence. }
    assert (Hdom1 : forall j, In j rest -> is_Some (t1 !! j)).
    { intros j Hj. destruct (decide (j = id0)) as [-> | Hne].
      - rewrite Ht1. eauto.
      - rewrite Ht1' by assumption. apply Hdom. now right. }
    destruct (IH (S tick) t1 Hok Hdom1 id) as [IHin IHout].
    split.
    + intros Hin.
      destruct (decide (id ∈ rest)) as [Hr | Hnr]; rewrite list_elem_of_In in *.
      * destruct (IHin Hr) as (item & item' & Hl & Hl' & Hm).
        destruct (decide (id = id0)) as [-> | Hne].
        -- exists item0, item'. split; [assumption|]. split; [assumption|].
           rewrite Ht1 in Hl. injection Hl as <-.
           eapply marks_trans; [apply marks_set | exact Hm].
        -- exists item, item'. rewrite <- Ht1' by assumption. auto.
      * destruct Hin as [<- | Hin]; [|contradiction].
        exists item0, (<[js "exportedAt" := AttrS (JsDate.toISOString (clock env tick))]>
                         (<[js "exported" := AttrBOOL true]> item0)).
        split; [assumption|]. split; [now rewrite IHout | apply marks_set].
    + intros Hnin. rewrite IHout by (intros Hr; apply Hnin; now right).
      apply Ht1'. intros ->. apply Hnin. now left.
Qed.


(** The table after a run that answered 200: the items that the scan
    returned, which are the approved, unexported items of the first page,
    are marked, and every other item is as before. *)
Lemma run_marks_scanned (env : Env) (w w' : World) (resp : Response) :
  well_keyed (table w) ->
  handler env w = (resp, w') ->
  statusCode resp = 200 ->
  forall id item,
    table w !! id = Some item ->
    if approved_unexported item && in_first_page (table w) id
    then exists item', table w' !! id = Some item' /\ marks item item'
    else table w' !! id = Some item.
Proof.
  intros Hwk Hrun Hcode id item Hid.
  assert (Hscanned : In item (Scan (table w) approved_unexported)
                     <-> approved_unexported item && in_first_page (table w) id = true).
  { rewrite (Scan_keyed _ _ _ _ Hwk Hid), andb_true_iff. tauto. }
  unfold handler, getApprovedRecords in Hrun.
  destruct (scan_fails env); [injection Hrun as <- <-; discriminate Hcode|].
  set (records := Scan (table w) approved_unexported) in *.
  destruct (Nat.eqb_spec (length records) 0) as [Hempty | Hnonempty].
  - injection Hrun as <- <-.
    destruct (approved_unexported item && in_first_page (table w) id) eqn:Hk;
      [|assumption].
    exfalso. assert (Hin : In item records) by now apply Hscanned.
    destruct records; [destruct Hin | discriminate].
  - destruct (map_result recordToFixedWidth records) as [lines|e];
      [|injection Hrun as <- <-; discriminate Hcode].
    unfold uploadExportFile in Hrun.
    destruct (putObject_fails env); [injection Hrun as <- <-; discriminate Hcode|].
    destruct (submissionIds_of_records (table w) records Hwk) as (ids & Hids & Hspec).
    { intros r Hr. now apply Scan_stored in Hr. }
    rewrite Hids in Hrun. unfold markRecordsAsExported in Hrun.
    destruct (existsb (update_fails env) ids) eqn:Hfail;
      [injection Hrun as <- <-; discriminate Hcode|].
    injection Hrun as <- <-. cbn [table].
    assert (Hdom : forall j, In j ids -> is_Some (table w !! j)).
    { intros j Hj. apply Hspec in Hj as (r & _ & Hr). eauto. }
    destruct (send_updates_spec env ids 2 (table w) Hfail Hdom id) as [Hin Hout].
    destruct (approved_unexported item && in_first_page (table w) id) eqn:Hk.
    + destruct Hin as (item0 & item' & E0 & E' & Hm).
      { apply Hspec. exists item. split; [now apply Hscanned | assumption]. }
      assert (item0 = item) by congruence. subst item0. now exists item'.
    + rewrite Hout; [assumption|].
      intros Hj. apply Hspec in Hj as (r & Hr & Hl).
      assert (r = item) by congruence. subst r.
      apply Hscanned in Hr. congruence.
Qed.


(** C3.  The records are marked only after the upload: when the upload
    fails the run leaves table and bucket as they were, so that a retry
    selects the same records, and the run answers 500 when there was
    something to export; and whenever a run changed the table, its upload
    had succeeded and the export file is in the bucket. *)
Theorem upload_failure_marks_nothing (env : Env) (w w' : World) (resp : Response) :
  handler env w = (resp, w') ->
  (putObject_fails env = true ->
   w' = w
   /\ Scan (table w') approved_unexported = Scan (table w) approved_unexported
   /\ (Scan (table w) approved_unexported <> [] -> statusCode resp = 500))
  /\ (table w' <> table w ->
      putObject_fails env = false
      /\ exists fileName fileContent, bucket w' !! fileName = Some fileContent).
Proof.
  intros Hrun.
  unfold handler, getApprovedRecords in Hrun.
  destruct (scan_fails env).
  { injection Hrun as <- <-. split; [intros _; repeat split|intros Hne; now destruct Hne]. }
  set (records := Scan (table w) approved_unexported) in *.
  destruct (Nat.eqb_spec (length records) 0) as [Hempty | Hnonempty].
  { injection Hrun as <- <-. split; [|intros Hne; now destruct Hne].
    intros _. repeat split. intros Hne. destruct records; [now destruct Hne | discriminate]. }
  destruct (map_result recordToFixedWidth records) as [lines|e].
  2:{ injection Hrun as <- <-. split; [intros _; repeat split|intros Hne; now destruct Hne]. }
  unfold uploadExportFile in Hrun.
  destruct (putObject_fails env).
  { injection Hrun as <- <-. split; [intros _; repeat split|intros Hne; now destruct Hne]. }
  split; [discriminate|]. intros Hne. split; [reflexivity|].
  destruct (map_result submissionId_of records) as [ids|e].
  2:{ injection Hrun as <- <-. now destruct Hne. }
  unfold markRecordsAsExported in Hrun.
  destruct (existsb (update_fails env) ids);
    injection Hrun as <- <-; cbn [bucket]; unfold S3.PutObject;
    eexists _, _; apply lookup_insert_eq.
Qed.

End ExportRun.

Section ExportProgress.
Context `{Host}.
Import DynamoDB DailyExporter.
Context `{Paging}.

Lemma recordToFixedWidth_returns (record : gmap (list N) AttributeValue) :
  is_Some (Date_parse (default [] (attr_S record (js "submissionDate")))) ->
  exists line, recordToFixedWidth record = Ok line.
Proof.
  intros [t Ht]. unfold recordToFixedWidth. rewrite Ht. cbn [JsDate.Date_toISOString bind].
  eauto.
Qed.

Lemma map_result_returns {A B} (f : A -> result B) (l : list A) :
  (forall a, In a l -> exists b, f a = Ok b) -> exists bs, map_result f l = Ok bs.
Proof.
  induction l as [|a l IH]; intros Hall; [now exists []|].
  destruct (Hall a (or_introl eq_refl)) as [b Hb].
  destruct IH as [bs Hbs]; [intros a' Ha'; apply Hall; now right|].
  exists (b :: bs). cbn [map_result]. now rewrite Hb, Hbs.
Qed.

(** A run answers 200 when no service call fails and the submission date of
    every selected record parses. *)
Lemma runExport_succeeds (env : Env) (w : World) :
  well_keyed (table w) ->
  scan_fails env = false ->
  putObject_fails env = false ->
  (forall id, update_fails env id = false) ->
  (forall item, In item (Scan (table w) approved_unexported) ->
                is_Some (Date_parse (default [] (attr_S item (js "submissionDate"))))) ->
  statusCode (handler env w).1 = 200.
Proof.
  intros Hwk Hscan Hput Hupd Hdates.
  unfold handler, getApprovedRecords, uploadExportFile, markRecordsAsExported.
  rewrite Hscan, Hput.
  set (records := Scan (table w) approved_unexported) in *.
  destruct (length records =? 0)%nat; [reflexivity|].
  destruct (map_result_returns recordToFixedWidth records) as [lines ->].
  { intros r Hr. apply recordToFixedWidth_returns, Hdates, Hr. }
  destruct (submissionIds_of_records (table w) records Hwk) as (ids & -> & _).
  { intros r Hr. now apply Scan_stored in Hr. }
  assert (Hnone : existsb (update_fails env) ids = false).
  { induction ids as [|i ids IH]; [reflexivity|]. cbn. now rewrite Hupd, IH. }
  rewrite Hnone. reflexivity.
Qed.

End ExportProgress.


(** ** The verification receiver *)

Section ReceiverFacts.
Context `{Host}.
Import DynamoDB WebhookHandler.

Lemma receive_known env t event props id item :
  known_callback env t event props id item ->
  handler env t event
  = (respond event 200
       (Success id (outcome props)
          (js "Submission " ++ id ++ js " updated with status: " ++ outcome props)),
     UpdateItem_SET t id (stored_update env props)).
Proof.
  intros [Hm (text & Hb & Hne & Hp) Htok Hid Hst Hget Hupd].
  unfold handler, process. rewrite Hm, Hb.
  destruct text as [|c text]; [contradiction|].
  change (bool_decide (js "POST" = js "OPTIONS")) with false.
  change (bool_decide (js "POST" = js "POST")) with true.
  cbv iota. rewrite Hp. cbn [JSON.get bind]. rewrite Htok.
  destruct id as [|i id]; [contradiction|].
  cbn [JSON.truthy length Nat.eqb negb default].
  unfold getSubmission, Datatypes.id. rewrite Hget. unfold GetItem. rewrite Hst. cbn [bind].
  unfold updateSubmissionStatus. rewrite Hupd. cbn [bind].
  reflexivity.
Qed.

Lemma stored_after_update env t props id item :
  t !! id = Some item ->
  UpdateItem_SET t id (stored_update env props) !! id
  = Some (<[js "updatedAt" := AttrS (JsDate.toISOString (now env))]>
            (<[js "webhookData" := AttrS (JSON.stringify (JSON.Object props))]>
               (<[js "status" := AttrS (outcome props)]> item))).
Proof.
  intros Hst. unfold UpdateItem_SET. rewrite Hst. cbn. apply lookup_insert_eq.
Qed.

Lemma status_codes env t event :
  In (statusCode (handler env t event).1) [200; 400; 404; 500].
Proof.
  unfold handler, process, bind, respond.
  repeat case_match; simplify_eq; cbn; tauto.
Qed.

(** C1, as the code has it.  A callback for a stored submission always
    writes the outcome it carries, whatever status is stored: the answer is
    200 with that outcome, the stored status becomes that outcome (so it is
    unchanged when the outcome repeats the stored one and overwritten when it
    differs), and no other submission is touched.  The handler has no
    conflict answer: its status codes are 200, 400, 404 and 500. *)
Theorem receive_again_overwrites env t event props id item old :
  known_callback env t event props id item ->
  item !! js "status" = Some (AttrS old) ->
  exists t' item',
    handler env t event
    = (respond event 200
         (Success id (outcome props)
            (js "Submission " ++ id ++ js " updated with status: " ++ outcome props)),
       t')
    /\ t' !! id = Some item'
    /\ item' !! js "status" = Some (AttrS (outcome props))
    /\ (outcome props = old -> item' !! js "status" = item !! js "status")
    /\ (outcome props <> old -> item' !! js "status" <> item !! js "status")
    /\ (forall j, j <> id -> t' !! j = t !! j)
    /\ forall env0 t0 event0,
         In (statusCode (handler env0 t0 event0).1) [200; 400; 404; 500].
Proof.
  intros Hk Hold.
  eexists _, _. split; [apply (receive_known _ _ _ _ _ _ Hk)|].
  split; [apply stored_after_update, Hk|].
  assert (Hs : (<[js "updatedAt" := AttrS (JsDate.toISOString (now env))]>
                  (<[js "webhookData" := AttrS (JSON.stringify (JSON.Object props))]>
                     (<[js "status" := AttrS (outcome props)]> item))) !! js "status"
               = Some (AttrS (outcome props))).
  { rewrite lookup_insert_ne by (vm_compute; congruence).
    rewrite lookup_insert_ne by (vm_compute; congruence).
    apply lookup_insert_eq. }
  split; [exact Hs|]. rewrite Hs, Hold.
  split; [congruence|]. split; [congruence|].
  split; [|apply status_codes].
  intros j Hj. unfold UpdateItem_SET. now rewrite lookup_insert_ne by congruence.
Qed.

(** C6, as the code has it.  For a callback that names a stored submission
    the outcome is approved exactly when the [VerificationStatus] property
    is the string [True] (capital T, compared exactly) or the boolean
    [true]; for every other value, and when the property is absent, it is
    failed.  The answer carries that outcome and it is stored as the
    status. *)
Theorem outcome_is_True_or_true env t event props id item :
  known_callback env t event props id item ->
  let status := outcome props in
  (status = js "approved"
   <-> JSON.own props (js "VerificationStatus") = Some (JSON.String (js "True"))
       \/ JSON.own props (js "VerificationStatus") = Some (JSON.Bool true))
  /\ (status <> js "approved" -> status = js "failed")
  /\ exists t' item' message,
       handler env t event = (respond event 200 (Success id status message), t')
       /\ t' !! id = Some item'
       /\ item' !! js "status" = Some (AttrS status).
Proof.
  intros Hk status. subst status. split; [|split].
  - unfold outcome, verified.
    destruct (JSON.own props (js "VerificationStatus")) as [[|b|n|s|l|o]|];
      try (split; [discriminate | intros [E|E]; discriminate E]).
    + destruct b; split; try discriminate; auto.
      intros [E|E]; discriminate E.
    + destruct (bool_decide_reflect (s = js "True")) as [->|Hne].
      * split; auto.
      * split; [discriminate|]. intros [E|E]; [|discriminate E].
        injection E as E. contradiction.
  - unfold outcome. destruct (verified _); [intros Hc; now destruct Hc | reflexivity].
  - eexists _, _, _. split; [apply (receive_known _ _ _ _ _ _ Hk)|].
    split; [apply stored_after_update, Hk|].
    rewrite lookup_insert_ne by (vm_compute; congruence).
    rewrite lookup_insert_ne by (vm_compute; congruence).
    apply lookup_insert_eq.
Qed.

(** C9, as the code has it.  What a successful callback stores is the
    re-serialization [JSON.stringify] of the parsed payload, under the
    attribute [webhookData]; the raw body itself is not stored. *)
Theorem stores_reserialized_payload env t event props id item :
  known_callback env t event props id item ->
  exists item',
    (handler env t event).2 !! id = Some item'
    /\ item' !! js "webhookData" = Some (AttrS (JSON.stringify (JSON.Object props)))
    /\ forall a, a <> js "status" -> a <> js "webhookData" -> a <> js "updatedAt" ->
                 item' !! a = item !! a.
Proof.
  intros Hk. rewrite (receive_known _ _ _ _ _ _ Hk). cbn [snd].
  eexists. split; [apply stored_after_update, Hk|]. split.
  - rewrite lookup_insert_ne by (vm_compute; congruence). apply lookup_insert_eq.
  - intros a H1 H2 H3. now rewrite !lookup_insert_ne by congruence.
Qed.

End ReceiverFacts.

(** ** AES-256: the inverse cipher undoes the cipher *)

Section AESFacts.
Import AES256.

Lemma byte_of_to_N (b : byte) : byte_of_N (Byte.to_N b) = b.
Proof.
  unfold byte_of_N.
  pose proof (Byte.to_N_bounded b) as Hb.
  rewrite N.mod_small by lia. now rewrite Byte.of_to_N.
Qed.

Lemma to_of_N_byte (n : N) : (n < 256)%N -> Byte.to_N (byte_of_N n) = n.
Proof.
  intros Hn. unfold byte_of_N. rewrite N.mod_small by assumption.
  destruct (Byte.of_N n) as [b|] eqn:E.
  - now apply Byte.to_of_N in E.
  - apply Byte.of_N_None_iff in E. lia.
Qed.

Lemma to_N_inj (a b : byte) : Byte.to_N a = Byte.to_N b -> a = b.
Proof. intros E. rewrite <- (byte_of_to_N a), <- (byte_of_to_N b). now rewrite E. Qed.

Lemma in_all_bytes (b : byte) : In b all_bytes.
Proof.
  unfold all_bytes. rewrite <- (byte_of_to_N b).
  apply in_map, in_map_iff. exists (N.to_nat (Byte.to_N b)).
  split; [apply N2Nat.id|].
  apply in_seq. pose proof (Byte.to_N_bounded b). lia.
Qed.

(** A property checked on the 256 bytes holds of every byte. *)
Lemma byte_forall (P : byte -> bool) :
  forallb P all_bytes = true -> forall b, P b = true.
Proof. intros Hall b. rewrite forallb_forall in Hall. apply Hall, in_all_bytes. Qed.

Lemma byte_forall2 (P : byte -> byte -> bool) :
  forallb (fun a => forallb (P a) all_bytes) all_bytes = true ->
  forall a b, P a b = true.
Proof.
  intros Hall a b.
  apply (byte_forall (P a)). now apply (byte_forall (fun a => forallb (P a) all_bytes)).
Qed.

Lemma byte_eqb_eq (a b : byte) : Byte.eqb a b = true -> a = b.
Proof. apply Byte.byte_dec_bl. Qed.

Lemma log2_byte (x : N) : (x < 256)%N -> (N.log2 x < 8)%N.
Proof.
  intros Hx. destruct (N.eq_dec x 0%N) as [->|Hx0]; [cbn; lia|].
  apply N.log2_lt_pow2; [lia | exact Hx].
Qed.

Lemma lxor_byte_bound (x y : N) : (x < 256)%N -> (y < 256)%N -> (N.lxor x y < 256)%N.
Proof.
  intros Hx Hy.
  destruct (N.eq_dec (N.lxor x y) 0%N) as [E|Hnz]; [rewrite E; lia|].
  change 256%N with (2 ^ 8)%N.
  apply N.log2_lt_pow2; [lia|].
  eapply N.le_lt_trans; [apply N.log2_lxor|].
  apply N.max_lub_lt; now apply log2_byte.
Qed.

Lemma to_N_bxor (a b : byte) :
  Byte.to_N (bxor a b) = N.lxor (Byte.to_N a) (Byte.to_N b).
Proof.
  unfold bxor. apply to_of_N_byte.
  pose proof (Byte.to_N_bounded a). pose proof (Byte.to_N_bounded b).
  apply lxor_byte_bound; lia.
Qed.

Lemma bxor_comm (a b : byte) : bxor a b = bxor b a.
Proof. apply to_N_inj. rewrite !to_N_bxor. apply N.lxor_comm. Qed.

Lemma bxor_assoc (a b c : byte) : bxor (bxor a b) c = bxor a (bxor b c).
Proof. apply to_N_inj. rewrite !to_N_bxor. apply N.lxor_assoc. Qed.

Lemma bxor_nilpotent (a : byte) : bxor a a = Byte.x00.
Proof. apply to_N_inj. rewrite to_N_bxor. now rewrite N.lxor_nilpotent. Qed.

Lemma bxor_0_r (a : byte) : bxor a Byte.x00 = a.
Proof. apply to_N_inj. rewrite to_N_bxor. apply N.lxor_0_r. Qed.

Lemma bxor_0_l (a : byte) : bxor Byte.x00 a = a.
Proof. rewrite bxor_comm. apply bxor_0_r. Qed.

Lemma bxor_cancel (a k : byte) : bxor (bxor a k) k = a.
Proof. now rewrite bxor_assoc, bxor_nilpotent, bxor_0_r. Qed.

Lemma inv_sbox_sbox (a : byte) : inv_sbox (sbox a) = a.
Proof.
  apply byte_eqb_eq.
  apply (byte_forall (fun a => Byte.eqb (inv_sbox (sbox a)) a)).
  vm_compute. reflexivity.
Qed.

End AESFacts.

Section MixColumnsFacts.
Import AES256.

(** The sum of four bytes, associated as in the column formulas. *)
Local Abbreviation x4 a b c d := (bxor (bxor (bxor a b) c) d).

Lemma x4_transpose (a0 a1 a2 a3 b0 b1 b2 b3 c0 c1 c2 c3 d0 d1 d2 d3 : byte) :
  x4 (x4 a0 a1 a2 a3) (x4 b0 b1 b2 b3) (x4 c0 c1 c2 c3) (x4 d0 d1 d2 d3)
  = x4 (x4 a0 b0 c0 d0) (x4 a1 b1 c1 d1) (x4 a2 b2 c2 d2) (x4 a3 b3 c3 d3).
Proof.
  apply to_N_inj. rewrite !to_N_bxor.
  apply N.bits_inj. intros n. rewrite !N.lxor_spec.
  btauto.
Qed.

Lemma bxor_swap (a b c d : byte) :
  bxor (bxor a b) (bxor c d) = bxor (bxor a c) (bxor b d).
Proof.
  rewrite !bxor_assoc. f_equal.
  rewrite <- !bxor_assoc. f_equal. apply bxor_comm.
Qed.

Lemma xtime_xor (a b : byte) : xtime (bxor a b) = bxor (xtime a) (xtime b).
Proof.
  apply byte_eqb_eq. revert a b. apply byte_forall2. vm_compute. reflexivity.
Qed.

Lemma gmul_bits_xor (bits : nat) :
  forall (a b : byte) (k : N),
    gmul_bits bits (bxor a b) k = bxor (gmul_bits bits a k) (gmul_bits bits b k).
Proof.
  induction bits as [|bits IH]; intros a b k; cbn [gmul_bits].
  - now rewrite bxor_0_r.
  - rewrite xtime_xor, IH.
    destruct (N.odd k).
    + apply bxor_swap.
    + now rewrite !bxor_0_l.
Qed.

Lemma gmul_xor (c a b : byte) :
  gmul (bxor a b) c = bxor (gmul a c) (gmul b c).
Proof. apply gmul_bits_xor. Qed.

Lemma gmul_x4 (c p q r s : byte) :
  gmul (x4 p q r s) c = x4 (gmul p c) (gmul q c) (gmul r c) (gmul s c).
Proof. now rewrite !gmul_xor. Qed.

Lemma mix_entries_0 (a : byte) :
  x4 (gmul (xtime a) x0e) (gmul a x0b) (gmul a x0d) (gmul (mul3 a) x09) = a
  /\ x4 (gmul (xtime a) x09) (gmul a x0e) (gmul a x0b) (gmul (mul3 a) x0d) = Byte.x00
  /\ x4 (gmul (xtime a) x0d) (gmul a x09) (gmul a x0e) (gmul (mul3 a) x0b) = Byte.x00
  /\ x4 (gmul (xtime a) x0b) (gmul a x0d) (gmul a x09) (gmul (mul3 a) x0e) = Byte.x00.
Proof.
  repeat split; apply byte_eqb_eq; revert a; apply byte_forall; vm_compute; reflexivity.
Qed.

Lemma mix_entries_1 (a : byte) :
  x4 (gmul (mul3 a) x0e) (gmul (xtime a) x0b) (gmul a x0d) (gmul a x09) = Byte.x00
  /\ x4 (gmul (mul3 a) x09) (gmul (xtime a) x0e) (gmul a x0b) (gmul a x0d) = a
  /\ x4 (gmul (mul3 a) x0d) (gmul (xtime a) x09) (gmul a x0e) (gmul a x0b) = Byte.x00
  /\ x4 (gmul (mul3 a) x0b) (gmul (xtime a) x0d) (gmul a x09) (gmul a x0e) = Byte.x00.
Proof.
  repeat split; apply byte_eqb_eq; revert a; apply byte_forall; vm_compute; reflexivity.
Qed.

Lemma mix_entries_2 (a : byte) :
  x4 (gmul a x0e) (gmul (mul3 a) x0b) (gmul (xtime a) x0d) (gmul a x09) = Byte.x00
  /\ x4 (gmul a x09) (gmul (mul3 a) x0e) (gmul (xtime a) x0b) (gmul a x0d) = Byte.x00
  /\ x4 (gmul a x0d) (gmul (mul3 a) x09) (gmul (xtime a) x0e) (gmul a x0b) = a
  /\ x4 (gmul a x0b) (gmul (mul3 a) x0d) (gmul (xtime a) x09) (gmul a x0e) = Byte.x00.
Proof.
  repeat split; apply byte_eqb_eq; revert a; apply byte_forall; vm_compute; reflexivity.
Qed.

Lemma mix_entries_3 (a : byte) :
  x4 (gmul a x0e) (gmul a x0b) (gmul (mul3 a) x0d) (gmul (xtime a) x09) = Byte.x00
  /\ x4 (gmul a x09) (gmul a x0e) (gmul (mul3 a) x0b) (gmul (xtime a) x0d) = Byte.x00
  /\ x4 (gmul a x0d) (gmul a x09) (gmul (mul3 a) x0e) (gmul (xtime a) x0b) = Byte.x00
  /\ x4 (gmul a x0b) (gmul a x0d) (gmul (mul3 a) x09) (gmul (xtime a) x0e) = a.
Proof.
  repeat split; apply byte_eqb_eq; revert a; apply byte_forall; vm_compute; reflexivity.
Qed.

Lemma inv_mix_column_mix_column (c : column) : inv_mix_column (mix_column c) = c.
Proof.
  destruct c as [[[a0 a1] a2] a3].
  unfold mix_column, inv_mix_column.
  rewrite !gmul_x4.
  destruct (mix_entries_0 a0) as (E00 & E10 & E20 & E30).
  destruct (mix_entries_1 a1) as (E01 & E11 & E21 & E31).
  destruct (mix_entries_2 a2) as (E02 & E12 & E22 & E32).
  destruct (mix_entries_3 a3) as (E03 & E13 & E23 & E33).
  repeat match goal with |- (_, _) = (_, _) => f_equal end;
    rewrite x4_transpose.
  - now rewrite E00, E01, E02, E03, !bxor_0_r.
  - now rewrite E10, E11, E12, E13, !bxor_0_r, bxor_0_l.
  - now rewrite E20, E21, E22, E23, !bxor_0_r, bxor_0_l.
  - now rewrite E30, E31, E32, E33, !bxor_0_l.
Qed.

End MixColumnsFacts.

Section CipherFacts.
Import AES256.

Lemma add_round_key_cancel (rk s : state) : add_round_key rk (add_round_key rk s) = s.
Proof.
  destruct s as [[[[[[a0 a1] a2] a3] [[[b0 b1] b2] b3]] [[[c0 c1] c2] c3]] [[[d0 d1] d2] d3]].
  destruct rk as [[[[[[k0 k1] k2] k3] [[[l0 l1] l2] l3]] [[[m0 m1] m2] m3]] [[[n0 n1] n2] n3]].
  cbn. now rewrite !bxor_cancel.
Qed.

Lemma inv_shift_rows_shift_rows (s : state) : inv_shift_rows (shift_rows s) = s.
Proof.
  now destruct s as [[[[[[a0 a1] a2] a3] [[[b0 b1] b2] b3]] [[[c0 c1] c2] c3]] [[[d0 d1] d2] d3]].
Qed.

Lemma inv_sub_bytes_sub_bytes (s : state) : inv_sub_bytes (sub_bytes s) = s.
Proof.
  destruct s as [[[[[[a0 a1] a2] a3] [[[b0 b1] b2] b3]] [[[c0 c1] c2] c3]] [[[d0 d1] d2] d3]].
  unfold inv_sub_bytes, sub_bytes, map_state, map_column.
  now rewrite !inv_sbox_sbox.
Qed.

Lemma inv_mix_columns_mix_columns (s : state) : inv_mix_columns (mix_columns s) = s.
Proof.
  destruct s as [[[c0 c1] c2] c3].
  unfold inv_mix_columns, mix_columns, map_state.
  now rewrite !inv_mix_column_mix_column.
Qed.

Lemma inv_rounds_rounds (rks : list state) :
  forall s, inv_rounds rks (rounds rks s) = s.
Proof.
  induction rks as [|rk rest IH]; intros s; [reflexivity|].
  destruct rest as [|rk' rest].
  - cbn. now rewrite add_round_key_cancel, inv_shift_rows_shift_rows,
      inv_sub_bytes_sub_bytes.
  - change (rounds (rk :: rk' :: rest) s)
      with (rounds (rk' :: rest)
              (add_round_key rk (mix_columns (shift_rows (sub_bytes s))))).
    change (inv_rounds (rk :: rk' :: rest) ?x)
      with (inv_sub_bytes
              (inv_shift_rows
                 (inv_mix_columns (add_round_key rk (inv_rounds (rk' :: rest) x))))).
    now rewrite IH, add_round_key_cancel, inv_mix_columns_mix_columns,
      inv_shift_rows_shift_rows, inv_sub_bytes_sub_bytes.
Qed.

Lemma inv_cipher_cipher (rks : list state) (s : state) :
  inv_cipher rks (cipher rks s) = s.
Proof.
  destruct rks as [|rk0 rest]; [reflexivity|].
  cbn [cipher inv_cipher]. now rewrite inv_rounds_rounds, add_round_key_cancel.
Qed.

Lemma state_of_block_of_state (s : state) : state_of_block (block_of_state s) = s.
Proof.
  now destruct s as [[[[[[a0 a1] a2] a3] [[[b0 b1] b2] b3]] [[[c0 c1] c2] c3]] [[[d0 d1] d2] d3]].
Qed.

Lemma block_of_state_length (s : state) : length (block_of_state s) = 16%nat.
Proof.
  now destruct s as [[[[[[a0 a1] a2] a3] [[[b0 b1] b2] b3]] [[[c0 c1] c2] c3]] [[[d0 d1] d2] d3]].
Qed.

Lemma block_of_state_of_block (b : list byte) :
  length b = 16%nat -> block_of_state (state_of_block b) = b.
Proof.
  intros Hlen.
  do 16 (destruct b as [|? b]; [discriminate Hlen|]).
  destruct b; [reflexivity | discriminate Hlen].
Qed.

Lemma encrypt_block_length (rks : list state) (b : list byte) :
  length (encrypt_block rks b) = 16%nat.
Proof. apply block_of_state_length. Qed.

Lemma decrypt_block_length (rks : list state) (b : list byte) :
  length (decrypt_block rks b) = 16%nat.
Proof. apply block_of_state_length. Qed.

Lemma decrypt_encrypt_block (rks : list state) (b : list byte) :
  length b = 16%nat -> decrypt_block rks (encrypt_block rks b) = b.
Proof.
  intros Hlen. unfold decrypt_block, encrypt_block.
  now rewrite state_of_block_of_state, inv_cipher_cipher, block_of_state_of_block.
Qed.

End CipherFacts.

(** ** Base64 *)

Section Base64Facts.
Import Base64.
Local Open Scope N_scope.

Lemma value_char (v : N) : v < 64 -> value (char v) = Some v.
Proof.
  intros Hv.
  assert (Hall : forallb (fun n => match value (char n) with
                                   | Some m => n =? m
                                   | None => false
                                   end) (map N.of_nat (seq 0 64)) = true)
    by (vm_compute; reflexivity).
  rewrite forallb_forall in Hall.
  specialize (Hall v).
  destruct (value (char v)) as [m|].
  - f_equal. symmetry. apply N.eqb_eq, Hall.
    apply in_map_iff. exists (N.to_nat v). split; [apply N2Nat.id|].
    apply in_seq. lia.
  - discriminate Hall.
    apply in_map_iff. exists (N.to_nat v). split; [apply N2Nat.id|].
    apply in_seq. lia.
Qed.

Lemma char_not_pad (v : N) : (char v =? PAD) = false.
Proof.
  unfold char, PAD.
  destruct (N.ltb_spec v 26); [apply N.eqb_neq; lia|].
  destruct (N.ltb_spec v 52); [apply N.eqb_neq; lia|].
  destruct (N.ltb_spec v 62); [apply N.eqb_neq; lia|].
  destruct (N.eqb_spec v 62); apply N.eqb_neq; lia.
Qed.


Lemma sextets (a b c : N) :
  a < 256 -> b < 256 -> c < 256 ->
  a / 4 < 64 /\ (a mod 4) * 16 + b / 16 < 64 /\ (b mod 16) * 4 + c / 64 < 64
  /\ c mod 64 < 64 /\ (a mod 4) * 16 < 64 /\ (b mod 16) * 4 < 64.
Proof.
  intros Ha Hb Hc.
  pose proof (N.mod_lt a 4). pose proof (N.mod_lt b 16). pose proof (N.mod_lt c 64).
  assert (a / 4 < 64) by (apply N.Div0.div_lt_upper_bound; lia).
  assert (b / 16 < 16) by (apply N.Div0.div_lt_upper_bound; lia).
  assert (c / 64 < 4) by (apply N.Div0.div_lt_upper_bound; lia).
  lia.
Qed.

Lemma octet_1 (a b : N) :
  a < 256 -> b < 256 -> (a / 4) * 4 + ((a mod 4) * 16 + b / 16) / 16 = a.
Proof.
  intros Ha Hb.
  assert (E : ((a mod 4) * 16 + b / 16) / 16 = a mod 4).
  { rewrite N.div_add_l by lia.
    rewrite (N.div_small (b / 16)); [lia|].
    apply N.Div0.div_lt_upper_bound; lia. }
  rewrite E. pose proof (N.div_mod a 4). lia.
Qed.

Lemma octet_2 (a b c : N) :
  b < 256 -> c < 256 ->
  (((a mod 4) * 16 + b / 16) mod 16) * 16 + ((b mod 16) * 4 + c / 64) / 4 = b.
Proof.
  intros Hb Hc.
  assert (E1 : ((a mod 4) * 16 + b / 16) mod 16 = b / 16).
  { rewrite N.add_comm, N.Div0.mod_add. apply N.mod_small.
    apply N.Div0.div_lt_upper_bound; lia. }
  assert (E2 : ((b mod 16) * 4 + c / 64) / 4 = b mod 16).
  { rewrite N.div_add_l by lia.
    rewrite (N.div_small (c / 64)); [lia|].
    apply N.Div0.div_lt_upper_bound; lia. }
  rewrite E1, E2. pose proof (N.div_mod b 16). lia.
Qed.

Lemma octet_3 (b c : N) :
  c < 256 -> (((b mod 16) * 4 + c / 64) mod 4) * 64 + c mod 64 = c.
Proof.
  intros Hc.
  assert (E : ((b mod 16) * 4 + c / 64) mod 4 = c / 64).
  { rewrite N.add_comm, N.Div0.mod_add. apply N.mod_small.
    apply N.Div0.div_lt_upper_bound; lia. }
  rewrite E. pose proof (N.div_mod c 64). lia.
Qed.

Lemma three_step_induction {A} (P : list A -> Prop) :
  P [] -> (forall a, P [a]) -> (forall a b, P [a; b]) ->
  (forall a b c r, P r -> P (a :: b :: c :: r)) ->
  forall l, P l.
Proof.
  intros H0 H1 H2 H3.
  fix IH 1. intros [|a [|b [|c r]]]; [apply H0 | apply H1 | apply H2 | apply H3, IH].
Qed.

Lemma base64_decode_encode (bs : list byte) : decode (encode bs) = Some bs.
Proof.
  induction bs as [|a|a b|a b c r IH] using three_step_induction.
  - reflexivity.
  - pose proof (Byte.to_N_bounded a) as Ha.
    destruct (sextets (Byte.to_N a) 0 0) as (S1 & _ & _ & _ & S5 & _); try lia.
    cbn [encode decode].
    rewrite !value_char by assumption.
    change (PAD =? PAD) with true. cbv iota.
    do 2 f_equal.
    pose proof (octet_1 (Byte.to_N a) 0) as E. rewrite N.add_0_r in E.
    rewrite E by lia. apply byte_of_to_N.
  - pose proof (Byte.to_N_bounded a) as Ha. pose proof (Byte.to_N_bounded b) as Hb.
    destruct (sextets (Byte.to_N a) (Byte.to_N b) 0) as (S1 & S2 & _ & _ & _ & S6); try lia.
    cbn [encode decode].
    rewrite !value_char by assumption.
    change (PAD =? PAD) with true. cbv iota. rewrite char_not_pad.
    rewrite octet_1 by lia.
    pose proof (octet_2 (Byte.to_N a) (Byte.to_N b) 0) as E.
    rewrite N.add_0_r in E. rewrite E by lia.
    now rewrite !byte_of_to_N.
  - pose proof (Byte.to_N_bounded a) as Ha. pose proof (Byte.to_N_bounded b) as Hb.
    pose proof (Byte.to_N_bounded c) as Hc.
    destruct (sextets (Byte.to_N a) (Byte.to_N b) (Byte.to_N c))
      as (S1 & S2 & S3 & S4 & _ & _); try lia.
    cbn [encode decode].
    rewrite !value_char by assumption.
    rewrite char_not_pad, IH.
    rewrite octet_1, octet_2, octet_3 by lia.
    now rewrite !byte_of_to_N.
Qed.


End Base64Facts.

(** ** Blocks, padding and CBC *)

Section CBCFacts.
Import Crypto.

Lemma chunks_concat {A} (size : nat) :
  (0 < size)%nat ->
  forall (fuel : nat) (l : list A),
    (length l <= fuel)%nat -> concat (chunks fuel size l) = l.
Proof.
  intros Hsize. induction fuel as [|fuel IH]; intros l Hlen.
  - destruct l; [reflexivity | cbn in Hlen; lia].
  - destruct l as [|x l]; [reflexivity|].
    cbn [chunks concat]. rewrite IH.
    + apply take_drop.
    + rewrite length_drop. cbn [length] in *. lia.
Qed.

Lemma chunks_of_concat {A} (size : nat) (blocks : list (list A)) :
  (0 < size)%nat ->
  Forall (fun b => length b = size) blocks ->
  forall fuel, (length (concat blocks) <= fuel)%nat ->
    chunks fuel size (concat blocks) = blocks.
Proof.
  intros Hsize Hall. induction Hall as [|b blocks Hb Hall IH]; intros fuel Hlen.
  - destruct fuel; reflexivity.
  - cbn [concat] in *. rewrite length_app in Hlen.
    destruct fuel as [|fuel]; [lia|].
    destruct b as [|x b]; [cbn in Hb; lia|].
    change (chunks (S fuel) size ((x :: b) ++ concat blocks))
      with (take size ((x :: b) ++ concat blocks)
              :: chunks fuel size (drop size ((x :: b) ++ concat blocks))).
    rewrite take_app_length', drop_app_length' by congruence.
    f_equal. apply IH. lia.
Qed.

Lemma chunks_lengths {A} (size : nat) :
  (0 < size)%nat ->
  forall (fuel : nat) (l : list A),
    (length l <= fuel)%nat -> (length l mod size = 0)%nat ->
    Forall (fun b => length b = size) (chunks fuel size l).
Proof.
  intros Hsize. induction fuel as [|fuel IH]; intros l Hlen Hmod.
  - constructor.
  - destruct l as [|x l]; [constructor|].
    cbn [chunks].
    assert (Hge : (size <= length (x :: l))%nat).
    { destruct (Nat.le_gt_cases size (length (x :: l))) as [?|Hlt]; [assumption|].
      rewrite Nat.mod_small in Hmod by assumption. cbn in Hmod. lia. }
    constructor.
    + rewrite length_take. lia.
    + apply IH.
      * rewrite length_drop. cbn [length] in *. lia.
      * rewrite length_drop.
        replace (length (x :: l)) with ((length (x :: l) - size) + 1 * size)%nat in Hmod by lia.
        now rewrite Nat.Div0.mod_add in Hmod.
Qed.

Lemma xor_block_cancel (p prev : list byte) :
  length p = length prev -> xor_block (xor_block p prev) prev = p.
Proof.
  revert prev. induction p as [|a p IH]; intros [|k prev] Hlen; try discriminate.
  - reflexivity.
  - cbn. rewrite bxor_cancel. f_equal. apply IH. now injection Hlen.
Qed.

Lemma xor_block_length (p prev : list byte) :
  length p = length prev -> length (xor_block p prev) = length p.
Proof.
  intros Hlen. unfold xor_block. rewrite length_zip_with. lia.
Qed.

Lemma cbc_decrypt_encrypt (rks : list AES256.state) (blocks : list (list byte)) :
  Forall (fun b => length b = 16%nat) blocks ->
  forall prev, length prev = 16%nat ->
    cbc_decrypt rks prev (cbc_encrypt rks prev blocks) = blocks.
Proof.
  intros Hall. induction Hall as [|p blocks Hp Hall IH]; intros prev Hprev.
  - reflexivity.
  - cbn [cbc_encrypt cbc_decrypt].
    rewrite decrypt_encrypt_block by (rewrite xor_block_length; congruence).
    rewrite xor_block_cancel by congruence.
    f_equal. apply IH. apply encrypt_block_length.
Qed.

Lemma cbc_encrypt_lengths (rks : list AES256.state) (blocks : list (list byte)) :
  forall prev, Forall (fun b => length b = 16%nat) (cbc_encrypt rks prev blocks).
Proof.
  induction blocks as [|p blocks IH]; intros prev; cbn [cbc_encrypt]; constructor.
  - apply encrypt_block_length.
  - apply IH.
Qed.

Lemma concat_blocks_length {A} (size : nat) (blocks : list (list A)) :
  Forall (fun b => length b = size) blocks ->
  length (concat blocks) = (length blocks * size)%nat.
Proof.
  induction 1 as [|b blocks Hb _ IH]; [reflexivity|].
  cbn [concat length]. rewrite length_app, IH, Hb. lia.
Qed.

Lemma cbc_encrypt_count (rks : list AES256.state) (blocks : list (list byte)) :
  forall prev, length (cbc_encrypt rks prev blocks) = length blocks.
Proof.
  induction blocks as [|p blocks IH]; intros prev; cbn; [reflexivity|]. now rewrite IH.
Qed.

Lemma pkcs7_pad_length (m : list byte) :
  (length (pkcs7_pad m) mod 16 = 0)%nat /\ (16 <= length (pkcs7_pad m))%nat.
Proof.
  unfold pkcs7_pad. rewrite length_app, length_replicate.
  pose proof (Nat.mod_upper_bound (length m) 16 ltac:(lia)) as Hlt.
  pose proof (Nat.div_mod_eq (length m) 16) as Hdm.
  split; [|lia].
  replace (length m + (16 - length m mod 16))%nat
    with ((length m / 16 + 1) * 16)%nat by lia.
  apply Nat.Div0.mod_mul.
Qed.

Lemma pkcs7_unpad_pad (m : list byte) : pkcs7_unpad (pkcs7_pad m) = Some m.
Proof.
  unfold pkcs7_unpad, pkcs7_pad.
  pose proof (Nat.mod_upper_bound (length m) 16 ltac:(lia)) as Hlt.
  set (k := (16 - length m mod 16)%nat).
  assert (Hk : (1 <= k <= 16)%nat) by (subst k; lia).
  set (b := byte_of_N (N.of_nat k)).
  assert (Hb : N.to_nat (Byte.to_N b) = k).
  { subst b. rewrite to_of_N_byte by lia. apply Nat2N.id. }
  assert (Hlast : last (m ++ replicate k b) = Some b).
  { destruct k as [|k']; [lia|].
    rewrite replicate_S_end, app_assoc. apply last_snoc. }
  rewrite Hlast, Hb. rewrite length_app, length_replicate.
  replace (length m + k - k)%nat with (length m) by lia.
  rewrite drop_app_length, take_app_length.
  destruct (Nat.leb_spec 1 k); [|lia].
  destruct (Nat.leb_spec k 16); [|lia].
  destruct (Nat.leb_spec k (length m + k)); [|lia].
  now rewrite bool_decide_eq_true_2.
Qed.

Lemma digest_length (msg : list byte) : length (SHA256.digest msg) = 32%nat.
Proof.
  unfold SHA256.digest.
  assert (Hbe : forall n x, length (SHA256.be_bytes n x) = n).
  { induction n as [|n IH]; intros x; cbn [SHA256.be_bytes]; [reflexivity|].
    rewrite length_app, IH. cbn. lia. }
  cbn [flat_map]. rewrite !length_app, !Hbe. reflexivity.
Qed.

(** Decryption under the same key undoes [aes_256_cbc]. *)
Lemma decrypt_bytes_aes_256_cbc (key iv m : list byte) :
  length key = 32%nat -> length iv = 16%nat ->
  exists cipherText,
    aes_256_cbc key iv m = Ok cipherText
    /\ Receiver.decrypt_bytes key (iv ++ cipherText) = Some m.
Proof.
  intros Hkey Hiv.
  unfold aes_256_cbc. rewrite Hkey, Hiv. cbn [Nat.eqb negb].
  eexists. split; [reflexivity|].
  set (rks := AES256.key_expansion key).
  set (padded := pkcs7_pad m).
  destruct (pkcs7_pad_length m) as [Hmod Hge]. fold padded in Hmod, Hge.
  set (blocks := chunks (length padded) 16 padded).
  assert (Hblocks : Forall (fun b => length b = 16%nat) blocks).
  { apply chunks_lengths; [lia | lia | assumption]. }
  assert (Hconcat : concat blocks = padded) by (apply chunks_concat; lia).
  set (cs := cbc_encrypt rks iv blocks).
  assert (Hcs : Forall (fun b => length b = 16%nat) cs) by apply cbc_encrypt_lengths.
  assert (Hn : (1 <= length blocks)%nat).
  { rewrite <- Hconcat, (concat_blocks_length 16) in Hge by assumption. lia. }
  assert (Hlen : length (concat cs) = (length blocks * 16)%nat).
  { rewrite (concat_blocks_length 16) by assumption.
    subst cs. now rewrite cbc_encrypt_count. }
  unfold Receiver.decrypt_bytes.
  rewrite take_app_length', drop_app_length' by congruence.
  rewrite length_app, Hlen, Hiv.
  destruct (Nat.ltb_spec (16 + length blocks * 16) 32); [lia|].
  rewrite Nat.Div0.mod_mul. cbn [Nat.eqb negb orb].
  fold rks. rewrite <- Hlen.
  rewrite (chunks_of_concat 16) by (assumption || lia).
  subst cs. rewrite cbc_decrypt_encrypt by assumption.
  rewrite Hconcat. apply pkcs7_unpad_pad.
Qed.

End CBCFacts.

(** ** The handoff *)

Section Handoff.
Import FormProcessor.

Lemma encryptQueryString_decrypts (queryString sharedSecret : jsstring) (iv : list byte) :
  length iv = 16%nat ->
  exists cipherText,
    Crypto.aes_256_cbc (SHA256.digest (UTF8.encode sharedSecret)) iv
      (UTF8.encode queryString) = Ok cipherText
    /\ encryptQueryString queryString sharedSecret (Ok iv)
       = Ok (Base64.encode (iv ++ cipherText))
    /\ Receiver.decrypt (Base64.encode (iv ++ cipherText)) sharedSecret
       = Some (UTF8.encode queryString).
Proof.
  intros Hiv.
  destruct (decrypt_bytes_aes_256_cbc (SHA256.digest (UTF8.encode sharedSecret)) iv
              (UTF8.encode queryString) (digest_length _) Hiv) as (ct & Henc & Hdec).
  exists ct. split; [exact Henc|]. split.
  - unfold encryptQueryString. cbn [bind]. rewrite Henc. reflexivity.
  - unfold Receiver.decrypt. rewrite base64_decode_encode. exact Hdec.
Qed.

(** C5.  For every plaintext, every non-empty shared secret and every
    16-byte IV, encryption succeeds, the base64 decoding of its output is
    the IV followed by the ciphertext, and AES-256-CBC decryption under the
    SHA-256 hash of the secret, with the IV taken from that prefix, returns
    the bytes of the plaintext.  The same holds of every byte string
    encrypted under the derived key. *)
Theorem decrypt_encrypt_roundtrip (m sharedSecret : jsstring) (iv : list byte) :
  sharedSecret <> [] ->
  length iv = 16%nat ->
  (exists data cipherText,
      encryptQueryString m sharedSecret (Ok iv) = Ok data
      /\ Base64.decode data = Some (iv ++ cipherText)
      /\ take 16 (iv ++ cipherText) = iv
      /\ Receiver.decrypt data sharedSecret = Some (UTF8.encode m))
  /\ forall bytes : list byte,
       exists cipherText,
         Crypto.aes_256_cbc (SHA256.digest (UTF8.encode sharedSecret)) iv bytes
         = Ok cipherText
         /\ Receiver.decrypt_bytes (SHA256.digest (UTF8.encode sharedSecret))
              (iv ++ cipherText) = Some bytes.
Proof.
  intros _ Hiv. split.
  - destruct (encryptQueryString_decrypts m sharedSecret iv Hiv) as (ct & _ & Henc & Hdec).
    exists (Base64.encode (iv ++ ct)), ct.
    split; [exact Henc|]. split; [apply base64_decode_encode|].
    split; [now apply take_app_length'|exact Hdec].
  - intros bytes. apply decrypt_bytes_aes_256_cbc; [apply digest_length | exact Hiv].
Qed.

(** C8, as the code has it.  The empty shared secret is not refused: for
    every plaintext and every 16-byte IV the key is the SHA-256 hash of the
    empty string, the call returns the base64 text of the IV and the
    ciphertext under that key, and that text decrypts under the empty
    secret.  The call fails only with the failure of the random source. *)
Theorem empty_secret_is_accepted (plaintext : jsstring) (iv : list byte) :
  length iv = 16%nat ->
  (exists cipherText,
      Crypto.aes_256_cbc (SHA256.digest []) iv (UTF8.encode plaintext) = Ok cipherText
      /\ encryptQueryString plaintext [] (Ok iv) = Ok (Base64.encode (iv ++ cipherText))
      /\ Receiver.decrypt (Base64.encode (iv ++ cipherText)) []
         = Some (UTF8.encode plaintext))
  /\ forall sharedSecret e, encryptQueryString plaintext sharedSecret (Throw e) = Throw e.
Proof.
  intros Hiv. split; [|reflexivity].
  exact (encryptQueryString_decrypts plaintext [] iv Hiv).
Qed.

End Handoff.

Section FormVariant.
Context `{Host}.
Import DynamoDB FormProcessor FormRequest.



Lemma submission_item_attrs (d : SubmissionData) :
  submission_item d !! KEY = Some (AttrS (sd_submissionId d))
  /\ submission_item d !! js "status" = Some (AttrS (js "pending"))
  /\ submission_item d !! js "exported" = Some (AttrBOOL false)
  /\ submission_item d !! js "formType" = Some (AttrS (sd_formType d))
  /\ submission_item d !! js "customerNumber" = Some (AttrS (sd_customerNumber d))
  /\ submission_item d !! js "postcode" = Some (AttrS (sd_postcode d))
  /\ submission_item d !! js "email" = Some (AttrS (sd_email d)).
Proof. destruct d. vm_compute. repeat split. Qed.




End FormVariant.

Section HandlerBuild.
Context `{Host}.
Import DynamoDB FormProcessor.

(** The handler reads the five request parameters and runs [build]. *)
Lemma handler_runs_build (env : Env) (event : Event)
    (t : gmap (list N) (gmap (list N) AttributeValue)) :
  httpMethod event <> js "OPTIONS" ->
  let ps := parameters_of event in
  let out :=
    build env (getCorsHeaders (origin event))
      (or_else (URLSearchParams.get ps (js "customer-number"))
               (URLSearchParams.get ps (js "customer_number")))
      (URLSearchParams.get ps (js "postcode")) (URLSearchParams.get ps (js "email"))
      (URLSearchParams.get ps (js "form_type")) (URLSearchParams.get ps (js "service")) t in
  statusCode (handler env event t).1 = status_of out.1
  /\ (handler env event t).2 = out.2
  /\ forall response, out.1 = Ok response -> (handler env event t).1 = response.
Proof.
  intros Hm ps out. subst ps out. unfold handler.
  rewrite (bool_decide_eq_false_2 _ Hm). cbv zeta.
  destruct (build _ _ _ _ _ _ _ _) as [[response|e] t']; cbn.
  - repeat split. now intros ? [= <-].
  - repeat split. discriminate.
Qed.

(** Which postcodes each of the two validators lets through, for a customer
    number and an e-mail address that are well formed. *)
Lemma postcode_rules (customerNumber postcode email : jsstring) :
  let digits := JsString.remove_all (fun c => negb (Regex.digit c)) customerNumber in
  let sanitized :=
    JsString.substring
      (JsString.remove_all (fun c => negb (CustomerValidator.postcode_char c)) postcode)
      0 10 in
  Regex.test CustomerValidator.customer_number_format digits = true ->
  Regex.test emailRegex email = true ->
  (validateAndSanitizeInput customerNumber postcode email = Ok (digits, sanitized, email)
   <-> (5 <= length sanitized)%nat)
  /\ (CustomerValidator.validateAndSanitizeInput customerNumber postcode
      = Ok (digits, sanitized)
      <-> (5 <= length (JsString.remove_all Regex.space sanitized))%nat).
Proof.
  intros digits sanitized Hcn Hem.
  unfold validateAndSanitizeInput, CustomerValidator.validateAndSanitizeInput.
  fold digits sanitized. rewrite Hcn, Hem. cbn [negb].
  split.
  - destruct (Nat.ltb_spec (length sanitized) 5); split; (discriminate || lia || reflexivity).
  - destruct (Nat.ltb_spec (length (JsString.remove_all Regex.space sanitized)) 5);
      split; (discriminate || lia || reflexivity).
Qed.

End HandlerBuild.


(** ** The lambdas on sample data *)

Section Runs.
Import DynamoDB.

Lemma sample_known_callback :
  WebhookHandler.known_callback Sample.webhook_env Sample.table_pending
    (Sample.callback Sample.approval) Sample.approval_props Sample.uuid Sample.pending.
Proof.
  split; try reflexivity.
  - exists Sample.approval. split; [reflexivity|]. split; [discriminate|].
    vm_compute. reflexivity.
  - discriminate.
Qed.

(** Witness of C4. *)
Lemma recordToFixedWidth_606_witness :
  exists line,
    DailyExporter.recordToFixedWidth Sample.approved = Ok line
    /\ length line = 606%nat.
Proof.
  destruct (recordToFixedWidth_606 (H := RefHost.host) Sample.approved 1730487845123)
    as (line & fields & Hline & Hlen & _).
  - vm_compute. reflexivity.
  - exists line. split; assumption.
Defined.

Lemma sample_well_keyed : DailyExporter.well_keyed Sample.table_approved.
Proof.
  intros id item Hl. unfold Sample.table_approved in Hl.
  apply lookup_singleton_Some in Hl as [<- <-]. vm_compute. reflexivity.
Qed.



(** Witness of C3. *)
Lemma upload_failure_marks_nothing_witness :
  (DailyExporter.handler (Sample.export_env true) Sample.world_approved).2
  = Sample.world_approved.
Proof.
  destruct (upload_failure_marks_nothing (H := RefHost.host)
              (Sample.export_env true) Sample.world_approved
              (DailyExporter.handler (Sample.export_env true) Sample.world_approved).2
              (DailyExporter.handler (Sample.export_env true) Sample.world_approved).1)
    as [Hfail _].
  - apply surjective_pairing.
  - destruct Hfail as [Hsame _]; [reflexivity | exact Hsame].
Defined.

(** Witness of C1. *)
Lemma receive_again_overwrites_witness :
  exists t' item',
    (WebhookHandler.handler Sample.webhook_env Sample.table_pending
       (Sample.callback Sample.approval)).2 = t'
    /\ t' !! Sample.uuid = Some item'
    /\ item' !! js "status" = Some (AttrS (js "approved")).
Proof.
  destruct (receive_again_overwrites (H := RefHost.host) Sample.webhook_env
              Sample.table_pending (Sample.callback Sample.approval)
              Sample.approval_props Sample.uuid Sample.pending (js "pending")
              sample_known_callback)
    as (t' & item' & Hrun & Hl & Hs & _).
  - vm_compute. reflexivity.
  - exists t', item'. rewrite Hrun. repeat split; assumption.
Defined.

(** Counterexample to C1: a submission is approved by a first callback; a
    second callback for it with the other outcome is answered 200 with
    status failed, and the stored status is overwritten. *)
Lemma conflicting_callback_is_accepted :
  let t1 :=
    (WebhookHandler.handler Sample.webhook_env Sample.table_pending
       (Sample.callback Sample.approval)).2 in
  let second :=
    WebhookHandler.handler Sample.webhook_env t1 (Sample.callback Sample.rejection) in
  attribute t1 Sample.uuid (js "status") = Some (AttrS (js "approved"))
  /\ WebhookHandler.statusCode second.1 = 200
  /\ WebhookHandler.body_of second.1
     = WebhookHandler.Success Sample.uuid (js "failed")
         (js "Submission 123e4567-e89b-42d3-a456-426614174000 updated with status: failed")
  /\ attribute second.2 Sample.uuid (js "status") = Some (AttrS (js "failed")).
Proof. vm_compute. repeat split. Qed.

(** Witness of C6. *)
Lemma outcome_is_True_or_true_witness :
  WebhookHandler.outcome Sample.approval_props = js "approved".
Proof.
  destruct (outcome_is_True_or_true (H := RefHost.host) Sample.webhook_env
              Sample.table_pending (Sample.callback Sample.approval)
              Sample.approval_props Sample.uuid Sample.pending sample_known_callback)
    as [Hiff _].
  apply Hiff. left. reflexivity.
Defined.

(** Counterexample to C6: the status field holds the string [true] in lower
    case, and the submission is marked failed. *)
Lemma lowercase_true_is_failed :
  let run :=
    WebhookHandler.handler Sample.webhook_env Sample.table_pending
      (Sample.callback Sample.lowercase_true) in
  JSON.parse Sample.lowercase_true
  = Ok (JSON.Object [ (js "CustomData", JSON.String Sample.uuid);
                      (js "VerificationStatus", JSON.String (js "true")) ])
  /\ WebhookHandler.body_of run.1
     = WebhookHandler.Success Sample.uuid (js "failed")
         (js "Submission 123e4567-e89b-42d3-a456-426614174000 updated with status: failed")
  /\ attribute run.2 Sample.uuid (js "status") = Some (AttrS (js "failed")).
Proof. vm_compute. repeat split. Qed.

(** Witness of C9. *)
Lemma stores_reserialized_payload_witness :
  exists item',
    (WebhookHandler.handler Sample.webhook_env Sample.table_pending
       (Sample.callback Sample.approval)).2 !! Sample.uuid = Some item'
    /\ item' !! js "webhookData"
       = Some (AttrS (JSON.stringify (JSON.Object Sample.approval_props))).
Proof.
  destruct (stores_reserialized_payload (H := RefHost.host) Sample.webhook_env
              Sample.table_pending (Sample.callback Sample.approval)
              Sample.approval_props Sample.uuid Sample.pending sample_known_callback)
    as (item' & Hl & Hw & _).
  exists item'. split; assumption.
Defined.

(** Counterexample to C9: the body sent has blanks between its tokens; what
    is stored is the compact re-serialization, which is not the body, and it
    is stored under [webhookData]. *)
Lemma stored_payload_is_not_the_body :
  let run :=
    WebhookHandler.handler Sample.webhook_env Sample.table_pending
      (Sample.callback Sample.spaced_approval) in
  WebhookHandler.statusCode run.1 = 200
  /\ attribute run.2 Sample.uuid (js "webhookData") = Some (AttrS Sample.approval)
  /\ Sample.approval <> Sample.spaced_approval
  /\ attribute run.2 Sample.uuid (js "verificationPayload") = None.
Proof. vm_compute. repeat split. discriminate. Qed.

(** Witness of C5. *)
Lemma decrypt_encrypt_roundtrip_witness :
  exists data,
    FormProcessor.encryptQueryString (js "customer_number=10001234567&postcode=AB1 2CD")
      (js "s3cret") (Ok Sample.iv) = Ok data
    /\ Receiver.decrypt data (js "s3cret")
       = Some (UTF8.encode (js "customer_number=10001234567&postcode=AB1 2CD")).
Proof.
  destruct (decrypt_encrypt_roundtrip (js "customer_number=10001234567&postcode=AB1 2CD")
              (js "s3cret") Sample.iv) as [(data & ct & Henc & _ & _ & Hdec) _].
  - discriminate.
  - reflexivity.
  - exists data. split; assumption.
Defined.

(** Witness of C8. *)
Lemma empty_secret_is_accepted_witness :
  exists cipherText,
    FormProcessor.encryptQueryString (js "a=b") [] (Ok Sample.iv)
    = Ok (Base64.encode (Sample.iv ++ cipherText)).
Proof.
  destruct (empty_secret_is_accepted (js "a=b") Sample.iv) as [(ct & _ & Henc & _) _].
  - reflexivity.
  - exists ct. exact Henc.
Defined.

(** Counterexample to C8: with the empty shared secret the call returns
    ciphertext. *)
Lemma empty_secret_returns_ciphertext :
  FormProcessor.encryptQueryString (js "a=b") [] (Ok Sample.iv)
  = Ok (js "AAECAwQFBgcICQoLDA0OD9QR5fitv6VmyfldvQmMDGY=").
Proof. vm_compute. reflexivity. Qed.

(** C7.  The form processor counts the blanks of the sanitized postcode:
    the postcode [A B C] has three characters that are not blanks, the
    customer validator refuses it, the form processor accepts it, and a
    request carrying it creates a submission. *)
Theorem postcode_blanks_are_counted :
  let postcode := js "A B C" in
  let run :=
    FormProcessor.handler Sample.form_env
      (Sample.form_request "customer_number=10001234567&postcode=A+B+C&email=a%40b.com") ∅ in
  length (JsString.remove_all Regex.space postcode) = 3%nat
  /\ CustomerValidator.validateAndSanitizeInput (js "10001234567") postcode
     = Throw (Error (js "Invalid postcode format"))
  /\ FormProcessor.validateAndSanitizeInput (js "10001234567") postcode (js "a@b.com")
     = Ok (js "10001234567", postcode, js "a@b.com")
  /\ FormProcessor.statusCode run.1 = 200
  /\ attribute run.2 Sample.uuid (js "postcode") = Some (AttrS postcode)
  /\ attribute run.2 Sample.uuid (js "status") = Some (AttrS (js "pending")).
Proof. vm_compute. repeat split. Qed.


End Runs.

(** ** Matching by derivatives agrees with the language of the expression *)

Section RegexFacts.
Import Regex RegexLanguage.

Lemma Matches_Fail (s : jsstring) : ~ Matches Fail s.
Proof. inversion 1. Qed.

Lemma Matches_Eps (s : jsstring) : Matches Eps s -> s = [].
Proof. now inversion 1. Qed.

Lemma Matches_Class (p : N -> bool) (s : jsstring) :
  Matches (Class p) s -> exists c, s = [c] /\ p c = true.
Proof. inversion 1; subst; eauto. Qed.

Lemma Matches_Seq (a b : re) (s : jsstring) :
  Matches (Seq a b) s -> exists s1 s2, s = s1 ++ s2 /\ Matches a s1 /\ Matches b s2.
Proof. inversion 1; subst; eauto. Qed.

Lemma Matches_Alt (a b : re) (s : jsstring) :
  Matches (Alt a b) s -> Matches a s \/ Matches b s.
Proof. inversion 1; subst; auto. Qed.

Lemma nullable_Matches (r : re) : nullable r = true <-> Matches r [].
Proof.
  induction r as [| |p|a IHa b IHb|a IHa b IHb|a IHa]; cbn [nullable].
  - split; [discriminate | intros Hm; now apply Matches_Fail in Hm].
  - split; [constructor | reflexivity].
  - split; [discriminate|]. intros Hm. apply Matches_Class in Hm as (c & E & _).
    discriminate E.
  - rewrite andb_true_iff, IHa, IHb. split.
    + intros [Ha Hb]. exact (MSeq a b [] [] Ha Hb).
    + intros Hm. apply Matches_Seq in Hm as (s1 & s2 & E & Ha & Hb).
      symmetry in E. apply app_eq_nil in E as [-> ->]. now split.
  - rewrite orb_true_iff, IHa, IHb. split.
    + intros [Ha | Hb]; [now apply MAltL | now apply MAltR].
    + apply Matches_Alt.
  - split; [constructor | reflexivity].
Qed.

Lemma seq_Matches (a b : re) (s : jsstring) :
  Matches (seq_ a b) s <-> Matches (Seq a b) s.
Proof.
  assert (Hfail_l : forall b, Matches Fail s <-> Matches (Seq Fail b) s).
  { intros b'. split; [intros Hm; now apply Matches_Fail in Hm|].
    intros Hm. apply Matches_Seq in Hm as (s1 & s2 & _ & Ha & _).
    now apply Matches_Fail in Ha. }
  assert (Hfail_r : forall a, Matches Fail s <-> Matches (Seq a Fail) s).
  { intros a'. split; [intros Hm; now apply Matches_Fail in Hm|].
    intros Hm. apply Matches_Seq in Hm as (s1 & s2 & _ & _ & Hb).
    now apply Matches_Fail in Hb. }
  assert (Heps : forall b, Matches b s <-> Matches (Seq Eps b) s).
  { intros b'. split; [intros Hm; exact (MSeq Eps b' [] s MEps Hm)|].
    intros Hm. apply Matches_Seq in Hm as (s1 & s2 & -> & Ha & Hb).
    apply Matches_Eps in Ha. now subst s1. }
  unfold seq_. destruct a; destruct b; auto; reflexivity.
Qed.

Lemma alt_Matches (a b : re) (s : jsstring) :
  Matches (alt_ a b) s <-> Matches (Alt a b) s.
Proof.
  assert (Hl : forall b, Matches b s <-> Matches (Alt Fail b) s).
  { intros b'. split; [apply MAltR|].
    intros Hm. apply Matches_Alt in Hm as [Hm|Hm]; [now apply Matches_Fail in Hm | assumption]. }
  assert (Hr : forall a, Matches a s <-> Matches (Alt a Fail) s).
  { intros a'. split; [apply MAltL|].
    intros Hm. apply Matches_Alt in Hm as [Hm|Hm]; [assumption | now apply Matches_Fail in Hm]. }
  unfold alt_. destruct a; destruct b; auto; reflexivity.
Qed.

Lemma Star_cons (a : re) (c : N) (s : jsstring) :
  Matches (Star a) (c :: s) ->
  exists s1 s2, s = s1 ++ s2 /\ Matches a (c :: s1) /\ Matches (Star a) s2.
Proof.
  intros Hm. remember (Star a) as r eqn:Er. remember (c :: s) as cs eqn:Ecs.
  revert s Ecs.
  induction Hm as [| | | | | |a' s1 s2 H1 _ H2 IH2]; intros t Ecs; try discriminate.
  injection Er as ->.
  destruct s1 as [|c' s1]; cbn in Ecs.
  - now apply IH2.
  - injection Ecs as -> <-. now exists s1, s2.
Qed.

Lemma deriv_Matches (r : re) :
  forall (c : N) (s : jsstring), Matches (deriv c r) s <-> Matches r (c :: s).
Proof.
  induction r as [| |p|a IHa b IHb|a IHa b IHb|a IHa]; intros c s; cbn [deriv].
  - split; intros Hm; now apply Matches_Fail in Hm.
  - split; intros Hm; [now apply Matches_Fail in Hm | now apply Matches_Eps in Hm].
  - destruct (p c) eqn:Hp; split; intros Hm.
    + apply Matches_Eps in Hm as ->. now constructor.
    + apply Matches_Class in Hm as (c' & [= -> ->] & _). constructor.
    + now apply Matches_Fail in Hm.
    + apply Matches_Class in Hm as (c' & [= -> ->] & Hc). congruence.
  - assert (Hseq : Matches (seq_ (deriv c a) b) s
                   <-> exists s1 s2, s = s1 ++ s2 /\ Matches a (c :: s1) /\ Matches b s2).
    { rewrite seq_Matches. split.
      - intros Hm. apply Matches_Seq in Hm as (s1 & s2 & -> & Ha & Hb).
        exists s1, s2. rewrite <- IHa. auto.
      - intros (s1 & s2 & -> & Ha & Hb). constructor; [now apply IHa | assumption]. }
    assert (Hsplit : Matches (Seq a b) (c :: s)
                     <-> (exists s1 s2, s = s1 ++ s2 /\ Matches a (c :: s1) /\ Matches b s2)
                         \/ (Matches a [] /\ Matches b (c :: s))).
    { split.
      - intros Hm. apply Matches_Seq in Hm as (s1 & s2 & E & Ha & Hb).
        destruct s1 as [|c' s1]; cbn in E.
        + subst s2. now right.
        + injection E as -> ->. left. now exists s1, s2.
      - intros [(s1 & s2 & -> & Ha & Hb) | [Ha Hb]].
        + exact (MSeq a b (c :: s1) s2 Ha Hb).
        + exact (MSeq a b [] (c :: s) Ha Hb). }
    rewrite Hsplit, <- nullable_Matches, <- IHb.
    destruct (nullable a) eqn:Hn.
    + rewrite alt_Matches. split.
      * intros Hm. apply Matches_Alt in Hm as [Hm|Hm]; [left; now apply Hseq | now right].
      * intros [Hm | [_ Hm]]; [apply MAltL; now apply Hseq | now apply MAltR].
    + rewrite Hseq. split; [now left|]. intros [Hm | [Hc _]]; [assumption | discriminate].
  - rewrite alt_Matches. split; intros Hm; apply Matches_Alt in Hm as [Hm|Hm];
      first [apply MAltL; now apply IHa | apply MAltR; now apply IHb].
  - rewrite seq_Matches. split.
    + intros Hm. apply Matches_Seq in Hm as (s1 & s2 & -> & Ha & Hb).
      apply IHa in Ha. exact (MStarApp a (c :: s1) s2 Ha Hb).
    + intros Hm. apply Star_cons in Hm as (s1 & s2 & -> & Ha & Hs).
      constructor; [now apply IHa | assumption].
Qed.

(** The derivative matcher decides the language. *)
Lemma test_Matches (r : re) (s : jsstring) : test r s = true <-> Matches r s.
Proof.
  unfold test. revert r. induction s as [|c s IH]; intros r; cbn [fold_left].
  - apply nullable_Matches.
  - rewrite IH. apply deriv_Matches.
Qed.

End RegexFacts.

(** ** The formats that the validators test *)

Section FormatFacts.
Import Regex RegexLanguage.

Lemma Matches_literal (l s : jsstring) :
  Matches (fold_right (fun c r => Seq (Class (N.eqb c)) r) Eps l) s <-> s = l.
Proof.
  revert s. induction l as [|c l IH]; intros s; cbn [fold_right].
  - split; [apply Matches_Eps | intros ->; constructor].
  - split.
    + intros Hm. apply Matches_Seq in Hm as (s1 & s2 & -> & H1 & H2).
      apply Matches_Class in H1 as (c' & -> & Hc). apply N.eqb_eq in Hc as <-.
      apply IH in H2 as ->. reflexivity.
    + intros ->. apply (MSeq _ _ [c] l).
      * constructor. apply N.eqb_refl.
      * now apply IH.
Qed.

Lemma Matches_lit (w : string) (s : jsstring) : Matches (lit w) s <-> s = js w.
Proof. apply Matches_literal. Qed.

Lemma Matches_times (n : nat) (p : N -> bool) :
  forall s, Matches (times n (Class p)) s <-> length s = n /\ forallb p s = true.
Proof.
  induction n as [|n IH]; intros s; cbn [times].
  - split.
    + intros Hm. apply Matches_Eps in Hm as ->. now split.
    + intros [Hl _]. destruct s; [constructor | discriminate].
  - split.
    + intros Hm. apply Matches_Seq in Hm as (s1 & s2 & -> & H1 & H2).
      apply Matches_Class in H1 as (c & -> & Hc). apply IH in H2 as [Hl Hall].
      cbn. rewrite Hc, Hall, Hl. now split.
    + intros [Hl Hall]. destruct s as [|c s]; [discriminate|].
      cbn in Hall. apply andb_true_iff in Hall as [Hc Hall].
      apply (MSeq _ _ [c] s); [now constructor|]. apply IH. split; [|assumption].
      now injection Hl.
Qed.

Lemma Matches_star_class (p : N -> bool) (s : jsstring) :
  Matches (Star (Class p)) s <-> forallb p s = true.
Proof.
  split.
  - intros Hm. remember (Star (Class p)) as r eqn:Er.
    induction Hm as [| | | | | |a s1 s2 H1 _ H2 IH2]; try discriminate; [reflexivity|].
    injection Er as ->. apply Matches_Class in H1 as (c & -> & Hc).
    cbn. rewrite Hc. now apply IH2.
  - induction s as [|c s IH]; intros Hall; [constructor|].
    cbn in Hall. apply andb_true_iff in Hall as [Hc Hall].
    apply (MStarApp _ [c] s); [now constructor | now apply IH].
Qed.

Lemma Matches_plus_class (p : N -> bool) (s : jsstring) :
  Matches (plus (Class p)) s <-> s <> [] /\ forallb p s = true.
Proof.
  unfold plus. split.
  - intros Hm. apply Matches_Seq in Hm as (s1 & s2 & -> & H1 & H2).
    apply Matches_Class in H1 as (c & -> & Hc). apply Matches_star_class in H2.
    split; [discriminate|]. cbn. now rewrite Hc.
  - intros [Hne Hall]. destruct s as [|c s]; [contradiction|].
    cbn in Hall. apply andb_true_iff in Hall as [Hc Hall].
    apply (MSeq _ _ [c] s); [now constructor | now apply Matches_star_class].
Qed.

(** [/^(1000|2000)\d{7}$/] *)
Lemma customer_number_format_spec (s : jsstring) :
  test CustomerValidator.customer_number_format s = true
  <-> exists d, (s = js "1000" ++ d \/ s = js "2000" ++ d)
                /\ length d = 7%nat /\ forallb digit d = true.
Proof.
  rewrite test_Matches. unfold CustomerValidator.customer_number_format. split.
  - intros Hm. apply Matches_Seq in Hm as (s1 & d & -> & H1 & H2).
    apply Matches_times in H2. exists d. split; [|assumption].
    apply Matches_Alt in H1 as [H1|H1]; apply Matches_lit in H1 as ->; auto.
  - intros (d & Hs & Hd). apply Matches_times in Hd.
    destruct Hs as [-> | ->]; constructor; try assumption.
    + apply MAltL. now apply Matches_lit.
    + apply MAltR. now apply Matches_lit.
Qed.

(** [/^[^\s@]+@[^\s@]+\.[^\s@]+$/] *)
Lemma emailRegex_spec (s : jsstring) :
  test FormProcessor.emailRegex s = true
  <-> exists l d t,
        s = l ++ js "@" ++ d ++ js "." ++ t
        /\ l <> [] /\ d <> [] /\ t <> []
        /\ forallb FormProcessor.email_char (l ++ d ++ t) = true.
Proof.
  rewrite test_Matches. unfold FormProcessor.emailRegex. split.
  - intros Hm.
    apply Matches_Seq in Hm as (l & r1 & -> & Hl & Hm).
    apply Matches_Seq in Hm as (at_ & r2 & -> & Hat & Hm).
    apply Matches_Seq in Hm as (d & r3 & -> & Hd & Hm).
    apply Matches_Seq in Hm as (dot & t & -> & Hdot & Ht).
    apply Matches_lit in Hat as ->. apply Matches_lit in Hdot as ->.
    apply Matches_plus_class in Hl as [Hl1 Hl2].
    apply Matches_plus_class in Hd as [Hd1 Hd2].
    apply Matches_plus_class in Ht as [Ht1 Ht2].
    exists l, d, t. repeat split; try assumption.
    now rewrite !forallb_app, Hl2, Hd2, Ht2.
  - intros (l & d & t & -> & Hl & Hd & Ht & Hall).
    rewrite !forallb_app, !andb_true_iff in Hall. destruct Hall as (Hl2 & Hd2 & Ht2).
    constructor; [now apply Matches_plus_class|].
    constructor; [now apply Matches_lit|].
    constructor; [now apply Matches_plus_class|].
    constructor; [now apply Matches_lit | now apply Matches_plus_class].
Qed.

End FormatFacts.

(** ** The handoff builder: validation, storing, encryption *)

Section HandoffFacts.
Context `{Host}.
Import DynamoDB FormProcessor FormRequest.

Lemma forallb_remove_all (p : N -> bool) (s : jsstring) :
  forallb p (JsString.remove_all (fun c => negb (p c)) s) = true.
Proof.
  unfold JsString.remove_all. apply forallb_forall. intros c Hc.
  apply filter_In in Hc as [_ Hc]. now rewrite negb_involutive in Hc.
Qed.

Lemma forallb_take {A} (p : A -> bool) (n : nat) (l : list A) :
  forallb p l = true -> forallb p (take n l) = true.
Proof.
  revert l. induction n as [|n IH]; intros [|x l]; cbn; try reflexivity.
  rewrite !andb_true_iff. intros [Hx Hl]. split; [assumption | now apply IH].
Qed.

(** X1.  What [validateAndSanitizeInput] of the form processor lets through:
    the customer number returned is [1000] or [2000] followed by seven
    digits, the postcode returned has between 5 and 10 code units, each an
    upper-case letter, a digit or white space, and the e-mail address is
    returned as given and has the form [local@domain.tld] without white
    space or a second [@]. *)
Theorem validated_input_shape (customerNumber postcode email cn pc em : jsstring) :
  validateAndSanitizeInput customerNumber postcode email = Ok (cn, pc, em) ->
  (exists d, (cn = js "1000" ++ d \/ cn = js "2000" ++ d)
             /\ length d = 7%nat /\ forallb Regex.digit d = true)
  /\ (5 <= length pc <= 10)%nat
  /\ forallb CustomerValidator.postcode_char pc = true
  /\ em = email
  /\ exists l d t,
       email = l ++ js "@" ++ d ++ js "." ++ t
       /\ l <> [] /\ d <> [] /\ t <> []
       /\ forallb email_char (l ++ d ++ t) = true.
Proof.
  unfold validateAndSanitizeInput.
  destruct (Regex.test CustomerValidator.customer_number_format _) eqn:Hcn;
    [|discriminate].
  cbn [negb].
  destruct (Nat.ltb_spec
              (length (JsString.substring
                         (JsString.remove_all
                            (fun c => negb (CustomerValidator.postcode_char c)) postcode)
                         0 10)) 5) as [|Hlen]; [discriminate|].
  destruct (Regex.test emailRegex email) eqn:Hem; [|discriminate].
  cbn [negb]. intros [= <- <- <-].
  apply customer_number_format_spec in Hcn. apply emailRegex_spec in Hem.
  split; [exact Hcn|].
  rewrite substring_from_start in *.
  split; [split; [exact Hlen | rewrite length_take; lia]|].
  split; [apply forallb_take, forallb_remove_all|].
  split; [reflexivity | exact Hem].
Qed.

Lemma startsWith_app (p d : jsstring) : JsString.startsWith (p ++ d) p = true.
Proof.
  induction p as [|c p IH]; cbn.
  - now destruct d.
  - now rewrite N.eqb_refl, IH.
Qed.

(** X2.  After validation the service is always determined: the customer
    number returned by [validateAndSanitizeInput] never makes
    [determineServiceFromCustomerNumber] throw, and the service is
    [council-a] exactly when the number starts with [1000], [council-b]
    otherwise. *)
Theorem validated_number_has_service (customerNumber postcode email cn pc em : jsstring) :
  validateAndSanitizeInput customerNumber postcode email = Ok (cn, pc, em) ->
  determineServiceFromCustomerNumber cn
  = Ok (if JsString.startsWith cn (js "1000") then js "council-a" else js "council-b")
  /\ (JsString.startsWith cn (js "1000") = true
      \/ JsString.startsWith cn (js "2000") = true).
Proof.
  unfold validateAndSanitizeInput.
  destruct (Regex.test CustomerValidator.customer_number_format _) eqn:Hcn;
    [|discriminate].
  cbn [negb].
  destruct (_ <? 5)%nat; [discriminate|].
  destruct (negb _); [discriminate|].
  intros [= <- _ _].
  apply customer_number_format_spec in Hcn as (d & [-> | ->] & _);
    unfold determineServiceFromCustomerNumber.
  - rewrite startsWith_app. split; [reflexivity | now left].
  - replace (JsString.startsWith (js "2000" ++ d) (js "1000")) with false
      by (symmetry; vm_compute; reflexivity).
    rewrite startsWith_app. split; [reflexivity | now right].
Qed.


(** Every outcome of [build]: the table is as before, or a pending,
    unexported submission was put under the fresh id. *)
Lemma build_store_effect (env : Env) (allow : jsstring)
    (rawCustomerNumber rawPostcode rawEmail formType requestedService : option jsstring)
    (t : gmap (list N) (gmap (list N) AttributeValue)) :
  let out := build env allow rawCustomerNumber rawPostcode rawEmail formType
               requestedService t in
  (out.2 = t /\ status_of out.1 <> 200
   \/ putItem_fails env = false
      /\ exists d, sd_submissionId d = randomUUID env
                   /\ out.2 = <[randomUUID env := submission_item d]> t)
  /\ (status_of out.1 = 400 -> out.2 = t).
Proof.
  cbv zeta. unfold build, mbind, lift, ret, storeSubmissionData, PutItem.
  destruct rawCustomerNumber as [[|c0 c]|]; try (cbn; split; [left; split|]; easy).
  destruct rawPostcode as [[|p0 p]|]; try (cbn; split; [left; split|]; easy).
  destruct rawEmail as [[|e0 e]|]; try (cbn; split; [left; split|]; easy).
  destruct (validateAndSanitizeInput _ _ _) as [[[customerNumber postcode] email]|err];
    [|cbn; split; [left; split|]; easy].
  destruct (determineServiceFromCustomerNumber customerNumber) as [service|err];
    [|cbn; split; [left; split|]; easy].
  destruct (is_truthy requestedService && _); [cbn; split; [left; split|]; easy|].
  destruct (getParameter env _) as [secret|err]; [|cbn; split; [left; split|]; easy].
  destruct (putItem_fails env); [cbn; split; [left; split|]; easy|].
  destruct (select_form formType service customerNumber _) as [baseUrl q].
  destruct (encryptQueryString q secret _) as [data|err].
  - destruct (URI.encodeURIComponent data) as [encoded|err]; cbn [fst snd status_of].
    + split; [right; split; [reflexivity|]; eexists; split; [|reflexivity]; reflexivity|].
      cbn. discriminate.
    + split; [right; split; [reflexivity|]; eexists; split; [|reflexivity]; reflexivity|].
      discriminate.
  - cbn [fst snd status_of].
    split; [right; split; [reflexivity|]; eexists; split; [|reflexivity]; reflexivity|].
    discriminate.
Qed.

(** X3.  What a request does to the table: either nothing, or it puts one
    item under the fresh submission id, and that item carries the id, status
    [pending] and [exported = false].  No other key is touched.  A request
    answered 400 changes nothing, a request answered 200 has stored its
    submission, and nothing is stored when [PutItem] is refused. *)
Theorem handoff_store_effect (env : Env) (event : Event)
    (t : gmap (list N) (gmap (list N) AttributeValue)) :
  let out := handler env event t in
  (forall j, j <> randomUUID env -> out.2 !! j = t !! j)
  /\ (out.2 = t
      \/ exists item,
           out.2 = <[randomUUID env := item]> t
           /\ item !! KEY = Some (AttrS (randomUUID env))
           /\ item !! js "status" = Some (AttrS (js "pending"))
           /\ item !! js "exported" = Some (AttrBOOL false))
  /\ (statusCode out.1 = 400 -> out.2 = t)
  /\ (statusCode out.1 = 200 ->
      httpMethod event <> js "OPTIONS" ->
      exists item,
        out.2 !! randomUUID env = Some item
        /\ item !! js "status" = Some (AttrS (js "pending"))
        /\ item !! js "exported" = Some (AttrBOOL false))
  /\ (putItem_fails env = true -> out.2 = t).
Proof.
  cbv zeta. unfold handler.
  case_bool_decide as Hm.
  { cbn. repeat split; try reflexivity; try (now left); try discriminate.
    intros _ Hne. contradiction. }
  set (ps := parameters_of event).
  pose proof (build_store_effect env (getCorsHeaders (origin event))
                (or_else (URLSearchParams.get ps (js "customer-number"))
                         (URLSearchParams.get ps (js "customer_number")))
                (URLSearchParams.get ps (js "postcode"))
                (URLSearchParams.get ps (js "email"))
                (URLSearchParams.get ps (js "form_type"))
                (URLSearchParams.get ps (js "service")) t) as Hb.
  cbv zeta in Hb.
  destruct (build _ _ _ _ _ _ _ _) as [r t'].
  assert (Hcode : statusCode
                    (match r with
                     | Ok response => (response, t')
                     | Throw e =>
                         (respond (getCorsHeaders (origin event)) (status_of (Throw e))
                            (Failure (js "Internal server error") (Some (error_message e))),
                          t')
                     end).1 = status_of r) by (now destruct r).
  assert (Ht : (match r with
                | Ok response => (response, t')
                | Throw e =>
                    (respond (getCorsHeaders (origin event)) (status_of (Throw e))
                       (Failure (js "Internal server error") (Some (error_message e))),
                     t')
                end).2 = t') by (now destruct r).
  rewrite Hcode, Ht. cbn [fst snd] in Hb. destruct Hb as [Heff H400].
  split; [|split; [|split; [|split]]].
  - intros j Hj. destruct Heff as [[-> _] | (_ & d & _ & ->)]; [reflexivity|].
    now rewrite lookup_insert_ne by congruence.
  - destruct Heff as [[-> _] | (_ & d & Hd & ->)]; [now left|].
    right. exists (submission_item d).
    destruct (submission_item_attrs d) as (Hk & Hs & He & _).
    rewrite Hd in Hk. auto.
  - exact H400.
  - intros H200 _. destruct Heff as [[_ Hne] | (_ & d & Hd & ->)]; [contradiction|].
    exists (submission_item d). rewrite lookup_insert_eq.
    destruct (submission_item_attrs d) as (_ & Hs & He & _). auto.
  - intros Hput. destruct Heff as [[-> _] | (Hf & _)]; [reflexivity | congruence].
Qed.


(** X4.  A request whose customer number, postcode or e-mail address fails
    validation is answered 500 ("Internal server error"), with the message
    of the validation error, and nothing is stored: the validation error is
    thrown inside the [try] block whose [catch] answers 500. *)
Theorem validation_failure_is_500 (env : Env) (event : Event)
    (t : gmap (list N) (gmap (list N) AttributeValue)) (cn pc em : jsstring) (e : JsError) :
  complete_request event cn pc em ->
  validateAndSanitizeInput cn (toUpperCase pc) em = Throw e ->
  handler env event t
  = (respond (getCorsHeaders (origin event)) 500
       (Failure (js "Internal server error") (Some (error_message e))), t)
  /\ In (error_message e)
        [ js "Invalid customer number format"; js "Invalid postcode format";
          js "Invalid email format" ].
Proof.
  intros [Hm Hcn Hpc Hem (Hn1 & Hn2 & Hn3)] Hval. split.
  - unfold handler. rewrite (bool_decide_eq_false_2 _ Hm). cbv zeta.
    rewrite Hcn, Hpc, Hem. unfold build, mbind, lift.
    destruct cn as [|c0 c]; [contradiction|].
    destruct pc as [|p0 p]; [contradiction|].
    destruct em as [|e0 e']; [contradiction|].
    rewrite Hval. reflexivity.
  - unfold validateAndSanitizeInput in Hval.
    destruct (negb (Regex.test CustomerValidator.customer_number_format _));
      [injection Hval as <-; cbn; tauto|].
    destruct (_ <? 5)%nat; [injection Hval as <-; cbn; tauto|].
    destruct (negb (Regex.test emailRegex _)); [injection Hval as <-; cbn; tauto|].
    discriminate.
Qed.

(** X5.  The submission is stored before the payload is encrypted: when the
    random source fails on a request that passed validation, the service
    check, the secret lookup and the store, the answer is 500 and the
    pending submission stays in the table. *)
Theorem failed_encryption_leaves_submission (env : Env) (event : Event)
    (t : gmap (list N) (gmap (list N) AttributeValue))
    (cn pc em cn' pc' em' service secret : jsstring) (e : JsError) :
  complete_request event cn pc em ->
  validateAndSanitizeInput cn (toUpperCase pc) em = Ok (cn', pc', em') ->
  determineServiceFromCustomerNumber cn' = Ok service ->
  (is_truthy (URLSearchParams.get (parameters_of event) (js "service")) = false
   \/ URLSearchParams.get (parameters_of event) (js "service") = Some service) ->
  ssm env (js "/forms/" ++ service ++ js "/test/ThirdPartySharedSecret") = Ok secret ->
  putItem_fails env = false ->
  randomBytes16 env = Throw e ->
  let out := handler env event t in
  statusCode out.1 = 500
  /\ exists item,
       out.2 = <[randomUUID env := item]> t
       /\ item !! js "status" = Some (AttrS (js "pending"))
       /\ item !! js "customerNumber" = Some (AttrS cn')
       /\ item !! js "postcode" = Some (AttrS pc')
       /\ item !! js "email" = Some (AttrS em').
Proof.
  intros [Hm Hcn Hpc Hem (Hn1 & Hn2 & Hn3)] Hval Hsvc Hreq Hssm Hput Hrand.
  cbv zeta. unfold handler. rewrite (bool_decide_eq_false_2 _ Hm). cbv zeta.
  rewrite Hcn, Hpc, Hem. unfold build, mbind, lift, ret, storeSubmissionData, getParameter.
  destruct cn as [|c0 c]; [contradiction|].
  destruct pc as [|p0 p]; [contradiction|].
  destruct em as [|e0 e1]; [contradiction|].
  rewrite Hval, Hsvc.
  assert (Hmis : is_truthy (URLSearchParams.get (parameters_of event) (js "service"))
                 && negb (bool_decide
                            (URLSearchParams.get (parameters_of event) (js "service")
                             = Some service)) = false).
  { destruct Hreq as [-> | ->]; [reflexivity|].
    rewrite bool_decide_eq_true_2 by reflexivity. apply andb_false_r. }
  rewrite Hmis, Hssm, Hput.
  destruct (select_form _ _ _ _) as [baseUrl q].
  rewrite Hrand. cbn [encryptQueryString bind fst snd status_of statusCode respond].
  split; [reflexivity|].
  eexists. split; [reflexivity|].
  match goal with |- context [submission_item ?d] =>
    destruct (submission_item_attrs d) as (_ & Hs & _ & _ & Hc & Hp & He) end.
  auto.
Qed.

End HandoffFacts.

(** ** The encrypted payload *)

Section PayloadFacts.
Import FormProcessor.

Lemma encryptQueryString_Ok_inv (q secret data : jsstring) (r : result (list byte)) :
  encryptQueryString q secret r = Ok data ->
  exists iv cipherText,
    r = Ok iv /\ length iv = 16%nat
    /\ Crypto.aes_256_cbc (SHA256.digest (UTF8.encode secret)) iv (UTF8.encode q)
       = Ok cipherText
    /\ data = Base64.encode (iv ++ cipherText)
    /\ Receiver.decrypt data secret = Some (UTF8.encode q).
Proof.
  intros Henc. destruct r as [iv|e]; [|discriminate Henc].
  destruct (decide (length iv = 16%nat)) as [Hiv|Hiv].
  - destruct (encryptQueryString_decrypts q secret iv Hiv) as (ct & Hct & Hdata & Hdec).
    rewrite Hdata in Henc. injection Henc as <-.
    exists iv, ct. auto.
  - unfold encryptQueryString, Crypto.aes_256_cbc in Henc. cbn [bind] in Henc.
    rewrite digest_length in Henc. cbn [Nat.eqb negb] in Henc.
    destruct (Nat.eqb_spec (length iv) 16); [contradiction | discriminate Henc].
Qed.

Lemma base64_encode_length (bs : list byte) :
  length (Base64.encode bs) = (4 * ((length bs + 2) / 3))%nat.
Proof.
  induction bs as [|a|a b|a b c r IH] using three_step_induction; try reflexivity.
  cbn [Base64.encode length]. rewrite IH.
  replace (S (S (S (length r))) + 2)%nat with ((length r + 2) + 1 * 3)%nat by lia.
  rewrite Nat.div_add by lia. lia.
Qed.

Lemma aes_256_cbc_length (key iv m cipherText : list byte) :
  Crypto.aes_256_cbc key iv m = Ok cipherText ->
  length cipherText = (16 * (length m / 16 + 1))%nat.
Proof.
  unfold Crypto.aes_256_cbc.
  destruct (negb _); [discriminate|]. destruct (negb _); [discriminate|].
  intros [= <-].
  destruct (pkcs7_pad_length m) as [Hmod Hge].
  set (padded := Crypto.pkcs7_pad m) in *.
  rewrite (concat_blocks_length 16) by apply cbc_encrypt_lengths.
  rewrite cbc_encrypt_count.
  assert (Hb : (length (chunks (length padded) 16 padded) * 16 = length padded)%nat).
  { rewrite <- (concat_blocks_length 16).
    - now rewrite chunks_concat by lia.
    - apply chunks_lengths; [lia | lia | assumption]. }
  rewrite Hb. subst padded. unfold Crypto.pkcs7_pad.
  rewrite length_app, length_replicate.
  pose proof (Nat.div_mod_eq (length m) 16).
  pose proof (Nat.mod_upper_bound (length m) 16 ltac:(lia)). lia.
Qed.

(** X6.  The length of the encrypted payload is fixed by the length of the
    plaintext: the ciphertext has one more 16-byte block than the plaintext
    has full blocks (a plaintext that fills its last block gets a whole
    block of padding), and the text returned is the padded base64 of the IV
    and the ciphertext, never shorter than 44 characters. *)
Theorem encrypted_payload_length (queryString sharedSecret data : jsstring)
    (iv : result (list byte)) :
  encryptQueryString queryString sharedSecret iv = Ok data ->
  let blocks := (length (UTF8.encode queryString) / 16 + 1)%nat in
  length data = (4 * ((16 + 16 * blocks + 2) / 3))%nat
  /\ (44 <= length data)%nat
  /\ (length data mod 4 = 0)%nat.
Proof.
  intros Henc blocks.
  apply encryptQueryString_Ok_inv in Henc as (v & ct & _ & Hv & Hct & -> & _).
  apply aes_256_cbc_length in Hct.
  rewrite base64_encode_length, length_app, Hv, Hct. fold blocks.
  split; [reflexivity|]. split.
  - assert (11 <= (16 + 16 * blocks + 2) / 3)%nat; [|lia].
    apply Nat.div_le_lower_bound; subst blocks; lia.
  - rewrite Nat.mul_comm. apply Nat.Div0.mod_mul.
Qed.

(** X7.  The IV travels in the clear at the head of the output, so two
    encryptions that drew different IVs never return the same text, whatever
    the plaintexts and secrets. *)
Theorem different_ivs_different_outputs (q1 q2 s1 s2 data1 data2 : jsstring)
    (iv1 iv2 : list byte) :
  encryptQueryString q1 s1 (Ok iv1) = Ok data1 ->
  encryptQueryString q2 s2 (Ok iv2) = Ok data2 ->
  iv1 <> iv2 ->
  data1 <> data2.
Proof.
  intros H1 H2 Hne Heq.
  apply encryptQueryString_Ok_inv in H1 as (v1 & c1 & [= <-] & Hl1 & _ & -> & _).
  apply encryptQueryString_Ok_inv in H2 as (v2 & c2 & [= <-] & Hl2 & _ & -> & _).
  assert (E : Some (iv1 ++ c1) = Some (iv2 ++ c2)).
  { rewrite <- !base64_decode_encode. now rewrite Heq. }
  injection E as E. apply Hne.
  apply (f_equal (take 16)) in E.
  now rewrite !take_app_length' in E by congruence.
Qed.

End PayloadFacts.

Section CorrelationFacts.
Context `{Host}.
Import DynamoDB FormProcessor.

Lemma select_form_query (formType : option jsstring) (service customerNumber base : jsstring) :
  exists rest, (select_form formType service customerNumber base).2 = base ++ rest.
Proof.
  unfold select_form.
  destruct (bool_decide _); destruct (bool_decide _); cbv [snd]; eexists; reflexivity.
Qed.

(** X8.  What a handoff answered 200 hands over: the submission id answered
    is the fresh id under which the pending submission was stored, and the
    encrypted data decrypts, under the shared secret read for the service
    answered, to a query string that carries that id as [CustomData]. *)
Theorem handoff_payload_carries_submission_id (env : Env) (event : Event)
    (t : gmap (list N) (gmap (list N) AttributeValue))
    (id data url formType service : jsstring) :
  httpMethod event <> js "OPTIONS" ->
  body_of (handler env event t).1 = Success id data url formType service ->
  id = randomUUID env
  /\ (exists item, (handler env event t).2 !! id = Some item
                   /\ item !! js "status" = Some (AttrS (js "pending")))
  /\ exists secret before after,
       ssm env (js "/forms/" ++ service ++ js "/test/ThirdPartySharedSecret") = Ok secret
       /\ Receiver.decrypt data secret
          = Some (UTF8.encode (before ++ js "&CustomData=" ++ id ++ js "&CallbackURL=" ++ after)).
Proof.
  intros Hm. unfold handler. rewrite (bool_decide_eq_false_2 _ Hm). cbv zeta.
  unfold build, mbind, lift, ret, storeSubmissionData, getParameter, PutItem.
  destruct (or_else _ _) as [[|c0 c]|]; try discriminate.
  destruct (URLSearchParams.get _ (js "postcode")) as [[|p0 p]|]; try discriminate.
  destruct (URLSearchParams.get _ (js "email")) as [[|e0 e]|]; try discriminate.
  destruct (validateAndSanitizeInput _ _ _) as [[[customerNumber postcode] email]|err];
    [|discriminate].
  destruct (determineServiceFromCustomerNumber customerNumber) as [svc|err];
    [|discriminate].
  destruct (is_truthy _ && _); [discriminate|].
  destruct (ssm env _) as [secret|err] eqn:Hssm; [|discriminate].
  destruct (putItem_fails env); [discriminate|].
  match goal with |- context [select_form ?f ?s ?c ?b] =>
    destruct (select_form_query f s c b) as [rest Hq];
    destruct (select_form f s c b) as [baseUrl q]
  end.
  cbv [snd] in Hq. subst q.
  destruct (encryptQueryString _ secret _) as [enc|err] eqn:Henc; [|discriminate].
  destruct (URI.encodeURIComponent enc) as [encoded|err]; [|discriminate].
  cbv [fst snd body_of respond]. intros Hbody.
  assert (Hid : randomUUID env = id) by congruence.
  assert (Hdata : enc = data) by congruence.
  assert (Hsvc : svc = service) by congruence.
  clear Hbody. subst id data service.
  split; [reflexivity|]. split.
  - eexists. split; [apply lookup_insert_eq|].
    match goal with |- context [submission_item ?d] =>
      destruct (submission_item_attrs d) as (_ & Hs & _) end.
    exact Hs.
  - apply encryptQueryString_Ok_inv in Henc as (_ & _ & _ & _ & _ & _ & Hdec).
    exists secret,
      (js "customer_number=" ++ customerNumber ++ js "&postcode=" ++ postcode
         ++ js "&CurrentPostcode=" ++ postcode ++ js "&Email=" ++ email
         ++ js "&EmailRetype=" ++ email),
      (or_default (CALLBACK_URL env) (js "https://api.example.com/webhook-callback")
         ++ rest).
    split; [exact Hssm|]. rewrite Hdec.
    apply (f_equal Some), (f_equal UTF8.encode).
    rewrite <- !app_assoc. reflexivity.
Qed.

End CorrelationFacts.

(** ** The callback receiver: what a callback can and cannot do *)

Section CallbackFacts.
Context `{Host}.
Import DynamoDB WebhookHandler.
Context `{Paging}.

Lemma process_effect (env : Env) (t : gmap (list N) (gmap (list N) AttributeValue))
    (event : Event) (out : Response * gmap (list N) (gmap (list N) AttributeValue)) :
  process env t event = Ok out ->
  (out.2 = t /\ statusCode out.1 <> 200)
  \/ exists id item status data ts,
       t !! id = Some item
       /\ statusCode out.1 = 200
       /\ out.2 = UpdateItem_SET t id
                    [ (js "status", AttrS status); (js "webhookData", AttrS data);
                      (js "updatedAt", AttrS ts) ].
Proof.
  unfold process.
  destruct (body event) as [[|c text]|];
    try (intros [= <-]; left; split; [reflexivity|discriminate]).
  destruct (bool_decide _); [|intros [= <-]; left; split; [reflexivity|discriminate]].
  destruct (JSON.get _ (js "CustomData")) as [submissionId|e]; [|discriminate].
  cbn [bind].
  destruct (negb _); [intros [= <-]; left; split; [reflexivity|discriminate]|].
  destruct (getSubmission env t _) as [existing|e] eqn:Hget; [|discriminate].
  cbn [bind].
  destruct existing as [item|];
    [|intros [= <-]; left; split; [reflexivity|discriminate]].
  destruct submissionId as [[| | |id| |]|];
    try (intros [= <-]; left; split; [reflexivity|discriminate]).
  destruct (JSON.get _ (js "VerificationStatus")) as [vs|e]; [|discriminate].
  cbn [bind]. unfold updateSubmissionStatus.
  destruct (updateItem_fails env); [discriminate|].
  cbn [bind]. intros [= <-]. right.
  unfold getSubmission in Hget. cbn [default] in Hget.
  destruct (getItem_fails env); [discriminate|]. injection Hget as Hget.
  unfold GetItem in Hget. cbn [snd fst statusCode respond]. eauto 10.
Qed.

Lemma handler_effect (env : Env) (t : gmap (list N) (gmap (list N) AttributeValue))
    (event : Event) :
  ((handler env t event).2 = t
   /\ (statusCode (handler env t event).1 = 200 ->
       httpMethod event = js "OPTIONS"))
  \/ exists id item status data ts,
       t !! id = Some item
       /\ statusCode (handler env t event).1 = 200
       /\ (handler env t event).2
          = UpdateItem_SET t id
              [ (js "status", AttrS status); (js "webhookData", AttrS data);
                (js "updatedAt", AttrS ts) ].
Proof.
  pose proof (process_effect env t event) as Hp.
  unfold handler. case_bool_decide as Hm; [left; split; [reflexivity|auto]|].
  destruct (process env t event) as [out|e].
  - destruct (Hp out eq_refl) as [[Ht Hc] | Hr]; [|right; exact Hr].
    left. split; [exact Ht | intros Hc'; contradiction].
  - left. split; [reflexivity | discriminate].
Qed.

Lemma updated_item (t : gmap (list N) (gmap (list N) AttributeValue))
    (id : jsstring) (item : gmap (list N) AttributeValue) (status data ts : jsstring) :
  t !! id = Some item ->
  UpdateItem_SET t id
    [ (js "status", AttrS status); (js "webhookData", AttrS data);
      (js "updatedAt", AttrS ts) ]
  = <[id := <[js "updatedAt" := AttrS ts]>
              (<[js "webhookData" := AttrS data]> (<[js "status" := AttrS status]> item))]> t.
Proof. intros Hid. unfold UpdateItem_SET. rewrite Hid. reflexivity. Qed.

Lemma callback_frame (env : Env) (t : gmap (list N) (gmap (list N) AttributeValue))
    (event : Event) (id : jsstring) (item' : gmap (list N) AttributeValue) :
  (handler env t event).2 !! id = Some item' ->
  exists item,
    t !! id = Some item
    /\ forall a, a <> js "status" -> a <> js "webhookData" -> a <> js "updatedAt" ->
                 item' !! a = item !! a.
Proof.
  intros Hl.
  destruct (handler_effect env t event)
    as [[Ht _] | (id0 & item0 & st & d & ts & Hid0 & _ & Ht)]; rewrite Ht in Hl.
  - exists item'. split; [assumption | reflexivity].
  - rewrite (updated_item _ _ _ _ _ _ Hid0) in Hl.
    destruct (decide (id = id0)) as [-> | Hne].
    + rewrite lookup_insert_eq in Hl. injection Hl as <-.
      exists item0. split; [assumption|]. intros a H1 H2 H3.
      now rewrite !lookup_insert_ne by congruence.
    + rewrite lookup_insert_ne in Hl by congruence.
      exists item'. split; [assumption | reflexivity].
Qed.

Lemma callback_keeps_keys (env : Env) (t : gmap (list N) (gmap (list N) AttributeValue))
    (event : Event) (id : jsstring) :
  (handler env t event).2 !! id = None <-> t !! id = None.
Proof.
  destruct (handler_effect env t event)
    as [[Ht _] | (id0 & item0 & st & d & ts & Hid0 & _ & Ht)]; rewrite Ht; [reflexivity|].
  rewrite (updated_item _ _ _ _ _ _ Hid0).
  destruct (decide (id = id0)) as [-> | Hne].
  - rewrite lookup_insert_eq, Hid0. split; discriminate.
  - now rewrite lookup_insert_ne by congruence.
Qed.

Lemma callback_keeps_well_keyed (env : Env)
    (t : gmap (list N) (gmap (list N) AttributeValue)) (event : Event) :
  DailyExporter.well_keyed t -> DailyExporter.well_keyed (handler env t event).2.
Proof.
  intros Hwk id item' Hl.
  destruct (callback_frame env t event id item' Hl) as (item & Hid & Hsame).
  rewrite Hsame by (vm_compute; congruence). exact (Hwk id item Hid).
Qed.

(** X9.  What any callback does to the table, whatever its method, body and
    the answers of the store: it never adds or removes a submission; an
    answer other than 200 leaves the table exactly as it was; and in a
    stored submission nothing but [status], [webhookData] and [updatedAt]
    is ever written, so that the key attribute is kept. *)
Theorem callback_store_effect (env : Env)
    (t : gmap (list N) (gmap (list N) AttributeValue)) (event : Event) :
  let out := handler env t event in
  (statusCode out.1 <> 200 -> out.2 = t)
  /\ (forall id, out.2 !! id = None <-> t !! id = None)
  /\ (forall id item',
        out.2 !! id = Some item' ->
        exists item,
          t !! id = Some item
          /\ forall a, a <> js "status" -> a <> js "webhookData" -> a <> js "updatedAt" ->
                       item' !! a = item !! a)
  /\ (DailyExporter.well_keyed t -> DailyExporter.well_keyed out.2).
Proof.
  cbv zeta. split; [|split; [|split]].
  - intros Hc.
    destruct (handler_effect env t event) as [[Ht _] | (? & ? & ? & ? & ? & _ & Hc' & _)];
      [assumption | contradiction].
  - apply callback_keeps_keys.
  - apply callback_frame.
  - apply callback_keeps_well_keyed.
Qed.

Lemma outcome_cases (props : list (jsstring * JSON.value)) :
  outcome props = js "approved" \/ outcome props = js "failed".
Proof. unfold outcome. destruct (verified _); auto. Qed.

(** X10.  The callback decides whether the exporter will pick the
    submission up: after a callback for a stored submission, the exporter's
    scan returns the stored item exactly when the callback carried an
    approval, the submission had [exported = false] and it lies on the
    first page of the scan; the callback itself never changes [exported]. *)
Theorem callback_decides_export (env : Env)
    (t : gmap (list N) (gmap (list N) AttributeValue)) (event : Event)
    (props : list (jsstring * JSON.value)) (id : jsstring)
    (item : gmap (list N) AttributeValue) :
  DailyExporter.well_keyed t ->
  known_callback env t event props id item ->
  exists item',
    (handler env t event).2 !! id = Some item'
    /\ item' !! js "exported" = item !! js "exported"
    /\ (In item' (Scan (handler env t event).2 DailyExporter.approved_unexported)
        <-> outcome props = js "approved"
            /\ item !! js "exported" = Some (AttrBOOL false)
            /\ in_first_page (handler env t event).2 id = true).
Proof.
  intros Hwk Hk.
  pose proof (callback_keeps_well_keyed env t event Hwk) as Hwk'.
  revert Hwk'. rewrite (receive_known _ _ _ _ _ _ Hk). cbn [snd]. intros Hwk'.
  eexists. split; [apply stored_after_update, Hk|].
  set (item' := <[js "updatedAt" := _]> _).
  assert (He : item' !! js "exported" = item !! js "exported").
  { subst item'. now rewrite !lookup_insert_ne by (vm_compute; congruence). }
  assert (Hs : item' !! js "status" = Some (AttrS (outcome props))).
  { subst item'. rewrite !lookup_insert_ne by (vm_compute; congruence).
    apply lookup_insert_eq. }
  split; [exact He|].
  rewrite (Scan_keyed _ _ id item' Hwk') by (apply stored_after_update, Hk).
  rewrite approved_unexported_spec, He, Hs. split.
  - intros (Hpage & Hst & Hex). split; [congruence | split; assumption].
  - intros (Hst & Hex & Hpage). split; [assumption | split; [congruence | assumption]].
Qed.

(** X11.  A callback whose [CustomData] names no stored submission is
    answered 404 and nothing is written: no submission is created for it. *)
Theorem unknown_submission_is_404 (env : Env)
    (t : gmap (list N) (gmap (list N) AttributeValue)) (event : Event)
    (text : jsstring) (props : list (jsstring * JSON.value)) (id : jsstring) :
  httpMethod event = js "POST" ->
  body event = Some text -> text <> [] ->
  parse_body text = JSON.Object props ->
  JSON.own props (js "CustomData") = Some (JSON.String id) -> id <> [] ->
  getItem_fails env = false ->
  t !! id = None ->
  handler env t event
  = (respond event 404 (Failure (js "Submission not found") None), t).
Proof.
  intros Hm Hb Hne Hp Htok Hid Hget Hst.
  unfold handler, process. rewrite Hm, Hb.
  destruct text as [|c text]; [contradiction|].
  change (bool_decide (js "POST" = js "OPTIONS")) with false.
  change (bool_decide (js "POST" = js "POST")) with true.
  cbv iota. rewrite Hp. cbn [JSON.get bind]. rewrite Htok.
  destruct id as [|i id]; [contradiction|].
  cbn [JSON.truthy length Nat.eqb negb default].
  unfold getSubmission, Datatypes.id. rewrite Hget. unfold GetItem. rewrite Hst.
  reflexivity.
Qed.

(** X12.  A POST whose payload has no [CustomData], or a falsy one (empty
    string, [false], [null]), is answered 400 before the store is read; a
    payload that is the JSON value [null] makes the property access throw
    and is answered 500.  Neither writes anything. *)
Theorem missing_token_is_rejected (env : Env)
    (t : gmap (list N) (gmap (list N) AttributeValue)) (event : Event)
    (text : jsstring) :
  httpMethod event = js "POST" ->
  body event = Some text -> text <> [] ->
  (forall tok, JSON.get (parse_body text) (js "CustomData") = Ok tok ->
               JSON.truthy tok = false ->
               handler env t event
               = (respond event 400 (Failure (js "Missing CustomData field") None), t))
  /\ (parse_body text = JSON.Null ->
      statusCode (handler env t event).1 = 500 /\ (handler env t event).2 = t).
Proof.
  intros Hm Hb Hne.
  destruct text as [|c text]; [contradiction|].
  unfold handler, process. rewrite Hm, Hb.
  change (bool_decide (js "POST" = js "OPTIONS")) with false.
  change (bool_decide (js "POST" = js "POST")) with true.
  cbv iota. split.
  - intros tok Hget Hfalsy. rewrite Hget. cbn [bind]. now rewrite Hfalsy.
  - intros ->. cbn. split; reflexivity.
Qed.

Lemma own_define {A} (props : list (jsstring * A)) (k k' : jsstring) (v : A) :
  JSON.own (JSON.define props k v) k'
  = if bool_decide (k = k') then Some v else JSON.own props k'.
Proof.
  induction props as [|[k0 v0] props IH]; cbn.
  - reflexivity.
  - destruct (bool_decide_reflect (k0 = k)) as [-> | Hne]; cbn.
    + now destruct (bool_decide (k = k')).
    + rewrite IH. destruct (bool_decide_reflect (k0 = k')) as [-> | Hne'].
      * now rewrite bool_decide_eq_false_2 by congruence.
      * reflexivity.
Qed.

Lemma own_fromEntries (entries : list (jsstring * jsstring)) :
  forall (acc : list (jsstring * JSON.value)) (k : jsstring),
    JSON.own (fold_left (fun props kv => JSON.define props kv.1 (JSON.String kv.2))
                entries acc) k
    = match URLSearchParams.get (rev entries) k with
      | Some v => Some (JSON.String v)
      | None => JSON.own acc k
      end.
Proof.
  induction entries as [|[k0 v0] entries IH] using rev_ind; intros acc k.
  - reflexivity.
  - rewrite fold_left_app, rev_app_distr. cbn. rewrite own_define.
    destruct (bool_decide (k0 = k)); [reflexivity | apply IH].
Qed.

(** X13.  A body that is not JSON is read as form data, and
    [Object.fromEntries] keeps the last value of a repeated name (where
    [URLSearchParams.get] would give the first).  Every property is then a
    string, so such a callback is an approval exactly when the last
    [VerificationStatus] value is the text [True]. *)
Theorem form_encoded_callback (text : jsstring) (e : JsError) :
  JSON.parse text = Throw e ->
  exists props,
    parse_body text = JSON.Object props
    /\ (forall k, JSON.own props k
                  = JSON.String <$> URLSearchParams.get (rev (URLSearchParams.parse text)) k)
    /\ (outcome props = js "approved"
        <-> URLSearchParams.get (rev (URLSearchParams.parse text))
              (js "VerificationStatus") = Some (js "True")).
Proof.
  intros Hp. unfold parse_body. rewrite Hp. unfold URLSearchParams.fromEntries.
  eexists. split; [reflexivity|].
  assert (Hown : forall k,
             JSON.own (fold_left (fun props kv => JSON.define props kv.1 (JSON.String kv.2))
                         (URLSearchParams.parse text) []) k
             = JSON.String <$> URLSearchParams.get (rev (URLSearchParams.parse text)) k).
  { intros k. rewrite own_fromEntries. now destruct (URLSearchParams.get _ k). }
  split; [exact Hown|].
  unfold outcome. rewrite Hown.
  destruct (URLSearchParams.get _ (js "VerificationStatus")) as [v|];
    cbn [fmap option_fmap option_map verified].
  - destruct (bool_decide_reflect (v = js "True")) as [-> | Hne].
    + split; reflexivity.
    + split; [intros E; vm_compute in E; discriminate E | congruence].
  - split; [intros E; vm_compute in E; discriminate E | discriminate].
Qed.

End CallbackFacts.

(** ** The exporter: files, repeated runs and failures *)

Section ExportFacts.
Context `{Host}.
Import DynamoDB DailyExporter.
Context `{Paging}.

(** The handler with the ids of the selected records at hand. *)
Lemma handler_with_ids (env : Env) (w : World) :
  well_keyed (table w) ->
  exists ids,
    (forall id, In id ids
                <-> exists r, In r (Scan (table w) approved_unexported)
                              /\ table w !! id = Some r)
    /\ length ids = length (Scan (table w) approved_unexported)
    /\ handler env w
       = if scan_fails env then (failure env 1 (ServiceException (js "DynamoDB")), w)
         else if (length (Scan (table w) approved_unexported) =? 0)%nat
         then ({| statusCode := 200; body := NoRecords |}, w)
         else
           match map_result recordToFixedWidth (Scan (table w) approved_unexported) with
           | Throw e => (failure env 1 e, w)
           | Ok lines =>
               let fileContent := JsString.join [10%N] lines in
               let fileName :=
                 js "DIRECT_DEBIT_EXPORT_" ++ YYYYMMDD (clock env 1) ++ js ".txt" in
               if putObject_fails env
               then (failure env 2 (ServiceException (js "S3")), w)
               else
                 let w2 := {| table := send_updates env 2 ids (table w);
                              bucket := <[fileName := fileContent]> (bucket w) |} in
                 if existsb (update_fails env) ids
                 then (failure env (2 + length ids) (ServiceException (js "DynamoDB")), w2)
                 else ({| statusCode := 200;
                          body := Exported (length (Scan (table w) approved_unexported))
                                    fileName (length fileContent)
                                    (clock env (2 + length ids) - clock env 0)
                                    (JsDate.toISOString (clock env (3 + length ids))) |},
                       w2)
           end.
Proof.
  intros Hwk.
  destruct (submissionIds_of_records (table w) (Scan (table w) approved_unexported) Hwk)
    as (ids & Hids & Hspec).
  { intros r Hr. now apply Scan_stored in Hr. }
  exists ids. split; [exact Hspec|].
  assert (Hlen : length ids = length (Scan (table w) approved_unexported)).
  { clear Hspec. revert ids Hids.
    induction (Scan (table w) approved_unexported) as [|r rs IH]; intros ids Hids.
    - now injection Hids as <-.
    - cbn [map_result bind] in Hids.
      destruct (submissionId_of r); [|discriminate].
      cbn [bind] in Hids.
      destruct (map_result submissionId_of rs) as [ids'|]; [|discriminate].
      injection Hids as <-. cbn. now rewrite (IH ids' eq_refl). }
  split; [exact Hlen|].
  unfold handler, getApprovedRecords, uploadExportFile, markRecordsAsExported.
  destruct (scan_fails env); [reflexivity|].
  destruct (length _ =? 0)%nat; [reflexivity|].
  destruct (map_result recordToFixedWidth _); [|reflexivity].
  destruct (putObject_fails env); [reflexivity|].
  rewrite Hids. unfold S3.PutObject.
  destruct (existsb _ ids); reflexivity.
Qed.

(** What the update requests do, whether or not some are rejected. *)
Lemma send_updates_effect (env : Env) (ids : list jsstring) :
  forall (tick : nat) (t : gmap (list N) (gmap (list N) AttributeValue)),
  (forall id, In id ids -> is_Some (t !! id)) ->
  forall id,
    (In id ids -> update_fails env id = false ->
     exists item item', t !! id = Some item
       /\ send_updates env tick ids t !! id = Some item' /\ marks item item')
    /\ (~ In id ids \/ update_fails env id = true ->
        send_updates env tick ids t !! id = t !! id).
Proof.
  induction ids as [|id0 rest IH]; intros tick t Hdom id.
  - split; [intros [] | reflexivity].
  - cbn [send_updates].
    destruct (update_fails env id0) eqn:Hf0.
    + destruct (IH (S tick) t (fun j Hj => Hdom j (or_intror Hj)) id) as [IHin IHout].
      split.
      * intros [<- | Hin] Hok; [congruence | now apply IHin].
      * intros [Hnin | Hf]; apply IHout; [left; intros Hr; apply Hnin; now right | now right].
    + set (t1 := UpdateItem_SET t id0 _).
      destruct (Hdom id0 (or_introl eq_refl)) as [item0 Hitem0].
      assert (Ht1 : t1 !! id0
                    = Some (<[js "exportedAt" := AttrS (JsDate.toISOString (clock env tick))]>
                              (<[js "exported" := AttrBOOL true]> item0))).
      { subst t1. unfold UpdateItem_SET. rewrite Hitem0. cbn. apply lookup_insert_eq. }
      assert (Ht1' : forall j, j <> id0 -> t1 !! j = t !! j).
      { intros j Hj. subst t1. unfold UpdateItem_SET.
        now rewrite lookup_insert_ne by congruence. }
      assert (Hdom1 : forall j, In j rest -> is_Some (t1 !! j)).
      { intros j Hj. destruct (decide (j = id0)) as [-> | Hne].
        - rewrite Ht1. eauto.
        - rewrite Ht1' by assumption. apply Hdom. now right. }
      destruct (IH (S tick) t1 Hdom1 id) as [IHin IHout].
      split.
      * intros Hin Hok.
        destruct (decide (id ∈ rest)) as [Hr | Hnr]; rewrite list_elem_of_In in *.
        -- destruct (IHin Hr Hok) as (item & item' & Hl & Hl' & Hm).
           destruct (decide (id = id0)) as [-> | Hne].
           ++ exists item0, item'. split; [assumption|]. split; [assumption|].
              rewrite Ht1 in Hl. injection Hl as <-.
              eapply marks_trans; [apply marks_set | exact Hm].
           ++ exists item, item'. rewrite <- Ht1' by assumption. auto.
        -- destruct Hin as [<- | Hin]; [|contradiction].
           exists item0, (<[js "exportedAt" := AttrS (JsDate.toISOString (clock env tick))]>
                            (<[js "exported" := AttrBOOL true]> item0)).
           split; [assumption|]. split; [|apply marks_set].
           rewrite IHout by (now left). exact Ht1.
      * intros Hcase.
        assert (Hne : id <> id0).
        { intros ->. destruct Hcase as [Hnin | Hf]; [apply Hnin; now left | congruence]. }
        rewrite IHout.
        -- now apply Ht1'.
        -- destruct Hcase as [Hnin | Hf]; [left; intros Hr; apply Hnin; now right | now right].
Qed.

Lemma existsb_false_forall {A} (p : A -> bool) (l : list A) :
  existsb p l = false -> forall a, In a l -> p a = false.
Proof.
  induction l as [|x l IH]; cbn; [intros _ a []|].
  intros Hf a [<- | Ha]; apply orb_false_iff in Hf as [Hx Hl]; auto.
Qed.

Lemma export_keeps_keys (env : Env) (w : World) (id : jsstring) :
  well_keyed (table w) ->
  table (handler env w).2 !! id = None <-> table w !! id = None.
Proof.
  intros Hwk.
  destruct (handler_with_ids env w Hwk) as (ids & Hspec & Hlen & ->).
  assert (Hdom : forall j, In j ids -> is_Some (table w !! j)).
  { intros j Hj. apply Hspec in Hj as (r & _ & Hr). eauto. }
  assert (Hsend : send_updates env 2 ids (table w) !! id = None <-> table w !! id = None).
  { destruct (send_updates_effect env ids 2 (table w) Hdom id) as [Hin Hout].
    destruct (decide (id ∈ ids)) as [Hi|Hi]; rewrite list_elem_of_In in Hi.
    - destruct (update_fails env id) eqn:Hf.
      + now rewrite Hout by (now right).
      + destruct (Hin Hi eq_refl) as (item & item' & -> & -> & _). split; discriminate.
    - now rewrite Hout by (now left). }
  destruct (scan_fails env); [reflexivity|].
  destruct (length _ =? 0)%nat; [reflexivity|].
  destruct (map_result recordToFixedWidth _); [|reflexivity].
  cbv zeta. destruct (putObject_fails env); [reflexivity|].
  destruct (existsb _ ids); exact Hsend.
Qed.

Lemma marked_not_selected (item item' : gmap (list N) AttributeValue) :
  marks item item' -> approved_unexported item' = false.
Proof.
  intros (He & _ & _). unfold approved_unexported. rewrite He.
  rewrite (bool_decide_eq_false_2 (Some (AttrBOOL true) = Some (AttrBOOL false)))
    by discriminate.
  apply andb_false_r.
Qed.

Lemma Scan_nil (t : gmap (list N) (gmap (list N) AttributeValue)) keep :
  (forall id item, t !! id = Some item -> keep item = false) -> Scan t keep = [].
Proof.
  intros Hnone. destruct (Scan t keep) as [|item l] eqn:E; [reflexivity|].
  assert (Hin : In item (Scan t keep)) by (rewrite E; now left).
  apply Scan_spec in Hin as [(id & _ & Hid) Hk].
  rewrite (Hnone id item Hid) in Hk. discriminate.
Qed.

(** X14.  An export is not repeated: when the first page of the scan held
    the whole table, then after a run that answered 200 no stored submission
    is approved and unexported, so the next run (whose scan succeeds, on
    whatever page) finds nothing, answers 200 with no records, writes no
    file and leaves table and bucket as they are. *)
Theorem second_run_exports_nothing (env env' : Env) (w w' : World) (resp : Response) :
  well_keyed (table w) ->
  complete_page (table w) ->
  handler env w = (resp, w') ->
  statusCode resp = 200 ->
  scan_fails env' = false ->
  (forall id item, table w' !! id = Some item -> approved_unexported item = false)
  /\ Scan (table w') approved_unexported = []
  /\ handler env' w' = ({| statusCode := 200; body := NoRecords |}, w').
Proof.
  intros Hwk Hpage Hrun Hcode Hscan.
  assert (Hnone : forall id item,
             table w' !! id = Some item -> approved_unexported item = false).
  { intros id item' Hid'.
    destruct (table w !! id) as [item|] eqn:Hid.
    - pose proof (run_marks_scanned env w w' resp Hwk Hrun Hcode id item Hid) as Hm.
      rewrite (Hpage id) in Hm by eauto. rewrite andb_true_r in Hm.
      destruct (approved_unexported item) eqn:Hk.
      + destruct Hm as (item'' & E & Hm). assert (item'' = item') by congruence. subst.
        now apply (marked_not_selected item).
      + congruence.
    - apply (export_keeps_keys env w id Hwk) in Hid. rewrite Hrun in Hid. cbn in Hid.
      congruence. }
  split; [exact Hnone|].
  assert (Hnil : Scan (table w') approved_unexported = []) by now apply Scan_nil.
  split; [exact Hnil|].
  unfold handler, getApprovedRecords. rewrite Hscan, Hnil. reflexivity.
Qed.

Lemma callbacks_keep_exported (calls : list (WebhookHandler.Env * WebhookHandler.Event)) :
  forall (t : gmap (list N) (gmap (list N) AttributeValue)) (id : jsstring)
         (item : gmap (list N) AttributeValue),
    t !! id = Some item ->
    exists item',
      Pipeline.callbacks calls t !! id = Some item'
      /\ item' !! js "exported" = item !! js "exported".
Proof.
  induction calls as [|[cenv event] calls IH]; intros t id item Hid.
  - exists item. split; [assumption | reflexivity].
  - cbn [Pipeline.callbacks foldl fst snd].
    destruct ((WebhookHandler.handler cenv t event).2 !! id) as [item1|] eqn:H1.
    + destruct (callback_frame cenv t event id item1 H1) as (item0 & Hid0 & Hsame).
      assert (item0 = item) by congruence. subst item0.
      destruct (IH _ id item1 H1) as (item' & Hl & He).
      exists item'. split; [exact Hl|].
      rewrite He. apply Hsame; vm_compute; congruence.
    + apply callback_keeps_keys in H1. congruence.
Qed.

(** X15.  A submission is exported once: whatever callbacks arrive after a
    run that answered 200 (approvals included), every submission that the
    scan of that run returned still has [exported = true] and is not
    returned by a later scan. *)
Theorem exported_once (env : Env) (w w' : World) (resp : Response)
    (calls : list (WebhookHandler.Env * WebhookHandler.Event))
    (id : jsstring) (item : gmap (list N) AttributeValue) :
  well_keyed (table w) ->
  handler env w = (resp, w') ->
  statusCode resp = 200 ->
  table w !! id = Some item ->
  In item (Scan (table w) approved_unexported) ->
  exists item',
    Pipeline.callbacks calls (table w') !! id = Some item'
    /\ item' !! js "exported" = Some (AttrBOOL true)
    /\ ~ In item' (Scan (Pipeline.callbacks calls (table w')) approved_unexported).
Proof.
  intros Hwk Hrun Hcode Hid Hscanned.
  pose proof (run_marks_scanned env w w' resp Hwk Hrun Hcode id item Hid) as Hm.
  apply (Scan_keyed _ _ _ _ Hwk Hid) in Hscanned as [Hpage Hk].
  rewrite Hk, Hpage in Hm. cbn [andb] in Hm.
  destruct Hm as (item1 & H1 & (He1 & _ & _)).
  destruct (callbacks_keep_exported calls (table w') id item1 H1) as (item' & Hl & He).
  exists item'. split; [exact Hl|]. rewrite He, He1. split; [reflexivity|].
  intros Hin. apply Scan_spec in Hin as [_ Hk'].
  apply approved_unexported_spec in Hk' as [_ Hk']. congruence.
Qed.

Lemma map_result_Forall2 {A B} (f : A -> result B) (l : list A) :
  forall bs, map_result f l = Ok bs -> Forall2 (fun a b => f a = Ok b) l bs.
Proof.
  induction l as [|a l IH]; intros bs Hbs.
  - injection Hbs as <-. constructor.
  - cbn [map_result] in Hbs. destruct (f a) as [b|e] eqn:Hb; [|discriminate].
    cbn [bind] in Hbs. destruct (map_result f l) as [bs'|e]; [|discriminate].
    injection Hbs as <-. constructor; [assumption | now apply IH].
Qed.

Lemma recordToFixedWidth_length (record : gmap (list N) AttributeValue) (line : jsstring) :
  recordToFixedWidth record = Ok line -> length line = 606%nat.
Proof.
  unfold recordToFixedWidth.
  destruct (Date_parse _) as [t|]; [|discriminate]. cbn [JsDate.Date_toISOString bind].
  set (fields := fixed_fields _ _ _).
  assert (Hlen : (606 <= length fields)%nat).
  { subst fields. rewrite fixed_fields_length. lia. }
  destruct (Nat.eqb_spec (length fields) 606) as [Heq | Hne]; cbn [negb]; intros [= <-].
  - exact Heq.
  - rewrite substring_from_start, padEnd_space_length, length_take. lia.
Qed.

Lemma join_newline_length (lines : list jsstring) :
  Forall (fun l => length l = 606%nat) lines ->
  lines <> [] ->
  length (JsString.join [10%N] lines) = (607 * length lines - 1)%nat.
Proof.
  induction 1 as [|l ls Hl Hls IH]; intros Hne; [contradiction|].
  destruct ls as [|l' ls'].
  - cbn. rewrite Hl. reflexivity.
  - change (JsString.join [10%N] (l :: l' :: ls'))
      with (l ++ [10%N] ++ JsString.join [10%N] (l' :: ls')).
    rewrite !length_app, Hl, IH by discriminate. cbn [length]. lia.
Qed.

(** What a run whose answer reports an export has written. *)
Lemma exported_file (env : Env) (w w' : World) (resp : Response)
    (n : nat) (fileName : jsstring) (fileSize : nat) (ms : Z) (ts : jsstring) :
  handler env w = (resp, w') ->
  body resp = Exported n fileName fileSize ms ts ->
  exists lines,
    map_result recordToFixedWidth (Scan (table w) approved_unexported) = Ok lines
    /\ n = length (Scan (table w) approved_unexported)
    /\ n <> 0%nat
    /\ fileName = js "DIRECT_DEBIT_EXPORT_" ++ YYYYMMDD (clock env 1) ++ js ".txt"
    /\ fileSize = length (JsString.join [10%N] lines)
    /\ bucket w' = <[fileName := JsString.join [10%N] lines]> (bucket w).
Proof.
  intros Hrun Hbody.
  unfold handler, getApprovedRecords, uploadExportFile, markRecordsAsExported in Hrun.
  destruct (scan_fails env); [injection Hrun as <- <-; discriminate Hbody|].
  destruct (Nat.eqb_spec (length (Scan (table w) approved_unexported)) 0) as [Hempty|Hne];
    [injection Hrun as <- <-; discriminate Hbody|].
  destruct (map_result recordToFixedWidth _) as [lines|e];
    [|injection Hrun as <- <-; discriminate Hbody].
  destruct (putObject_fails env); [injection Hrun as <- <-; discriminate Hbody|].
  destruct (map_result submissionId_of _) as [ids|e];
    [|injection Hrun as <- <-; discriminate Hbody].
  destruct (existsb (update_fails env) ids);
    [injection Hrun as <- <-; discriminate Hbody|].
  injection Hrun as <- <-. cbn [body] in Hbody. injection Hbody as <- <- <- _ _.
  exists lines. repeat split. exact Hne.
Qed.

(** X16.  The export file: a run that reports an export has put, under the
    key [DIRECT_DEBIT_EXPORT_<date>.txt] for the UTC date of the run, one
    line of 606 code units per selected record, joined by single newlines
    with none after the last line; the reported [fileSize] is therefore
    [607 * recordsExported - 1], and no other object of the bucket is
    touched. *)
Theorem export_file_contents (env : Env) (w w' : World) (resp : Response)
    (n : nat) (fileName : jsstring) (fileSize : nat) (ms : Z) (ts : jsstring) :
  handler env w = (resp, w') ->
  body resp = Exported n fileName fileSize ms ts ->
  fileName = js "DIRECT_DEBIT_EXPORT_" ++ YYYYMMDD (clock env 1) ++ js ".txt"
  /\ (exists lines,
        bucket w' !! fileName = Some (JsString.join [10%N] lines)
        /\ length lines = n
        /\ Forall (fun line => length line = 606%nat) lines
        /\ Forall2 (fun record line => recordToFixedWidth record = Ok line)
             (Scan (table w) approved_unexported) lines)
  /\ fileSize = (607 * n - 1)%nat
  /\ (0 < n)%nat
  /\ forall key, key <> fileName -> bucket w' !! key = bucket w !! key.
Proof.
  intros Hrun Hbody.
  destruct (exported_file env w w' resp n fileName fileSize ms ts Hrun Hbody)
    as (lines & Hlines & Hn & Hn0 & Hname & Hsize & Hbucket).
  pose proof (map_result_Forall2 _ _ _ Hlines) as Hall.
  assert (Hlen : length lines = n).
  { rewrite Hn. symmetry. eapply Forall2_length, Hall. }
  assert (H606 : Forall (fun line => length line = 606%nat) lines).
  { clear -Hall. induction Hall as [|r l rs ls Hr _ IH]; constructor; [|exact IH].
    eapply recordToFixedWidth_length, Hr. }
  split; [exact Hname|]. split; [|split; [|split]].
  - exists lines. rewrite Hbucket, lookup_insert_eq. auto.
  - rewrite Hsize, join_newline_length, Hlen; [reflexivity | exact H606 |].
    intros ->. cbn in Hlen. congruence.
  - lia.
  - intros key Hkey. rewrite Hbucket. now rewrite lookup_insert_ne by congruence.
Qed.

(** X17.  The key of the export file depends on the UTC date alone: when a
    second exporting run falls on the same date as an earlier one, it writes
    the same key, and the object then holds the lines of the second run
    only; the file of the earlier run is replaced. *)
Theorem same_day_export_replaces_file (env1 env2 : Env) (w w1 v v2 : World)
    (resp1 resp2 : Response) (n1 n2 : nat) (f1 f2 : jsstring) (s1 s2 : nat)
    (ms1 ms2 : Z) (ts1 ts2 : jsstring) :
  handler env1 w = (resp1, w1) ->
  body resp1 = Exported n1 f1 s1 ms1 ts1 ->
  handler env2 v = (resp2, v2) ->
  body resp2 = Exported n2 f2 s2 ms2 ts2 ->
  YYYYMMDD (clock env2 1) = YYYYMMDD (clock env1 1) ->
  f2 = f1
  /\ exists lines2,
       map_result recordToFixedWidth (Scan (table v) approved_unexported) = Ok lines2
       /\ bucket v2 !! f1 = Some (JsString.join [10%N] lines2).
Proof.
  intros Hrun1 Hbody1 Hrun2 Hbody2 Hday.
  destruct (exported_file _ _ _ _ _ _ _ _ _ Hrun1 Hbody1) as (_ & _ & _ & _ & Hf1 & _).
  destruct (exported_file _ _ _ _ _ _ _ _ _ Hrun2 Hbody2)
    as (lines2 & Hl2 & _ & _ & Hf2 & _ & Hb2).
  assert (Hf : f2 = f1) by (rewrite Hf1, Hf2, Hday; reflexivity).
  split; [exact Hf|]. exists lines2. split; [exact Hl2|].
  rewrite Hb2, Hf. apply lookup_insert_eq.
Qed.

Lemma map_result_throws {A B} (f : A -> result B) (l : list A) (e : JsError) :
  (forall a e', f a = Throw e' -> e' = e) ->
  (exists a, In a l /\ f a = Throw e) ->
  map_result f l = Throw e.
Proof.
  intros Hsame. induction l as [|a l IH]; intros (x & Hin & Hx); [destruct Hin|].
  cbn [map_result]. destruct (f a) as [b|e'] eqn:Ha.
  - cbn [bind]. rewrite IH; [reflexivity|].
    destruct Hin as [<- | Hin]; [congruence | eauto].
  - cbn [bind]. now rewrite (Hsame a e' Ha).
Qed.

(** X18.  One record with a submission date that does not parse (or with
    none) stops the whole export: the run answers 500 with the message of
    the [RangeError] thrown by [toISOString], uploads nothing and marks
    nothing, so that every later run meets the same record again. *)
Theorem unparseable_date_blocks_export (env : Env) (w : World)
    (item : gmap (list N) AttributeValue) :
  scan_fails env = false ->
  In item (Scan (table w) approved_unexported) ->
  Date_parse (default [] (attr_S item (js "submissionDate"))) = None ->
  handler env w
  = ({| statusCode := 500;
        body := Failed (js "Invalid time value") (JsDate.toISOString (clock env 1)) |}, w).
Proof.
  intros Hscan Hin Hdate.
  unfold handler, getApprovedRecords. rewrite Hscan.
  destruct (Nat.eqb_spec (length (Scan (table w) approved_unexported)) 0) as [Hempty|Hne].
  { destruct (Scan (table w) approved_unexported); [destruct Hin | discriminate]. }
  rewrite (map_result_throws recordToFixedWidth _ (RangeError (js "Invalid time value"))).
  - reflexivity.
  - intros r e'. unfold recordToFixedWidth.
    destruct (Date_parse (default [] (attr_S r _))); cbn [JsDate.Date_toISOString bind];
      [discriminate | intros [= E]; now symmetry].
  - exists item. split; [exact Hin|].
    unfold recordToFixedWidth. now rewrite Hdate.
Qed.

(** X19.  Marking is not atomic: when the file was uploaded and the update
    of some submission that the scan returned is rejected, the run answers
    500, the file stays in the bucket, every returned submission whose
    update was accepted is marked exported, and every one whose update was
    rejected is stored as before, still approved and unexported although it
    is in the file. *)
Theorem rejected_update_leaves_partial_marking (env : Env) (w : World)
    (bad : jsstring) (bad_item : gmap (list N) AttributeValue) :
  well_keyed (table w) ->
  scan_fails env = false ->
  putObject_fails env = false ->
  (forall item, In item (Scan (table w) approved_unexported) ->
                is_Some (Date_parse (default [] (attr_S item (js "submissionDate"))))) ->
  table w !! bad = Some bad_item ->
  In bad_item (Scan (table w) approved_unexported) ->
  update_fails env bad = true ->
  let out := handler env w in
  statusCode out.1 = 500
  /\ is_Some (bucket out.2
              !! (js "DIRECT_DEBIT_EXPORT_" ++ YYYYMMDD (clock env 1) ++ js ".txt"))
  /\ forall id item,
       table w !! id = Some item ->
       In item (Scan (table w) approved_unexported) ->
       if update_fails env id
       then selected (table out.2) id item
       else exists item', table out.2 !! id = Some item' /\ marks item item'.
Proof.
  intros Hwk Hscan Hput Hdates Hbad Hbscanned Hfail. cbv zeta.
  destruct (handler_with_ids env w Hwk) as (ids & Hspec & Hlen & ->).
  rewrite Hscan, Hput.
  assert (Hsel : forall id item,
             table w !! id = Some item ->
             In item (Scan (table w) approved_unexported) -> In id ids).
  { intros id item Hid Hin. apply Hspec. now exists item. }
  assert (Hbin : In bad ids) by (apply (Hsel bad bad_item); assumption).
  destruct (Nat.eqb_spec (length (Scan (table w) approved_unexported)) 0) as [Hempty|Hne].
  { rewrite <- Hlen in Hempty. destruct ids; [destruct Hbin | discriminate]. }
  destruct (map_result_returns recordToFixedWidth (Scan (table w) approved_unexported))
    as [lines ->].
  { intros r Hr. apply recordToFixedWidth_returns, Hdates, Hr. }
  cbv zeta.
  assert (Hex : existsb (update_fails env) ids = true).
  { apply existsb_exists. now exists bad. }
  rewrite Hex. cbn [fst snd statusCode failure bucket table].
  split; [reflexivity|]. split; [rewrite lookup_insert_eq; eauto|].
  intros id item Hid Hscanned. pose proof (Hsel id item Hid Hscanned) as Hin.
  assert (Hdom : forall j, In j ids -> is_Some (table w !! j)).
  { intros j Hj. apply Hspec in Hj as (r & _ & Hr). eauto. }
  destruct (send_updates_effect env ids 2 (table w) Hdom id) as [Hacc Hrej].
  destruct (update_fails env id) eqn:Hf.
  - unfold selected. rewrite Hrej by (now right).
    apply Scan_spec in Hscanned as [_ Hk]. apply approved_unexported_spec in Hk. tauto.
  - destruct (Hacc Hin eq_refl) as (item0 & item' & E0 & E' & Hm).
    assert (item0 = item) by congruence. subst item0. eauto.
Qed.

End ExportFacts.

(** ** The layout of the fixed-width record *)

Section LayoutFacts.
Context `{Host}.
Import DynamoDB DailyExporter.

Lemma slice_app_middle (a m b : jsstring) (i j : nat) :
  length a = i -> (i + length m = j)%nat -> JsString.slice (a ++ m ++ b) i j = m.
Proof.
  intros Ha Hm. unfold JsString.slice. rewrite !length_app.
  rewrite (Nat.min_l i) by lia. rewrite (Nat.min_l j) by lia.
  rewrite drop_app_length' by lia.
  replace (j - i)%nat with (length m) by lia.
  now rewrite take_app_length.
Qed.

Lemma fixed_fields_split (customerNumber email formattedDate : jsstring) :
  exists before,
    fixed_fields customerNumber email formattedDate
    = before ++ js "DD" ++ JsString.repeat (js " ") 28 ++ js "W"
        ++ JsString.repeat (js " ") 46
    /\ before = js " 2" ++ JsString.padStart customerNumber 25 (js " ")
                  ++ drop (2 + Nat.max 25 (length customerNumber)) before
    /\ length before
       = (529 + (length customerNumber - 25)
          + (length formattedDate + length email + 16 - 255))%nat.
Proof.
  unfold fixed_fields. cbv zeta.
  exists (js " 2" ++ JsString.padStart customerNumber 25 (js " ")
          ++ (js "    "
              ++ JsString.padStart (js "1234567890123456789012345") 35 (js " ")
              ++ JsString.repeat (js " ") 126
              ++ JsString.padEnd
                   (js "AR_40_DDI_" ++ formattedDate ++ js " ##" ++ email ++ js "## ")
                   255 (js " ")
              ++ JsString.repeat (js " ") 82)).
  split; [|split].
  - change (JsString.padStart (js "2") 2 (js " ")) with (js " 2").
    rewrite app_nil_l. rewrite <- !app_assoc. reflexivity.
  - rewrite (app_assoc (js " 2")).
    rewrite drop_app_length'; [reflexivity|].
    rewrite length_app, padStart_space_length. reflexivity.
  - rewrite !length_app, !padStart_space_length, !padEnd_space_length,
      !repeat_space_length, !length_app.
    change (length (js " 2")) with 2%nat.
    change (length (js "    ")) with 4%nat.
    change (length (js "1234567890123456789012345")) with 25%nat.
    change (length (js "AR_40_DDI_")) with 10%nat.
    change (length (js " ##")) with 3%nat.
    change (length (js "## ")) with 3%nat.
    lia.
Qed.

(** X20.  Where the markers of a record end up.  The transaction type [DD]
    and the status flag [W] follow the customer number, the account
    placeholder and the date and e-mail field; they sit at positions 530-531
    and 560, and the customer number ends at position 27, whenever
    neither the customer number (25) nor the date and e-mail field (255)
    overruns its span.  An overrun of [over] code units shifts the markers
    by [over] before the record is cut to 606. *)
Theorem fixed_width_markers (record : gmap (list N) AttributeValue) (t : Z) :
  Date_parse (default [] (attr_S record (js "submissionDate"))) = Some t ->
  let customerNumber := default [] (attr_S record (js "customerNumber")) in
  let email := default [] (attr_S record (js "email")) in
  let formattedDate :=
    JsString.remove_all is_dash (JsString.slice (JsDate.toISOString t) 0 10) in
  let over := ((length customerNumber - 25)
               + (length formattedDate + length email + 16 - 255))%nat in
  exists line before,
    recordToFixedWidth record = Ok line
    /\ line = take 606 (before ++ js "DD" ++ JsString.repeat (js " ") 28 ++ js "W"
                          ++ JsString.repeat (js " ") 46)
    /\ length before = (529 + over)%nat
    /\ (over = 0%nat ->
        JsString.slice line 529 531 = js "DD"
        /\ JsString.slice line 559 560 = js "W"
        /\ JsString.slice line (27 - length customerNumber) 27 = customerNumber).
Proof.
  intros Hdate. cbv zeta.
  set (customerNumber := default [] (attr_S record (js "customerNumber"))).
  set (email := default [] (attr_S record (js "email"))).
  set (formattedDate := JsString.remove_all is_dash _).
  destruct (fixed_fields_split customerNumber email formattedDate)
    as (before & Hfields & Hhead & Hlen).
  assert (Hline : recordToFixedWidth record
                  = Ok (take 606 (fixed_fields customerNumber email formattedDate))).
  { unfold recordToFixedWidth. rewrite Hdate. cbn [JsDate.Date_toISOString bind].
    fold customerNumber email formattedDate.
    set (fields := fixed_fields _ _ _).
    assert (Hge : (606 <= length fields)%nat).
    { subst fields. rewrite fixed_fields_length. lia. }
    destruct (Nat.eqb_spec (length fields) 606) as [Heq | Hne]; cbn [negb]; f_equal.
    - now rewrite take_ge by lia.
    - rewrite substring_from_start. unfold JsString.padEnd.
      rewrite length_take. now rewrite Nat.min_l by lia. }
  exists (take 606 (fixed_fields customerNumber email formattedDate)), before.
  split; [exact Hline|]. rewrite Hfields.
  split; [reflexivity|]. split; [lia|].
  intros Hover.
  assert (Hb : length before = 529%nat) by lia.
  rewrite take_ge
    by (rewrite !length_app, !repeat_space_length, Hb; cbn [length js]; simpl; lia).
  split; [|split].
  - now apply slice_app_middle.
  - rewrite (app_assoc before), (app_assoc (before ++ js "DD")).
    apply slice_app_middle; [|reflexivity].
    rewrite !length_app, repeat_space_length, Hb. reflexivity.
  - rewrite Hhead. unfold JsString.padStart.
    destruct (Nat.leb_spec 25 (length customerNumber)) as [Hle | Hlt].
    + assert (E : length customerNumber = 25%nat) by lia.
      rewrite <- !app_assoc. rewrite E.
      apply slice_app_middle; [reflexivity | now rewrite E].
    + rewrite <- !app_assoc.
      rewrite (app_assoc (js " 2")).
      apply slice_app_middle.
      * rewrite length_app, filler_space_length. cbn [length js]. simpl. lia.
      * lia.
Qed.

End LayoutFacts.

(** ** The customer validator *)

Section ValidatorFacts.
Context `{Host}.
Import CustomerLookup.

Lemma remove_all_length (p : N -> bool) (s : jsstring) :
  (length (JsString.remove_all p s) <= length s)%nat.
Proof. unfold JsString.remove_all. apply filter_length_le. Qed.

(** What the validation of the customer validator lets through. *)
Lemma validated_lookup_input (customerNumber postcode cn pc : jsstring) :
  CustomerValidator.validateAndSanitizeInput customerNumber postcode = Ok (cn, pc) ->
  (exists d, (cn = js "1000" ++ d \/ cn = js "2000" ++ d)
             /\ length d = 7%nat /\ forallb Regex.digit d = true)
  /\ (length pc <= 10)%nat
  /\ forallb CustomerValidator.postcode_char pc = true
  /\ (5 <= length (JsString.remove_all Regex.space pc))%nat.
Proof.
  unfold CustomerValidator.validateAndSanitizeInput.
  destruct (Regex.test CustomerValidator.customer_number_format _) eqn:Hcn;
    [|discriminate].
  cbn [negb].
  match goal with |- context [(?n <? 5)%nat] =>
    destruct (Nat.ltb_spec n 5) as [|Hlen]; [discriminate|] end.
  intros [= <- <-].
  apply customer_number_format_spec in Hcn.
  split; [exact Hcn|].
  rewrite substring_from_start in *.
  split; [rewrite length_take; lia|].
  split; [apply forallb_take, forallb_remove_all | exact Hlen].
Qed.

(** X21.  The answers of the customer validator.  A request that is not a
    preflight is answered in one of five ways: 400 with one of the two
    validation messages, 200 for a match, 400 for no match, 500 when the
    secret, the connection or the query failed, and 400 with the message of
    the exception when closing the connection failed (which replaces even
    the answer for a match).  The answer [Invalid input parameters] of the
    handler is never given: values that passed validation are not empty. *)
Theorem customer_lookup_answers (env : Env) (event : Event) :
  httpMethod event <> js "OPTIONS" ->
  let response := handler env event in
  (statusCode response = 400
   /\ (body_of response = Failure (js "Invalid customer number format")
       \/ body_of response = Failure (js "Invalid postcode format")))
  \/ (statusCode response = 200
      /\ body_of response = Message (js "Valid customer and postcode")
      /\ connection_end env = Ok tt)
  \/ (statusCode response = 400
      /\ body_of response = Failure (js "No match for customer number and postcode")
      /\ connection_end env = Ok tt)
  \/ (statusCode response = 500 /\ body_of response = unable)
  \/ (statusCode response = 400
      /\ exists e, connection_end env = Throw e
                   /\ body_of response = Failure (error_message e)).
Proof.
  intros Hm. cbv zeta. unfold handler. rewrite (bool_decide_eq_false_2 _ Hm).
  destruct (CustomerValidator.validateAndSanitizeInput _ _) as [[cn pc]|e] eqn:Hval.
  - cbn [bind].
    destruct (validated_lookup_input _ _ _ _ Hval) as ((d & Hcn & Hd & _) & _ & _ & Hpc).
    assert (Hcn0 : (length cn =? 0)%nat = false).
    { apply Nat.eqb_neq. destruct Hcn as [-> | ->]; rewrite length_app; cbn; lia. }
    assert (Hpc0 : (length pc =? 0)%nat = false).
    { apply Nat.eqb_neq. pose proof (remove_all_length Regex.space pc). lia. }
    rewrite Hcn0, Hpc0. cbn [orb]. unfold lookup.
    destruct (getRDSCredentials env) as [[user password]|e];
      [|right; right; right; left; split; reflexivity].
    destruct (createConnection env user password) as [[]|e];
      [|right; right; right; left; split; reflexivity].
    destruct (connection_end env) as [[]|e]; cbn [bind].
    + destruct (execute env cn pc) as [rows|e];
        [|right; right; right; left; split; reflexivity].
      destruct (0 <? length rows)%nat.
      * right; left. repeat split.
      * right; right; left. repeat split.
    + right; right; right; right. split; [reflexivity|]. exists e. split; reflexivity.
  - left. split; [reflexivity|].
    unfold CustomerValidator.validateAndSanitizeInput in Hval.
    destruct (negb (Regex.test _ _)); [injection Hval as <-; now left|].
    destruct (_ <? 5)%nat; [injection Hval as <-; now right | discriminate].
Qed.

(** X22.  The database is only ever asked about sanitized values: the
    answer of the handler depends on the query results only at customer
    numbers of the form [1000] or [2000] plus seven digits and postcodes of
    at most 10 code units, each an upper-case letter, a digit or white
    space, at least five of them not white space. *)
Theorem lookup_sees_sanitized_values (env env' : Env) (event : Event) :
  getSecretValue env' = getSecretValue env ->
  createConnection env' = createConnection env ->
  connection_end env' = connection_end env ->
  (forall d pc,
      length d = 7%nat -> forallb Regex.digit d = true ->
      (length pc <= 10)%nat -> forallb CustomerValidator.postcode_char pc = true ->
      (5 <= length (JsString.remove_all Regex.space pc))%nat ->
      execute env' (js "1000" ++ d) pc = execute env (js "1000" ++ d) pc
      /\ execute env' (js "2000" ++ d) pc = execute env (js "2000" ++ d) pc) ->
  handler env' event = handler env event.
Proof.
  intros Hsec Hconn Hend Hexec. unfold handler.
  destruct (bool_decide _); [reflexivity|].
  destruct (CustomerValidator.validateAndSanitizeInput _ _) as [[cn pc]|e] eqn:Hval;
    [|reflexivity].
  cbn [bind]. destruct (_ || _); [reflexivity|].
  destruct (validated_lookup_input _ _ _ _ Hval)
    as ((d & Hcn & Hd & Hdig) & Hlen & Hchars & Hpc).
  destruct (Hexec d pc Hd Hdig Hlen Hchars Hpc) as [H1 H2].
  unfold lookup, getRDSCredentials. rewrite Hsec, Hconn, Hend.
  destruct Hcn as [-> | ->]; [rewrite H1 | rewrite H2]; reflexivity.
Qed.

(** X23.  The customer validator is the stricter of the two validations:
    whatever customer number and postcode it accepts, the form processor
    accepts too, with the same sanitized values, whenever the e-mail
    address passes its own test. *)
Theorem validator_accepts_implies_processor_accepts
    (customerNumber postcode email cn pc : jsstring) :
  CustomerValidator.validateAndSanitizeInput customerNumber postcode = Ok (cn, pc) ->
  Regex.test FormProcessor.emailRegex email = true ->
  FormProcessor.validateAndSanitizeInput customerNumber postcode email = Ok (cn, pc, email).
Proof.
  unfold CustomerValidator.validateAndSanitizeInput, FormProcessor.validateAndSanitizeInput.
  destruct (negb (Regex.test CustomerValidator.customer_number_format _)); [discriminate|].
  set (sanitized := JsString.substring _ 0 10).
  destruct (Nat.ltb_spec (length (JsString.remove_all Regex.space sanitized)) 5)
    as [|Hlen]; [discriminate|].
  intros [= <- <-] ->. cbn [negb].
  pose proof (remove_all_length Regex.space sanitized).
  destruct (Nat.ltb_spec (length sanitized) 5); [lia | reflexivity].
Qed.

End ValidatorFacts.

(** ** The CSV loader *)

Section CsvFacts.
Import CsvLoader.

Lemma split_cons (sep : N) (s : jsstring) :
  exists piece more, JsText.split sep s = piece :: more.
Proof.
  induction s as [|c r (piece & more & IH)]; cbn [JsText.split]; [eauto|].
  rewrite IH. destruct (c =? sep)%N; eauto.
Qed.

Lemma split_pieces (sep : N) (s : jsstring) (piece : jsstring) :
  In piece (JsText.split sep s) ->
  ~ In sep piece /\ forall c, In c piece -> In c s.
Proof.
  revert piece. induction s as [|c r IH]; intros piece; cbn [JsText.split].
  - intros [<- | []]. split; [intros [] | intros c []].
  - destruct (split_cons sep r) as (cur & more & E). rewrite E in *.
    destruct (N.eqb_spec c sep) as [-> | Hne].
    + intros [<- | Hin]; [split; [intros [] | intros c []]|].
      destruct (IH piece Hin) as [Hno Hsub]. split; [exact Hno|].
      intros x Hx. right. now apply Hsub.
    + intros [<- | Hin].
      * destruct (IH cur (or_introl eq_refl)) as [Hno Hsub]. split.
        -- intros [E' | Hin]; [congruence | contradiction].
        -- intros x [<- | Hx]; [now left | right; now apply Hsub].
      * destruct (IH piece (or_intror Hin)) as [Hno Hsub]. split; [exact Hno|].
        intros x Hx. right. now apply Hsub.
Qed.

Lemma split_first_line (sep : N) (header rest : jsstring) :
  ~ In sep header ->
  JsText.split sep (header ++ sep :: rest) = header :: JsText.split sep rest.
Proof.
  induction header as [|c h IH]; intros Hno.
  - cbn [app JsText.split]. destruct (split_cons sep rest) as (cur & more & ->).
    now rewrite N.eqb_refl.
  - cbn [app JsText.split]. rewrite IH by (intros Hin; apply Hno; now right).
    destruct (N.eqb_spec c sep) as [-> | _]; [exfalso; apply Hno; now left | reflexivity].
Qed.

Lemma split_one_line (sep : N) (line : jsstring) :
  ~ In sep line -> JsText.split sep line = [line].
Proof.
  induction line as [|c h IH]; intros Hno; [reflexivity|].
  cbn [JsText.split]. rewrite IH by (intros Hin; apply Hno; now right).
  destruct (N.eqb_spec c sep) as [-> | _]; [exfalso; apply Hno; now left | reflexivity].
Qed.

Lemma trimStart_suffix (s : jsstring) :
  exists p, s = p ++ JsText.trimStart s.
Proof.
  induction s as [|c r (p & IH)]; [now exists []|].
  cbn [JsText.trimStart]. destruct (Regex.space c).
  - exists (c :: p). cbn. now rewrite <- IH.
  - now exists [].
Qed.

Lemma trimStart_head (s : jsstring) (c : N) (r : jsstring) :
  JsText.trimStart s = c :: r -> Regex.space c = false.
Proof.
  induction s as [|c0 s IH]; [discriminate|].
  cbn [JsText.trimStart]. destruct (Regex.space c0) eqn:Hc; [exact IH|].
  now intros [= <- _].
Qed.

Lemma trimStart_fixed (c : N) (r : jsstring) :
  Regex.space c = false -> JsText.trimStart (c :: r) = c :: r.
Proof. intros Hc. cbn [JsText.trimStart]. now rewrite Hc. Qed.

Lemma trim_sub (s : jsstring) (c : N) : In c (JsText.trim s) -> In c s.
Proof.
  unfold JsText.trim, JsText.trimEnd. intros Hin.
  apply in_rev in Hin.
  destruct (trimStart_suffix (rev (JsText.trimStart s))) as (p & Ep).
  assert (H1 : In c (rev (JsText.trimStart s))).
  { rewrite Ep. apply in_or_app. now right. }
  apply in_rev in H1.
  destruct (trimStart_suffix s) as (q & Eq). rewrite Eq. apply in_or_app. now right.
Qed.

(** A trimmed string has no white space at either end: trimming it again
    changes nothing. *)
Lemma trim_trim (s : jsstring) : JsText.trim (JsText.trim s) = JsText.trim s.
Proof.
  unfold JsText.trim, JsText.trimEnd.
  set (a := JsText.trimStart s).
  destruct (JsText.trimStart (rev a)) as [|c b] eqn:Eb; [reflexivity|].
  pose proof (trimStart_head _ _ _ Eb) as Hc.
  destruct (trimStart_suffix (rev a)) as (p & Ep). rewrite Eb in Ep.
  assert (Ea : a = rev (c :: b) ++ rev p).
  { rewrite <- (rev_involutive a), Ep, rev_app_distr. reflexivity. }
  destruct (rev (c :: b)) as [|x xs] eqn:Ex.
  { apply (f_equal (@length N)) in Ex. rewrite length_rev in Ex. discriminate. }
  assert (Hx : Regex.space x = false).
  { apply (trimStart_head s x (xs ++ rev p)). fold a. now rewrite Ea. }
  rewrite (trimStart_fixed x xs Hx).
  rewrite <- Ex, rev_involutive, (trimStart_fixed c b Hc). reflexivity.
Qed.

Lemma remove_all_sub (p : N -> bool) (s : jsstring) (c : N) :
  In c (JsString.remove_all p s) -> In c s /\ p c = false.
Proof.
  unfold JsString.remove_all. intros Hin. apply filter_In in Hin as [Hin Hp].
  split; [assumption | now apply negb_true_iff].
Qed.

(** What a parsed field is: a column of a line, without its quotes, trimmed. *)
Lemma parsed_field (line column : jsstring) :
  In column (JsText.split (chr ",") (JsText.trim line)) ->
  let field := JsText.trim (JsString.remove_all is_quote column) in
  ~ In DQUOTE field /\ ~ In (chr ",") field
  /\ (forall c, In c field -> In c line)
  /\ JsText.trim field = field.
Proof.
  intros Hcol. cbv zeta.
  destruct (split_pieces _ _ _ Hcol) as [Hcomma Hsub].
  split; [|split; [|split]].
  - intros Hin. apply trim_sub, remove_all_sub in Hin as [_ Hq].
    unfold is_quote in Hq. now rewrite N.eqb_refl in Hq.
  - intros Hin. apply trim_sub, remove_all_sub in Hin as [Hin _]. contradiction.
  - intros c Hin. apply trim_sub, remove_all_sub in Hin as [Hin _].
    apply trim_sub. now apply Hsub.
  - apply trim_trim.
Qed.

Lemma nth_In_columns (columns : list jsstring) (i : nat) :
  (i < length columns)%nat -> In (nth i columns []) columns.
Proof. apply nth_In. Qed.

(** X24.  What the parser puts into a record.  Both fields are free of
    double quotes, commas and line feeds and have no white space at either
    end, and the service is fixed by the file name alone: [council-a] when
    the name contains [COUNCIL_A], [council-b] for every other name. *)
Theorem parsed_records_are_clean (fileName csvContent : jsstring) (record : Customer) :
  In record (parse_csv fileName csvContent) ->
  service record
  = (if JsText.includes fileName (js "COUNCIL_A") then js "council-a" else js "council-b")
  /\ Forall (fun field =>
               ~ In DQUOTE field /\ ~ In (chr ",") field /\ ~ In 10%N field
               /\ JsText.trim field = field)
       [customer_number record; postcode record].
Proof.
  unfold parse_csv. intros Hin.
  apply in_flat_map in Hin as (line & Hline & Hrec).
  assert (Hnl : ~ In 10%N line).
  { apply (split_pieces 10%N csvContent line).
    rewrite <- (take_drop 1 (JsText.split 10 csvContent)). apply in_or_app. now right. }
  unfold parse_line in Hrec.
  destruct (JsText.trim line) as [|c0 l0] eqn:Etrim; [destruct Hrec|].
  rewrite <- Etrim in Hrec.
  destruct (Nat.leb_spec 3 (length (JsText.split (chr ",") (JsText.trim line))))
    as [Hlen|]; [|destruct Hrec].
  destruct Hrec as [<- | []]. cbn [service customer_number postcode].
  split; [reflexivity|].
  assert (Hfield : forall i, (i < 3)%nat ->
            let field :=
              JsText.trim (JsString.remove_all is_quote
                             (nth i (JsText.split (chr ",") (JsText.trim line)) [])) in
            ~ In DQUOTE field /\ ~ In (chr ",") field /\ ~ In 10%N field
            /\ JsText.trim field = field).
  { intros i Hi.
    assert (Hi' : (i < length (JsText.split (chr ",") (JsText.trim line)))%nat) by lia.
    destruct (parsed_field line _ (nth_In_columns _ i Hi')) as (Hq & Hc & Hsub & Ht).
    cbv zeta. repeat split; try assumption.
    intros Hin. apply Hnl. now apply Hsub. }
  constructor; [apply (Hfield 0%nat); lia|].
  constructor; [apply (Hfield 1%nat); lia | constructor].
Qed.

(** X25.  The first line is never data: whatever it holds, it is skipped,
    so the records of a file are those of the text after its first line
    feed, and a file without a line feed gives no record at all. *)
Theorem first_line_is_skipped (fileName header rest : jsstring) :
  ~ In 10%N header ->
  parse_csv fileName (header ++ [10%N] ++ rest)
  = flat_map (parse_line fileName) (JsText.split 10 rest)
  /\ parse_csv fileName header = [].
Proof.
  intros Hno. unfold parse_csv. split.
  - cbn [app]. now rewrite split_first_line.
  - now rewrite split_one_line.
Qed.

Lemma insert_batches_effect (env : Env) :
  forall (fuel : nat) (l : list Row) (i n : nat) (db : list Row),
    (length l <= fuel)%nat ->
    let out := insert_batches env i (chunks fuel 1000 l) n db in
    (exists k, out.2 = db ++ take (1000 * k) l)
    /\ (forall m, out.1 = Ok m -> m = (n + length l)%nat /\ out.2 = db ++ l).
Proof.
  induction fuel as [|fuel IH]; intros l i n db Hlen; cbv zeta.
  - destruct l; [|cbn in Hlen; lia]. cbn. split.
    + exists 0%nat. now rewrite app_nil_r.
    + intros m [= <-]. now rewrite app_nil_r, Nat.add_0_r.
  - destruct l as [|x l'].
    + cbn. split.
      * exists 0%nat. now rewrite app_nil_r.
      * intros m [= <-]. now rewrite app_nil_r, Nat.add_0_r.
    + set (l := x :: l') in *.
      change (chunks (S fuel) 1000 l) with (take 1000 l :: chunks fuel 1000 (drop 1000 l)).
      cbn [insert_batches].
      destruct (insert env i) as [[]|e].
      * assert (Hd : (length (drop 1000 l) <= fuel)%nat).
        { rewrite length_drop. subst l. cbn [length] in *. lia. }
        destruct (IH (drop 1000 l) (i + 1000)%nat (n + length (take 1000 l))%nat
                    (db ++ take 1000 l) Hd) as [(k & Hk) Hok].
        split.
        -- exists (S k). rewrite Hk, <- app_assoc. f_equal.
           replace (1000 * S k)%nat with (1000 + 1000 * k)%nat by lia.
           now rewrite take_take_drop.
        -- intros m Hm. destruct (Hok m Hm) as [-> ->]. split.
           ++ rewrite <- (take_drop 1000 l) at 3. rewrite length_app. lia.
           ++ now rewrite <- app_assoc, take_drop.
      * cbn [fst snd]. split; [|discriminate].
        exists 0%nat. now rewrite app_nil_r.
Qed.

Lemma map_imap_id {A B} (f : B -> A) (l : list A) :
  forall g : nat -> A -> B, (forall i x, f (g i x) = x) -> map f (imap g l) = l.
Proof.
  induction l as [|x l IH]; intros g Hg; [reflexivity|].
  cbn. rewrite Hg. f_equal. apply IH. intros i y. apply Hg.
Qed.

Lemma values_of_customers (env : Env) (tick : nat) (records : list Customer) :
  map row_customer (values_of env tick records) = records.
Proof. unfold values_of. now apply map_imap_id. Qed.

(** X26.  A load that answers 200 has replaced the table: whatever rows
    were there before, the table then holds exactly the records of the
    first file followed by those of the second, each with its own clock
    reading, and [recordsLoaded] is their number. *)
Theorem successful_load_replaces_table (env : Env) (db db' : list Row) (resp : Response) :
  handler env db = (resp, db') ->
  statusCode resp = 200 ->
  exists bucketName a b,
    downloadAndParseCSV env bucketName (js "COUNCIL_A_CUSTOMER_LIST.CSV") = Ok a
    /\ downloadAndParseCSV env bucketName (js "COUNCIL_B_CUSTOMER_LIST.CSV") = Ok b
    /\ db' = values_of env 1 (a ++ b)
    /\ map row_customer db' = a ++ b
    /\ exists ms ts, body resp = Loaded (length (a ++ b)) 2 ms ts.
Proof.
  unfold handler. set (bucketName := match CSV_BUCKET env with Some (c :: b) => _ | _ => _ end).
  intros Hrun Hcode. exists bucketName.
  unfold CSV_FILES in Hrun. cbn [map_result] in Hrun.
  destruct (downloadAndParseCSV env bucketName (js "COUNCIL_A_CUSTOMER_LIST.CSV"))
    as [a|e]; [|injection Hrun as <- <-; discriminate Hcode].
  destruct (downloadAndParseCSV env bucketName (js "COUNCIL_B_CUSTOMER_LIST.CSV"))
    as [b|e]; [|injection Hrun as <- <-; discriminate Hcode].
  cbn [bind concat] in Hrun. rewrite app_nil_r in Hrun.
  exists a, b. split; [reflexivity|]. split; [reflexivity|].
  unfold loadRecordsToDatabase in Hrun.
  destruct (createConnection env) as [[]|e];
    [|injection Hrun as <- <-; discriminate Hcode].
  destruct (truncate env) as [[]|e].
  2:{ destruct (connection_end env); injection Hrun as <- <-; discriminate Hcode. }
  pose proof (insert_batches_effect env (length (values_of env 1 (a ++ b)))
                (values_of env 1 (a ++ b)) 0 0 [] (le_n _)) as [_ Hok].
  cbv zeta in Hok.
  destruct (insert_batches env 0 _ 0 []) as [r dbi].
  cbn [fst snd] in Hok.
  destruct (connection_end env) as [[]|e];
    [|injection Hrun as <- <-; discriminate Hcode].
  destruct r as [m|e]; [|injection Hrun as <- <-; discriminate Hcode].
  destruct (Hok m eq_refl) as [-> ->].
  injection Hrun as <- <-. cbn [app].
  split; [reflexivity|]. split.
  - apply values_of_customers.
  - unfold values_of. rewrite length_imap. cbn [body length CSV_FILES]. eauto.
Qed.

(** X27.  A failed download loads nothing: when either file cannot be read
    the answer is 500 with the message of the exception, no connection is
    made and the table is as it was. *)
Theorem failed_download_keeps_table (env : Env) (db : list Row) (e : JsError) :
  let bucketName := match CSV_BUCKET env with
                    | Some (c :: b) => c :: b
                    | _ => js "customer-data-files"
                    end in
  getObject env bucketName (js "COUNCIL_A_CUSTOMER_LIST.CSV") = Throw e
  \/ ((exists text, getObject env bucketName (js "COUNCIL_A_CUSTOMER_LIST.CSV") = Ok text)
      /\ getObject env bucketName (js "COUNCIL_B_CUSTOMER_LIST.CSV") = Throw e) ->
  handler env db
  = ({| statusCode := 500;
        body := Failed (error_message e) (JsDate.toISOString (clock env 1)) |}, db).
Proof.
  cbv zeta. unfold handler.
  set (bucketName := match CSV_BUCKET env with Some (c :: b) => _ | _ => _ end).
  unfold CSV_FILES, downloadAndParseCSV. cbn [map_result].
  intros [-> | [[text ->] ->]]; reflexivity.
Qed.

Lemma insert_batches_fail (env : Env) (e : JsError) :
  forall (k fuel : nat) (l : list Row) (i n : nat) (db : list Row),
    (length l <= fuel)%nat ->
    (forall j, (j < k)%nat -> insert env (i + 1000 * j) = Ok tt) ->
    insert env (i + 1000 * k) = Throw e ->
    (1000 * k < length l)%nat ->
    insert_batches env i (chunks fuel 1000 l) n db = (Throw e, db ++ take (1000 * k) l).
Proof.
  induction k as [|k IH]; intros fuel l i n db Hlen Hok Hfail Hk.
  - destruct fuel as [|fuel]; [lia|]. destruct l as [|x l']; [cbn in Hk; lia|].
    set (l := x :: l') in *.
    change (chunks (S fuel) 1000 l) with (take 1000 l :: chunks fuel 1000 (drop 1000 l)).
    cbn [insert_batches]. rewrite Nat.mul_0_r, Nat.add_0_r in Hfail. rewrite Hfail.
    now rewrite app_nil_r.
  - destruct fuel as [|fuel]; [lia|]. destruct l as [|x l']; [cbn in Hk; lia|].
    set (l := x :: l') in *.
    change (chunks (S fuel) 1000 l) with (take 1000 l :: chunks fuel 1000 (drop 1000 l)).
    cbn [insert_batches].
    pose proof (Hok 0%nat ltac:(lia)) as H0. rewrite Nat.mul_0_r, Nat.add_0_r in H0.
    rewrite H0.
    rewrite (IH fuel (drop 1000 l) (i + 1000)%nat _ _).
    + rewrite <- app_assoc. do 2 f_equal.
      replace (1000 * S k)%nat with (1000 + 1000 * k)%nat by lia.
      now rewrite take_take_drop.
    + rewrite length_drop. subst l. cbn [length] in *. lia.
    + intros j Hj. replace (i + 1000 + 1000 * j)%nat with (i + 1000 * S j)%nat by lia.
      apply Hok. lia.
    + replace (i + 1000 + 1000 * k)%nat with (i + 1000 * S k)%nat by lia. exact Hfail.
    + rewrite length_drop. lia.
Qed.

(** X28.  The load is not atomic.  The table is emptied before the first
    insert and the inserts go in batches of 1000; when the insert of batch
    [k] (counted from 0) is rejected after the earlier ones were accepted,
    the answer is 500 and the table is left with the first [1000 * k] of
    the new rows and none of the old ones. *)
Theorem rejected_batch_leaves_partial_table (env : Env) (db : list Row)
    (a b : list Customer) (k : nat) (e : JsError) :
  let bucketName := match CSV_BUCKET env with
                    | Some (c :: b) => c :: b
                    | _ => js "customer-data-files"
                    end in
  downloadAndParseCSV env bucketName (js "COUNCIL_A_CUSTOMER_LIST.CSV") = Ok a ->
  downloadAndParseCSV env bucketName (js "COUNCIL_B_CUSTOMER_LIST.CSV") = Ok b ->
  createConnection env = Ok tt ->
  truncate env = Ok tt ->
  connection_end env = Ok tt ->
  (forall j, (j < k)%nat -> insert env (1000 * j) = Ok tt) ->
  insert env (1000 * k) = Throw e ->
  (1000 * k < length (a ++ b))%nat ->
  handler env db
  = ({| statusCode := 500;
        body := Failed (error_message e)
                  (JsDate.toISOString (clock env (1 + length (a ++ b)))) |},
     take (1000 * k) (values_of env 1 (a ++ b))).
Proof.
  cbv zeta. unfold handler.
  set (bucketName := match CSV_BUCKET env with Some (c :: b) => _ | _ => _ end).
  intros Ha Hb Hconn Htrunc Hend Hok Hfail Hk.
  unfold CSV_FILES. cbn [map_result]. rewrite Ha, Hb. cbn [bind concat].
  rewrite app_nil_r. unfold loadRecordsToDatabase. rewrite Hconn, Htrunc, Hend.
  rewrite (insert_batches_fail env e k _ (values_of env 1 (a ++ b)) 0 0 []).
  - reflexivity.
  - lia.
  - exact Hok.
  - exact Hfail.
  - unfold values_of. now rewrite length_imap.
Qed.

End CsvFacts.

(** ** The patterns of the advisor form *)

Section FrontendFacts.
Import Regex RegexLanguage Frontend.

Lemma Matches_char (c : N) (s : jsstring) : Matches (Class (N.eqb c)) s <-> s = [c].
Proof.
  split.
  - intros Hm. apply Matches_Class in Hm as (c' & -> & Hc). apply N.eqb_eq in Hc as <-.
    reflexivity.
  - intros ->. constructor. apply N.eqb_refl.
Qed.

(** X29.  The e-mail test of the form, as its pattern is written.  The
    backslashes of the pattern are doubled, so it asks for a backslash and
    one more code unit where a dot was meant, and its character class
    excludes the backslash, the letter [s] and [@]: an address is accepted
    exactly when it reads [local@domain\xrest] with those three parts free
    of such characters.  No address without a backslash is accepted. *)
Theorem form_email_test_needs_backslash (email : jsstring) :
  (validateEmail email = true
   <-> exists l d c t,
         email = l ++ js "@" ++ d ++ [BACKSLASH; c] ++ t
         /\ l <> [] /\ d <> [] /\ t <> []
         /\ forallb email_char (l ++ d ++ t) = true
         /\ any_char c = true)
  /\ (~ In BACKSLASH email -> validateEmail email = false).
Proof.
  assert (Hspec : validateEmail email = true
                  <-> exists l d c t,
                        email = l ++ js "@" ++ d ++ [BACKSLASH; c] ++ t
                        /\ l <> [] /\ d <> [] /\ t <> []
                        /\ forallb email_char (l ++ d ++ t) = true
                        /\ any_char c = true).
  { unfold validateEmail. rewrite test_Matches. split.
    - intros Hm.
      apply Matches_Seq in Hm as (l & r1 & -> & Hl & Hm).
      apply Matches_Seq in Hm as (at_ & r2 & -> & Hat & Hm).
      apply Matches_Seq in Hm as (d & r3 & -> & Hd & Hm).
      apply Matches_Seq in Hm as (bs & r4 & -> & Hbs & Hm).
      apply Matches_Seq in Hm as (x & t & -> & Hx & Ht).
      apply Matches_lit in Hat as ->. apply Matches_char in Hbs as ->.
      apply Matches_Class in Hx as (c & -> & Hc).
      apply Matches_plus_class in Hl as [Hl1 Hl2].
      apply Matches_plus_class in Hd as [Hd1 Hd2].
      apply Matches_plus_class in Ht as [Ht1 Ht2].
      exists l, d, c, t. repeat split; try assumption.
      now rewrite !forallb_app, Hl2, Hd2, Ht2.
    - intros (l & d & c & t & -> & Hl & Hd & Ht & Hall & Hc).
      rewrite !forallb_app, !andb_true_iff in Hall. destruct Hall as (Hl2 & Hd2 & Ht2).
      constructor; [now apply Matches_plus_class|].
      constructor; [now apply Matches_lit|].
      constructor; [now apply Matches_plus_class|].
      apply (MSeq _ _ [BACKSLASH] (c :: t)); [now apply Matches_char|].
      apply (MSeq _ _ [c] t); [now constructor | now apply Matches_plus_class]. }
  split; [exact Hspec|].
  intros Hno. destruct (validateEmail email) eqn:Hv; [|reflexivity].
  exfalso. apply Hno. destruct (proj1 Hspec eq_refl) as (l & d & c & t & -> & _).
  apply in_or_app. right. apply in_or_app. right. apply in_or_app. right. now left.
Qed.

(** X30.  The customer number test of the form, as its pattern is written:
    with the backslash doubled, [\\d{7}] is a backslash and seven letters
    [d], so the one text accepted is [1000\ddddddd]; no text made of digits
    passes the test, and what passes it is refused by the validation of the
    lambdas. *)
Theorem form_customer_test_accepts_no_number (customerNumber : jsstring) :
  (isValidCustomer customerNumber = true
   <-> customerNumber = js "1000" ++ [BACKSLASH] ++ js "ddddddd")
  /\ (forallb digit customerNumber = true -> isValidCustomer customerNumber = false)
  /\ (isValidCustomer customerNumber = true ->
      test CustomerValidator.customer_number_format
        (JsString.remove_all (fun c => negb (digit c)) customerNumber) = false).
Proof.
  assert (Hspec : isValidCustomer customerNumber = true
                  <-> customerNumber = js "1000" ++ [BACKSLASH] ++ js "ddddddd").
  { unfold isValidCustomer. rewrite test_Matches. split.
    - intros Hm.
      apply Matches_Seq in Hm as (p & r1 & -> & Hp & Hm).
      apply Matches_Seq in Hm as (bs & r2 & -> & Hbs & Hd).
      apply Matches_lit in Hp as ->. apply Matches_char in Hbs as ->.
      apply Matches_times in Hd as [Hlen Hall].
      do 2 f_equal.
      do 8 (destruct r2 as [|? r2]; try discriminate Hlen).
      cbn in Hall. rewrite !andb_true_iff, !N.eqb_eq in Hall.
      destruct Hall as (<- & <- & <- & <- & <- & <- & <- & _). reflexivity.
    - intros ->.
      constructor; [now apply Matches_lit|].
      apply (MSeq _ _ [BACKSLASH] (js "ddddddd")); [now apply Matches_char|].
      apply Matches_times. split; reflexivity. }
  split; [exact Hspec|]. split.
  - intros Hdig. destruct (isValidCustomer customerNumber) eqn:Hv; [|reflexivity].
    pose proof (proj1 Hspec eq_refl) as E. subst customerNumber. discriminate Hdig.
  - intros Hv. apply Hspec in Hv. subst customerNumber. reflexivity.
Qed.

End FrontendFacts.

(** ** The properties on sample data *)

Section Instances.
Import DynamoDB.

(** Witness of X1. *)
Lemma validated_input_shape_witness : (5 <= length (js "AB1 2CD") <= 10)%nat.
Proof.
  refine (proj1 (proj2 (validated_input_shape (js "1000-1234567") (js "AB1 2CD")
                          (js "a@b.com") (js "10001234567") (js "AB1 2CD")
                          (js "a@b.com") _))).
  vm_compute. reflexivity.
Defined.

(** Witness of X2. *)
Lemma validated_number_has_service_witness :
  FormProcessor.determineServiceFromCustomerNumber (js "20001234567")
  = Ok (js "council-b").
Proof.
  refine (proj1 (validated_number_has_service (js "2000 1234 567") (js "AB1 2CD")
                   (js "a@b.com") (js "20001234567") (js "AB1 2CD") (js "a@b.com") _)).
  vm_compute. reflexivity.
Defined.

Lemma sample_complete_request (body : string) (cn pc em : string) :
  FormProcessor.or_else
    (URLSearchParams.get (FormProcessor.parameters_of (Sample.form_request body))
       (js "customer-number"))
    (URLSearchParams.get (FormProcessor.parameters_of (Sample.form_request body))
       (js "customer_number")) = Some (js cn) ->
  URLSearchParams.get (FormProcessor.parameters_of (Sample.form_request body))
    (js "postcode") = Some (js pc) ->
  URLSearchParams.get (FormProcessor.parameters_of (Sample.form_request body))
    (js "email") = Some (js em) ->
  js cn <> [] -> js pc <> [] -> js em <> [] ->
  FormRequest.complete_request (Sample.form_request body) (js cn) (js pc) (js em).
Proof. intros. split; auto. Qed.

(** Witness of X4. *)
Lemma validation_failure_is_500_witness :
  FormProcessor.statusCode
    (FormProcessor.handler Sample.form_env
       (Sample.form_request "customer_number=123&postcode=AB1+2CD&email=a%40b.com") ∅).1
  = 500.
Proof.
  destruct (validation_failure_is_500 (H := RefHost.host) Sample.form_env
              (Sample.form_request "customer_number=123&postcode=AB1+2CD&email=a%40b.com")
              ∅ (js "123") (js "AB1 2CD") (js "a@b.com")
              (Error (js "Invalid customer number format"))) as [Hrun _].
  - apply (sample_complete_request _ "123" "AB1 2CD" "a@b.com");
      solve [vm_compute; reflexivity | discriminate].
  - vm_compute. reflexivity.
  - rewrite Hrun. reflexivity.
Defined.

(** Witness of X5. *)
Lemma failed_encryption_leaves_submission_witness :
  exists item,
    (FormProcessor.handler Cases.form_env_no_random
       (Sample.form_request "customer_number=10001234567&postcode=AB1+2CD&email=a%40b.com")
       ∅).2 !! Sample.uuid = Some item
    /\ item !! js "status" = Some (AttrS (js "pending")).
Proof.
  destruct (failed_encryption_leaves_submission (H := RefHost.host)
              Cases.form_env_no_random
              (Sample.form_request
                 "customer_number=10001234567&postcode=AB1+2CD&email=a%40b.com")
              ∅ (js "10001234567") (js "AB1 2CD") (js "a@b.com")
              (js "10001234567") (js "AB1 2CD") (js "a@b.com")
              (js "council-a") (js "s3cret") (Error (js "entropy")))
    as (_ & item & Hrun & Hst & _).
  - apply (sample_complete_request _ "10001234567" "AB1 2CD" "a@b.com");
      solve [vm_compute; reflexivity | discriminate].
  - vm_compute. reflexivity.
  - vm_compute. reflexivity.
  - left. vm_compute. reflexivity.
  - reflexivity.
  - reflexivity.
  - reflexivity.
  - exists item. rewrite Hrun. split; [apply lookup_insert_eq | exact Hst].
Defined.

(** Witness of X6. *)
Lemma encrypted_payload_length_witness :
  length (js "AAECAwQFBgcICQoLDA0OD9QR5fitv6VmyfldvQmMDGY=") = 44%nat.
Proof.
  refine (proj1 (encrypted_payload_length (js "a=b") []
                   (js "AAECAwQFBgcICQoLDA0OD9QR5fitv6VmyfldvQmMDGY=") (Ok Sample.iv) _)).
  vm_compute. reflexivity.
Defined.

(** Witness of X7. *)
Lemma different_ivs_different_outputs_witness :
  js "AAECAwQFBgcICQoLDA0OD9QR5fitv6VmyfldvQmMDGY="
  <> js "AAAAAAAAAAAAAAAAAAAAAG6MpgWeK/oCZ9u18/hv6io=".
Proof.
  apply (different_ivs_different_outputs (js "a=b") (js "a=b") [] []
           (js "AAECAwQFBgcICQoLDA0OD9QR5fitv6VmyfldvQmMDGY=")
           (js "AAAAAAAAAAAAAAAAAAAAAG6MpgWeK/oCZ9u18/hv6io=")
           Sample.iv Cases.zero_iv).
  - vm_compute. reflexivity.
  - vm_compute. reflexivity.
  - intros E. vm_compute in E. discriminate E.
Defined.

(** Witness of X8. *)
Lemma handoff_payload_carries_submission_id_witness :
  exists item,
    (FormProcessor.handler Sample.form_env
       (Sample.form_request "customer_number=10001234567&postcode=AB1+2CD&email=a%40b.com")
       ∅).2 !! Sample.uuid = Some item
    /\ item !! js "status" = Some (AttrS (js "pending")).
Proof.
  edestruct (handoff_payload_carries_submission_id (H := RefHost.host) Sample.form_env
               (Sample.form_request
                  "customer_number=10001234567&postcode=AB1+2CD&email=a%40b.com") ∅)
    as (Hid & Hstored & _).
  - discriminate.
  - vm_compute. reflexivity.
  - exact Hstored.
Defined.

Lemma sample_pending_well_keyed : DailyExporter.well_keyed Sample.table_pending.
Proof.
  intros id item Hl. unfold Sample.table_pending in Hl.
  apply lookup_singleton_Some in Hl as [<- <-]. vm_compute. reflexivity.
Qed.

(** Witness of X10. *)
Lemma callback_decides_export_witness :
  exists item',
    In item'
      (Scan (WebhookHandler.handler Sample.webhook_env Sample.table_pending
               (Sample.callback Sample.approval)).2
         DailyExporter.approved_unexported).
Proof.
  destruct (callback_decides_export (H := RefHost.host) Sample.webhook_env
              Sample.table_pending (Sample.callback Sample.approval)
              Sample.approval_props Sample.uuid Sample.pending
              sample_pending_well_keyed sample_known_callback)
    as (item' & _ & _ & Hsel).
  exists item'. apply Hsel.
  split; [vm_compute; reflexivity|]. split; [vm_compute; reflexivity | reflexivity].
Defined.

(** Witness of X11. *)
Lemma unknown_submission_is_404_witness :
  WebhookHandler.statusCode
    (WebhookHandler.handler Sample.webhook_env ∅ (Sample.callback Sample.approval)).1
  = 404.
Proof.
  rewrite (unknown_submission_is_404 (H := RefHost.host) Sample.webhook_env ∅
             (Sample.callback Sample.approval) Sample.approval Sample.approval_props
             Sample.uuid).
  - reflexivity.
  - reflexivity.
  - reflexivity.
  - discriminate.
  - vm_compute. reflexivity.
  - reflexivity.
  - discriminate.
  - reflexivity.
  - reflexivity.
Defined.

(** Witness of X12. *)
Lemma missing_token_is_rejected_witness :
  WebhookHandler.statusCode
    (WebhookHandler.handler Sample.webhook_env Sample.table_pending
       (Sample.callback (Sample.json "{'VerificationStatus':'True'}"))).1
  = 400.
Proof.
  destruct (missing_token_is_rejected (H := RefHost.host) Sample.webhook_env
              Sample.table_pending
              (Sample.callback (Sample.json "{'VerificationStatus':'True'}"))
              (Sample.json "{'VerificationStatus':'True'}")) as [Hmissing _].
  - reflexivity.
  - reflexivity.
  - discriminate.
  - rewrite (Hmissing None); [reflexivity | vm_compute; reflexivity | reflexivity].
Defined.

(** Witness of X13. *)
Lemma form_encoded_callback_witness :
  exists props,
    WebhookHandler.parse_body
      (js "CustomData=abc&VerificationStatus=False&VerificationStatus=True")
    = JSON.Object props
    /\ WebhookHandler.outcome props = js "approved".
Proof.
  edestruct (form_encoded_callback
               (js "CustomData=abc&VerificationStatus=False&VerificationStatus=True"))
    as (props & Hbody & _ & Hout).
  - vm_compute. reflexivity.
  - exists props. split; [exact Hbody|]. apply Hout. vm_compute. reflexivity.
Defined.

(** Witness of X14. *)
Lemma second_run_exports_nothing_witness :
  DailyExporter.body
    (DailyExporter.handler (Sample.export_env false)
       (DailyExporter.handler (Sample.export_env false) Sample.world_approved).2).1
  = DailyExporter.NoRecords.
Proof.
  destruct (second_run_exports_nothing (H := RefHost.host)
              (Sample.export_env false) (Sample.export_env false) Sample.world_approved
              (DailyExporter.handler (Sample.export_env false) Sample.world_approved).2
              (DailyExporter.handler (Sample.export_env false) Sample.world_approved).1
              sample_well_keyed) as (_ & _ & Hrun).
  - intros key _. reflexivity.
  - apply surjective_pairing.
  - vm_compute. reflexivity.
  - reflexivity.
  - rewrite Hrun. reflexivity.
Defined.

Lemma sample_selected :
  DailyExporter.selected (DailyExporter.table Sample.world_approved) Sample.uuid
    Sample.approved.
Proof.
  split; [apply lookup_singleton_eq|]. split; vm_compute; reflexivity.
Qed.

Lemma sample_scanned :
  In Sample.approved
    (Scan (DailyExporter.table Sample.world_approved) DailyExporter.approved_unexported).
Proof.
  apply (proj2 (Scan_spec _ _ _)). split; [|vm_compute; reflexivity].
  exists Sample.uuid. split; [reflexivity | apply lookup_singleton_eq].
Qed.

(** Witness of X15. *)
Lemma exported_once_witness :
  exists item',
    Pipeline.callbacks [ (Sample.webhook_env, Sample.callback Sample.approval) ]
      (DailyExporter.table
         (DailyExporter.handler (Sample.export_env false) Sample.world_approved).2)
    !! Sample.uuid = Some item'
    /\ item' !! js "exported" = Some (AttrBOOL true).
Proof.
  destruct (exported_once (H := RefHost.host) (Sample.export_env false)
              Sample.world_approved
              (DailyExporter.handler (Sample.export_env false) Sample.world_approved).2
              (DailyExporter.handler (Sample.export_env false) Sample.world_approved).1
              [ (Sample.webhook_env, Sample.callback Sample.approval) ]
              Sample.uuid Sample.approved sample_well_keyed)
    as (item' & Hl & He & _).
  - apply surjective_pairing.
  - vm_compute. reflexivity.
  - apply lookup_singleton_eq.
  - exact sample_scanned.
  - exists item'. split; assumption.
Defined.

(** Witness of X16. *)
Lemma export_file_contents_witness :
  exists lines,
    DailyExporter.bucket
      (DailyExporter.handler (Sample.export_env false) Sample.world_approved).2
    !! js "DIRECT_DEBIT_EXPORT_20241102.txt" = Some (JsString.join [10%N] lines)
    /\ length lines = 1%nat.
Proof.
  edestruct (export_file_contents (H := RefHost.host) (Sample.export_env false)
               Sample.world_approved
               (DailyExporter.handler (Sample.export_env false) Sample.world_approved).2
               (DailyExporter.handler (Sample.export_env false) Sample.world_approved).1
               1%nat (js "DIRECT_DEBIT_EXPORT_20241102.txt"))
    as (_ & (lines & Hfile & Hlen & _) & _).
  - apply surjective_pairing.
  - vm_compute. reflexivity.
  - exists lines. split; assumption.
Defined.

(** Witness of X17. *)
Lemma same_day_export_replaces_file_witness :
  exists lines,
    DailyExporter.bucket
      (DailyExporter.handler (Sample.export_env false) Sample.world_approved).2
    !! js "DIRECT_DEBIT_EXPORT_20241102.txt" = Some (JsString.join [10%N] lines).
Proof.
  edestruct (same_day_export_replaces_file (H := RefHost.host)
               (Sample.export_env false) (Sample.export_env false)
               Sample.world_approved
               (DailyExporter.handler (Sample.export_env false) Sample.world_approved).2
               Sample.world_approved
               (DailyExporter.handler (Sample.export_env false) Sample.world_approved).2
               (DailyExporter.handler (Sample.export_env false) Sample.world_approved).1
               (DailyExporter.handler (Sample.export_env false) Sample.world_approved).1
               1%nat 1%nat (js "DIRECT_DEBIT_EXPORT_20241102.txt")
               (js "DIRECT_DEBIT_EXPORT_20241102.txt"))
    as (_ & lines & _ & Hfile).
  - apply surjective_pairing.
  - vm_compute. reflexivity.
  - apply surjective_pairing.
  - vm_compute. reflexivity.
  - reflexivity.
  - exists lines. exact Hfile.
Defined.

(** Witness of X18. *)
Lemma unparseable_date_blocks_export_witness :
  DailyExporter.handler (Sample.export_env false) Cases.world_undated
  = ({| DailyExporter.statusCode := 500;
        DailyExporter.body :=
          DailyExporter.Failed (js "Invalid time value")
            (JsDate.toISOString (DailyExporter.clock (Sample.export_env false) 1)) |},
     Cases.world_undated).
Proof.
  apply (unparseable_date_blocks_export (H := RefHost.host) (Sample.export_env false)
           Cases.world_undated Cases.undated).
  - reflexivity.
  - apply (proj2 (Scan_spec _ _ _)). split; [|vm_compute; reflexivity].
    exists Sample.uuid. split; [reflexivity | apply lookup_singleton_eq].
  - vm_compute. reflexivity.
Defined.

(** Witness of X19. *)
Lemma rejected_update_leaves_partial_marking_witness :
  DailyExporter.statusCode
    (DailyExporter.handler Cases.export_env_rejecting Sample.world_approved).1 = 500
  /\ DailyExporter.selected
       (DailyExporter.table
          (DailyExporter.handler Cases.export_env_rejecting Sample.world_approved).2)
       Sample.uuid Sample.approved.
Proof.
  destruct (rejected_update_leaves_partial_marking (H := RefHost.host)
              Cases.export_env_rejecting Sample.world_approved Sample.uuid Sample.approved
              sample_well_keyed) as (Hcode & _ & Hkept).
  - reflexivity.
  - reflexivity.
  - intros item Hin. apply (proj1 (Scan_spec _ _ _)) in Hin as [(id & _ & Hid) _].
    unfold Sample.world_approved, Sample.table_approved, DailyExporter.table in Hid.
    apply lookup_singleton_Some in Hid as [_ <-]. vm_compute. eauto.
  - apply lookup_singleton_eq.
  - exact sample_scanned.
  - reflexivity.
  - split; [exact Hcode|].
    exact (Hkept Sample.uuid Sample.approved (lookup_singleton_eq _ _) sample_scanned).
Defined.

(** Witness of X20. *)
Lemma fixed_width_markers_witness :
  exists line,
    DailyExporter.recordToFixedWidth Sample.approved = Ok line
    /\ JsString.slice line 529 531 = js "DD"
    /\ JsString.slice line 559 560 = js "W"
    /\ JsString.slice line 16 27 = js "10001234567".
Proof.
  destruct (fixed_width_markers (H := RefHost.host) Sample.approved 1730487845123)
    as (line & before & Hline & _ & _ & Hfit).
  - vm_compute. reflexivity.
  - exists line. split; [exact Hline|]. apply Hfit. vm_compute. reflexivity.
Defined.

(** Witness of X21. *)
Lemma customer_lookup_answers_witness :
  CustomerLookup.statusCode
    (CustomerLookup.handler Cases.lookup_env Cases.lookup_request) = 200
  /\ CustomerLookup.body_of (CustomerLookup.handler Cases.lookup_env Cases.lookup_request)
     = CustomerLookup.Message (js "Valid customer and postcode").
Proof.
  destruct (customer_lookup_answers (H := RefHost.host) Cases.lookup_env
              Cases.lookup_request) as [[_ [E|E]] | [[Hc [Hb _]] | Hrest]].
  - discriminate.
  - vm_compute in E. discriminate E.
  - vm_compute in E. discriminate E.
  - split; assumption.
  - exfalso. destruct Hrest as [(E & _) | [(E & _) | (_ & e & E & _)]];
      vm_compute in E; discriminate E.
Defined.

(** Witness of X22. *)
Lemma lookup_sees_sanitized_values_witness :
  CustomerLookup.handler Cases.strict_lookup_env Cases.lookup_request
  = CustomerLookup.handler Cases.lookup_env Cases.lookup_request.
Proof.
  apply (lookup_sees_sanitized_values (H := RefHost.host)).
  - reflexivity.
  - reflexivity.
  - reflexivity.
  - intros d pc Hd _ _ _ _.
    unfold Cases.strict_lookup_env. cbn [CustomerLookup.execute].
    rewrite !length_app, Hd. split; reflexivity.
Defined.

(** Witness of X23. *)
Lemma validator_accepts_implies_processor_accepts_witness :
  FormProcessor.validateAndSanitizeInput (js "10001234567") (js "AB1 2CD") (js "a@b.com")
  = Ok (js "10001234567", js "AB1 2CD", js "a@b.com").
Proof.
  apply validator_accepts_implies_processor_accepts; vm_compute; reflexivity.
Defined.

(** Witness of X24. *)
Lemma parsed_records_are_clean_witness :
  JsText.trim (js "AB1 2CD") = js "AB1 2CD" /\ ~ In DQUOTE (js "10001234567").
Proof.
  destruct (parsed_records_are_clean (js "COUNCIL_A_CUSTOMER_LIST.CSV") Cases.csv_a
              {| CsvLoader.customer_number := js "10001234567";
                 CsvLoader.postcode := js "AB1 2CD";
                 CsvLoader.service := js "council-a" |}) as [_ Hfields].
  - vm_compute. left. reflexivity.
  - apply Forall_cons in Hfields as [(Hq & _) Hfields].
    apply Forall_cons in Hfields as [(_ & _ & _ & Ht) _].
    split; assumption.
Defined.

(** Witness of X25. *)
Lemma first_line_is_skipped_witness :
  CsvLoader.parse_csv (js "COUNCIL_B_CUSTOMER_LIST.CSV")
    (js "20001234567,CD3 4EF,Brown") = [].
Proof.
  refine (proj2 (first_line_is_skipped (js "COUNCIL_B_CUSTOMER_LIST.CSV")
                   (js "20001234567,CD3 4EF,Brown") [] _)).
  intros Hin. vm_compute in Hin. intuition discriminate.
Defined.

(** Witness of X26. *)
Lemma successful_load_replaces_table_witness :
  map CsvLoader.row_customer
    (CsvLoader.handler (Cases.csv_env Cases.csv_objects (fun _ => Ok tt)) Cases.old_rows).2
  = CsvLoader.parse_csv (js "COUNCIL_A_CUSTOMER_LIST.CSV") Cases.csv_a
    ++ CsvLoader.parse_csv (js "COUNCIL_B_CUSTOMER_LIST.CSV") Cases.csv_b.
Proof.
  destruct (successful_load_replaces_table
              (Cases.csv_env Cases.csv_objects (fun _ => Ok tt)) Cases.old_rows
              (CsvLoader.handler (Cases.csv_env Cases.csv_objects (fun _ => Ok tt))
                 Cases.old_rows).2
              (CsvLoader.handler (Cases.csv_env Cases.csv_objects (fun _ => Ok tt))
                 Cases.old_rows).1)
    as (bucketName & a & b & Ha & Hb & _ & Hrows & _).
  - apply surjective_pairing.
  - vm_compute. reflexivity.
  - rewrite Hrows. injection Ha as <-. injection Hb as <-. reflexivity.
Defined.

(** Witness of X27. *)
Lemma failed_download_keeps_table_witness :
  (CsvLoader.handler
     (Cases.csv_env (fun _ _ => Throw (ServiceException (js "S3"))) (fun _ => Ok tt))
     Cases.old_rows).2
  = Cases.old_rows.
Proof.
  rewrite (failed_download_keeps_table
             (Cases.csv_env (fun _ _ => Throw (ServiceException (js "S3")))
                (fun _ => Ok tt))
             Cases.old_rows (ServiceException (js "S3"))).
  - reflexivity.
  - left. reflexivity.
Defined.

(** Witness of X28. *)
Lemma rejected_batch_leaves_partial_table_witness :
  (CsvLoader.handler
     (Cases.csv_env Cases.csv_objects (fun _ => Throw (Error (js "ER_DUP_ENTRY"))))
     Cases.old_rows).2
  = [].
Proof.
  rewrite (rejected_batch_leaves_partial_table
             (Cases.csv_env Cases.csv_objects (fun _ => Throw (Error (js "ER_DUP_ENTRY"))))
             Cases.old_rows
             (CsvLoader.parse_csv (js "COUNCIL_A_CUSTOMER_LIST.CSV") Cases.csv_a)
             (CsvLoader.parse_csv (js "COUNCIL_B_CUSTOMER_LIST.CSV") Cases.csv_b)
             0 (Error (js "ER_DUP_ENTRY"))).
  - reflexivity.
  - reflexivity.
  - reflexivity.
  - reflexivity.
  - reflexivity.
  - reflexivity.
  - intros j Hj. lia.
  - reflexivity.
  - vm_compute. lia.
Defined.


End Instances.
